(** * India daily news digest: the collection pipeline

    A shallow embedding of [daily_digest_india_local.py] and the properties
    of its pipeline: domain matching, content extraction, summarisation,
    the filter chain, the persisted set of sent URLs and the collector.

    Text is modelled over the code points U+0000..U+00FF, one [ascii] per
    character, so that [String.length] is Python's [len]. *)

From Stdlib Require Import ZArith NArith Ascii String List Bool Lia.
From Stdlib Require Import DecimalString Sorting.Permutation Sorting.Sorted.
From stdpp Require Import base gmap strings list sets.

Open Scope string_scope.
Set Warnings "-abstract-large-number,-clear-no-such-hyp".
#[local] Set Default Proof Using "Type".

(** ** Python string operations *)

Module Py.

(** [str.isspace] on one character, which is also what [\s] matches in a
    [str] pattern: TAB..CR, FS..US, SPACE, NEL and NBSP. *)
Definition is_space (c : ascii) : bool :=
  let n := N_of_ascii c in
  ((9 <=? n) && (n <=? 13) || (28 <=? n) && (n <=? 32)
   || (n =? 133) || (n =? 160))%N.

(** [str.lower] on one character: A..Z, and U+00C0..U+00DE except the
    multiplication sign U+00D7.  In the modelled range [str.lower] maps
    every character to one character; beyond it a character can become
    two (U+0130), so what follows does not take the length of a text for
    the length of its lowercased form. *)
Definition lower_char (c : ascii) : ascii :=
  let n := N_of_ascii c in
  if ((65 <=? n) && (n <=? 90)
      || (192 <=? n) && (n <=? 222) && negb (n =? 215))%N
  then ascii_of_N (n + 32) else c.

Fixpoint lower (s : string) : string :=
  match s with
  | EmptyString => EmptyString
  | String c s' => String (lower_char c) (lower s')
  end.

(** Truthiness of a [str]. *)
Definition truthy (s : string) : bool :=
  match s with EmptyString => false | _ => true end.

Fixpoint lstrip (s : string) : string :=
  match s with
  | EmptyString => EmptyString
  | String c s' => if is_space c then lstrip s' else s
  end.

Fixpoint rstrip (s : string) : string :=
  match s with
  | EmptyString => EmptyString
  | String c s' =>
      let r := rstrip s' in
      if is_space c && negb (truthy r) then EmptyString else String c r
  end.

Definition strip (s : string) : string := rstrip (lstrip s).

(** [s.startswith(p)]. *)
Fixpoint startswith (p s : string) : bool :=
  match p, s with
  | EmptyString, _ => true
  | String a p', String b s' => Ascii.eqb a b && startswith p' s'
  | String _ _, EmptyString => false
  end.

(** [s.removeprefix(p)]. *)
Fixpoint strip_prefix (p s : string) : option string :=
  match p, s with
  | EmptyString, _ => Some s
  | String a p', String b s' =>
      if Ascii.eqb a b then strip_prefix p' s' else None
  | String _ _, EmptyString => None
  end.

Definition removeprefix (p s : string) : string :=
  match strip_prefix p s with Some r => r | None => s end.

(** [sub in s]. *)
Fixpoint contains (sub s : string) : bool :=
  startswith sub s ||
  match s with
  | EmptyString => false
  | String _ s' => contains sub s'
  end.

(** [s[:n]] for [n >= 0]. *)
Fixpoint take (n : nat) (s : string) : string :=
  match n, s with
  | S k, String c s' => String c (take k s')
  | _, _ => EmptyString
  end.

(** [s.replace(old, new)] for a non-empty [old]: occurrences are replaced
    from left to right without overlap.  [skip] counts the characters of a
    replaced occurrence that are still to be passed over. *)
Fixpoint replace_from (old new : string) (skip : nat) (s : string) : string :=
  match s with
  | EmptyString => EmptyString
  | String c s' =>
      match skip with
      | S k => replace_from old new k s'
      | O =>
          if startswith old s
          then new ++ replace_from old new (Nat.pred (String.length old)) s'
          else String c (replace_from old new 0 s')
      end
  end.

Definition replace (old new s : string) : string := replace_from old new 0 s.

(** [sep.join(l)]. *)
Fixpoint join (sep : string) (l : list string) : string :=
  match l with
  | [] => EmptyString
  | [x] => x
  | x :: l' => x ++ sep ++ join sep l'
  end.

(** [l[:m]] for any integer [m]: a negative bound counts from the end. *)
Definition slice_to {A} (m : Z) (l : list A) : list A :=
  if (0 <=? m)%Z then firstn (Z.to_nat m) l
  else firstn (length l - Z.to_nat (- m)) l.

(** [str(n)] for a length. *)
Definition str_of_nat (n : nat) : string :=
  NilZero.string_of_uint (Nat.to_uint n).

(** [re.sub(r'\s+', ' ', s)]: every maximal run of whitespace becomes one
    space.  [in_run] tells that the previous character belonged to a run. *)
Fixpoint squeeze (in_run : bool) (s : string) : string :=
  match s with
  | EmptyString => EmptyString
  | String c s' =>
      if is_space c
      then if in_run then squeeze true s' else String " " (squeeze true s')
      else String c (squeeze false s')
  end.

Definition sub_whitespace (s : string) : string := squeeze false s.

(** The character class of the look-behind in [_SENTENCE_SPLIT_RE]. *)
Definition is_terminator (c : ascii) : bool :=
  (Ascii.eqb c "." || Ascii.eqb c "?" || Ascii.eqb c "!")%char.

(** [re.compile(r'(?<=[\.\?\!])\s+').split(s)]: the pieces between the
    matches, a match being a maximal run of whitespace that starts right
    after a terminator.  The result is the current piece and the later
    ones: [re.split] returns at least one piece. *)
Fixpoint split_from (after_term in_match : bool) (s : string)
  : string * list string :=
  match s with
  | EmptyString => (EmptyString, [])
  | String c s' =>
      if is_space c then
        if in_match then split_from false true s'
        else if after_term then
          (EmptyString, let '(p, ps) := split_from false true s' in p :: ps)
        else let '(p, ps) := split_from false false s' in (String c p, ps)
      else
        let '(p, ps) := split_from (is_terminator c) false s' in
        (String c p, ps)
  end.

Definition sentence_split (s : string) : list string :=
  let '(p, ps) := split_from false false s in p :: ps.

End Py.

(** The line feed. *)
Definition LF : string := String (ascii_of_nat 10) EmptyString.

(** ** Data model *)

(** A feed entry as the pipeline reads it.  Every attribute may be absent
    ([None]).  The two time fields hold the instant of a well-formed time
    tuple; a missing or malformed tuple, on which [datetime(...)] raises,
    is [None]. *)
Record entry := Entry {
  link : option string;
  title : option string;
  summary : option string;
  description : option string;
  published_parsed : option Z;
  updated_parsed : option Z
}.

(** A collected item: the dict with keys title, url, summary, published.
    The published time is kept as the instant; its ISO rendering is not
    modelled. *)
Record item := Item {
  item_title : string;
  item_url : string;
  item_summary : string;
  item_published : Z
}.

(** The module-level settings read from the environment. *)
Record config := Config {
  FEED_URLS : list string;
  ALLOW_DOMAINS : gset string;
  INCLUDE_KEYWORDS : list string;
  EXCLUDE_KEYWORDS : list string;
  MAX_ITEMS : Z;
  MAX_PER_FEED : Z;
  MIN_ARTICLE_LENGTH : Z;
  DRY_RUN : bool;
  GOOGLE_API_KEY : string;
  GEMINI_AVAILABLE : bool;
  SENDER_EMAIL : string;
  RECEIVER_EMAIL : string;
  APP_PASSWORD : string;
  PERSIST_SENT : bool
}.

(** ** Exceptions, effects and the outside world *)

(** The exceptions below [Exception] that the handlers tell apart:
    [requests.exceptions.RequestException] and every other one. *)
Inductive exn :=
| RequestException (msg : string)
| OtherException (msg : string).

(** [str(e)]. *)
Definition exn_str (e : exn) : string :=
  match e with RequestException m | OtherException m => m end.

Inductive outcome (A : Type) :=
| Ret (a : A)
| Raise (e : exn).
Arguments Ret {A} a.
Arguments Raise {A} e.

(** What [BeautifulSoup] finds in a page: the texts of the [<p>] elements
    of the first [<article>], when there is one, and of all [<p>]s. *)
Record soup := Soup {
  find_article : option (list string);
  find_all_p : list string
}.

(** A response: the message of the [HTTPError] that [raise_for_status]
    raises, if any, and the result of parsing its content. *)
Record response := Response {
  http_error : option string;
  parsed_content : outcome soup
}.

(** A Gemini response: its [text] attribute (absent, raising on access, or
    a string) and its [str()]. *)
Record gemini_response := GeminiResponse {
  text_attr : option (outcome string);
  resp_str : string
}.

(** Where a write of [SENT_FILE] that does not go through raises: in
    [open(SENT_FILE, "w")], which then leaves the file as it was, or after
    it, when the file has been opened and thereby emptied. *)
Inductive failure_point :=
| AtOpen
| AfterOpen.

(** The collaborators of one run: the feeds, the pages, Gemini, the mail
    server, the file system and the clock.  [file_writable] tells whether
    the [with open(SENT_FILE, "w")] block of [save_sent_set] runs to its
    end; when it does not, [write_failure] tells where it raises. *)
Record world := World {
  urlparse_netloc : string -> outcome string;
  feedparser_parse : string -> outcome (list entry);
  requests_get : string -> outcome response;
  generate_content : string -> outcome gemini_response;
  smtp_deliver : string -> string -> outcome unit;
  file_writable : bool;
  write_failure : failure_point;
  utcnow : Z;
  today_long : string;
  today_iso : string
}.

(** The contents of [SENT_FILE].  A JSON document is the array of strings
    that [save_sent_set] writes, or a value that is not a list; arrays with
    other elements are outside the model.  [Corrupt] is a file on which the
    body of the [try] in [load_sent_set] raises: it cannot be opened or is
    not valid JSON, as a file is that was emptied or written in part. *)
Inductive json_doc :=
| JsonArray (l : list string)
| JsonOther.

Inductive file_state :=
| Missing
| Corrupt
| Json (d : json_doc).

Inductive event :=
| EvFeed (url : string)
| EvHttpGet (url : string)
| EvGenerate (prompt : string)
| EvSleep
| EvPrintBody (body : string)
| EvSmtp (subject body : string).

Record state := State {
  sent_file : file_state;
  trace : list event
}.

(** Computations that read and write the state and may raise. *)
Definition M (A : Type) : Type := state -> outcome A * state.

Definition ret {A} (a : A) : M A := fun st => (Ret a, st).

Definition bind {A B} (m : M A) (f : A -> M B) : M B := fun st =>
  match m st with
  | (Ret a, st') => f a st'
  | (Raise e, st') => (Raise e, st')
  end.

Declare Scope M_scope.
Delimit Scope M_scope with M.
Bind Scope M_scope with M.
Notation "x ← y ; z" := (bind y (fun x => z))
  (at level 20, y at level 100, z at level 200, only parsing) : M_scope.
Notation "' x ← y ; z" := (bind y (fun x => z))
  (at level 20, x pattern, y at level 100, z at level 200, only parsing)
  : M_scope.
Notation "x ;; z" := (bind x (fun _ => z))
  (at level 100, z at level 200, only parsing, right associativity) : M_scope.
Open Scope M_scope.

Definition raise {A} (e : exn) : M A := fun st => (Raise e, st).

(** [try: m  except ... as e: h e]; the handler [h] covers [Exception], and
    tells the classes apart by matching on [e]. *)
Definition try_except {A} (m : M A) (h : exn -> M A) : M A := fun st =>
  match m st with
  | (Ret a, st') => (Ret a, st')
  | (Raise e, st') => h e st'
  end.

Definition emit (ev : event) : M unit := fun st =>
  (Ret tt, State (sent_file st) (trace st ++ [ev])).

(** An answer of the outside world, as a computation. *)
Definition lift {A} (o : outcome A) : M A := fun st => (o, st).

Definition get_file : M file_state := fun st => (Ret (sent_file st), st).

Definition put_file (f : file_state) : M unit := fun st =>
  (Ret tt, State f (trace st)).

(** [st] after the events [evs]. *)
Definition after (st : state) (evs : list event) : state :=
  State (sent_file st) (trace st ++ evs).

(** [x or ''] for an optional string attribute. *)
Definition or_empty (o : option string) : string :=
  match o with Some s => s | None => EmptyString end.

(** [x or y] for optional strings: [x] when it is a non-empty string. *)
Definition or_else (x y : option string) : option string :=
  match x with
  | Some s => if Py.truthy s then x else y
  | None => y
  end.

(** ** The pipeline *)

Section Pipeline.

Context (w : world) (cfg : config).

(** *** Helpers *)

(** [urlparse(url).netloc.lower().replace("www.", '')], and the empty
    string when that raises. *)
Definition domain_of (url : string) : string :=
  match urlparse_netloc w url with
  | Ret netloc => Py.replace "www." EmptyString (Py.lower netloc)
  | Raise _ => EmptyString
  end.

(** [sorted] on strings: insertion into an ascending list. *)
Fixpoint insert_sorted (x : string) (l : list string) : list string :=
  match l with
  | [] => [x]
  | y :: l' => if String.leb x y then x :: l else y :: insert_sorted x l'
  end.

Definition sorted (l : list string) : list string :=
  foldr insert_sorted [] l.

Definition exists_file : M bool :=
  f ← get_file;
  ret (match f with Missing => false | _ => true end).

(** [with open(SENT_FILE) as f: json.load(f)]. *)
Definition json_load : M json_doc :=
  f ← get_file;
  match f with
  | Json d => ret d
  | Corrupt => raise (OtherException "JSONDecodeError")
  | Missing => raise (OtherException "FileNotFoundError")
  end.

(** [with open(SENT_FILE, "w") as f: json.dump(l, f, indent=2)].  Opening
    the file for writing empties it, so a write that raises after the
    [open] leaves a file that is no JSON document. *)
Definition json_dump (l : list string) : M unit :=
  if file_writable w then put_file (Json (JsonArray l))
  else
    match write_failure w with
    | AtOpen => raise (OtherException "OSError")
    | AfterOpen => put_file Corrupt;; raise (OtherException "OSError")
    end.

Definition load_sent_set : M (gset string) :=
  if negb (PERSIST_SENT cfg) then ret ∅
  else
    present ← exists_file;
    if present then
      try_except
        (data ← json_load;
         ret (list_to_set
                 (match data with JsonArray l => l | JsonOther => [] end)))
        (fun _ => ret ∅)
    else ret ∅.

Definition save_sent_set (sent : gset string) : M unit :=
  if negb (PERSIST_SENT cfg) then ret tt
  else
    try_except
      (json_dump (sorted (elements sent)))
      (fun _ => ret tt).

(** *** Extraction *)

Definition http_get (url : string) : M response :=
  emit (EvHttpGet url);; lift (requests_get w url).

Definition raise_for_status (r : response) : M unit :=
  match http_error r with
  | Some msg => raise (RequestException msg)
  | None => ret tt
  end.

(** The paragraphs of the article if the page has one, else all of them,
    stripped, the empty ones dropped, joined by single spaces. *)
Definition page_text (s : soup) : string :=
  let paras :=
    match find_article s with
    | Some ps => ps
    | None => find_all_p s
    end in
  Py.join " " (filter (fun p => Py.truthy p = true) (map Py.strip paras)).

Definition fetch_page (url : string) : M (option string * option string) :=
  try_except
    (r ← http_get url;
     raise_for_status r;;
     soup ← lift (parsed_content r);
     let text := page_text soup in
     if negb (Py.truthy text)
        || (Z.of_nat (String.length text) <? MIN_ARTICLE_LENGTH cfg)%Z
     then ret (None, None)
     else ret (Some (Py.take 6000 text), None))
    (fun e =>
       match e with
       | RequestException _ => ret (None, Some ("fetch_error: " ++ exn_str e))
       | OtherException _ => ret (None, Some ("extract_error: " ++ exn_str e))
       end).

(** *** Summarisation *)

(** [re.sub(r'\s+', ' ', text).strip()]. *)
Definition normalized (text : string) : string :=
  Py.strip (Py.sub_whitespace text).

Definition simple_extractive_summary (text : string) (max_sentences : Z)
  : string :=
  let text := normalized text in
  if negb (Py.truthy text) then EmptyString
  else
    let sentences := Py.sentence_split text in
    let chosen := Py.slice_to max_sentences sentences in
    let headline :=
      match chosen with
      | s :: _ => s
      | [] => Py.take 100 text ++ "..."
      end in
    let bullets :=
      if (1 <? length chosen)%nat then tail chosen
      else Py.slice_to max_sentences chosen in
    let bullets_txt :=
      match bullets with
      | [] => EmptyString
      | _ => Py.join LF (map (fun b => "- " ++ Py.strip b) bullets)
      end in
    Py.strip headline ++ LF ++ bullets_txt.

Definition prompt_of (title text : string) : string :=
  "You are a concise, factual summarizer. Output:" ++ LF
  ++ "- One short headline (one line)" ++ LF
  ++ "- Three clear bullet points (each 1 sentence)" ++ LF ++ LF
  ++ "Article Title: " ++ title ++ LF ++ LF
  ++ "Article Text:" ++ LF ++ text ++ LF ++ LF ++ "Summary:".

(** [hasattr(resp, "text") and resp.text], then [resp.text.strip()] or
    [str(resp)]; [hasattr] swallows a missing attribute only. *)
Definition response_text (resp : gemini_response) : M string :=
  match text_attr resp with
  | None => ret (resp_str resp)
  | Some o =>
      t ← lift o;
      if Py.truthy t then ret (Py.strip t) else ret (resp_str resp)
  end.

Definition summarize (title text : string) : M string :=
  if Py.truthy (GOOGLE_API_KEY cfg) && GEMINI_AVAILABLE cfg then
    try_except
      (let prompt := prompt_of title text in
       emit (EvGenerate prompt);;
       resp ← lift (generate_content w prompt);
       response_text resp)
      (fun _ => ret (simple_extractive_summary text 3))
  else ret (simple_extractive_summary text 3).

(** *** Filtering *)

(** [any(allow in dom for allow in ALLOW_DOMAINS)]. *)
Definition any_allowed (dom : string) : bool :=
  existsb (fun allow => Py.contains allow dom) (elements (ALLOW_DOMAINS cfg)).

(** The verdict of the first check of [passes_filters]:
    [not (ALLOW_DOMAINS and not any(...))]. *)
Definition domain_allowed (url : string) : bool :=
  negb (negb (bool_decide (ALLOW_DOMAINS cfg = ∅))
        && negb (any_allowed (domain_of url))).

(** [(getattr(entry, "summary", "") or getattr(entry, "description", "")
    or "").lower()]: the feed summary, or else the description,
    lowercased. *)
Definition lowered_summary (e : entry) : string :=
  Py.lower (or_empty (or_else (summary e) (description e))).

(** The lowercased [title], a space, and the lowercased summary. *)
Definition combined_text (e : entry) : string :=
  Py.lower (or_empty (title e)) ++ " " ++ lowered_summary e.

(** The first exclude keyword found in the combined text. *)
Definition first_excluded (e : entry) : option string :=
  find (fun kw => Py.truthy kw && Py.contains kw (combined_text e))
       (EXCLUDE_KEYWORDS cfg).

(** [INCLUDE_KEYWORDS and not any(kw in combined ...)]. *)
Definition include_missed (e : entry) : bool :=
  match INCLUDE_KEYWORDS cfg with [] => false | _ => true end
  && negb (existsb (fun kw => Py.contains kw (combined_text e))
                   (INCLUDE_KEYWORDS cfg)).

(** [len(extracted_text or '') if extracted_text else len(summary or '')]. *)
Definition effective_len (e : entry) (extracted_text : option string) : nat :=
  match extracted_text with
  | Some t => if Py.truthy t then String.length t
              else String.length (lowered_summary e)
  | None => String.length (lowered_summary e)
  end.

Definition passes_filters (e : entry) (extracted_text : option string)
  : bool * string :=
  let url := or_empty (link e) in
  let dom := domain_of url in
  if negb (domain_allowed url) then (false, "domain_not_allowed:" ++ dom)
  else
    match first_excluded e with
    | Some kw => (false, "exclude_keyword:" ++ kw)
    | None =>
        if include_missed e then (false, "include_keywords_not_matched")
        else
          let n := effective_len e extracted_text in
          if (Z.of_nat n <? MIN_ARTICLE_LENGTH cfg)%Z
          then (false, "too_short(len=" ++ Py.str_of_nat n ++ ")")
          else (true, "ok")
    end.

(** *** Collection *)

(** The published time of an entry, best effort: [published_parsed], then
    [updated_parsed], then the time of the run. *)
Definition resolve_published (e : entry) : Z :=
  match published_parsed e with
  | Some t => t
  | None =>
      match updated_parsed e with
      | Some t => t
      | None => utcnow w
      end
  end.

(** The candidates of one feed; a feed that fails to parse gives none. *)
Definition feed_candidates (feed : string) : M (list (Z * entry)) :=
  try_except
    (emit (EvFeed feed);;
     entries ← lift (feedparser_parse w feed);
     ret (map (fun e => (resolve_published e, e))
              (Py.slice_to (MAX_PER_FEED cfg) entries)))
    (fun _ => ret []).

Fixpoint gather (feeds : list string) : M (list (Z * entry)) :=
  match feeds with
  | [] => ret []
  | feed :: feeds' =>
      cs ← feed_candidates feed;
      rest ← gather feeds';
      ret (cs ++ rest)%list
  end.

(** [candidates.sort(key=lambda x: x[0], reverse=True)]: newest first,
    candidates of equal time in their order of arrival. *)
Fixpoint insert_newest (c : Z * entry) (l : list (Z * entry))
  : list (Z * entry) :=
  match l with
  | [] => [c]
  | d :: l' => if (fst c <? fst d)%Z then d :: insert_newest c l' else c :: l
  end.

Definition sort_newest (l : list (Z * entry)) : list (Z * entry) :=
  foldr insert_newest [] l.

Definition sleep : M unit := emit EvSleep.

(** [getattr(entry, "title", url or "Untitled")]. *)
Definition title_of (e : entry) (url : string) : string :=
  match title e with
  | Some t => t
  | None => if Py.truthy url then url else "Untitled"
  end.

(** The body of the loop for a candidate that is not skipped: fetch the
    page, fall back to the feed summary, filter, summarize, pause.  [None]
    is a [continue]. *)
Definition attempt (published : Z) (e : entry) (url title : string)
  : M (option item) :=
  '(extracted, err) ← fetch_page url;
  match or_else extracted (or_else (summary e) (description e)) with
  | None => ret None
  | Some text =>
      if negb (Py.truthy text) then ret None
      else
        let '(ok, reason) := passes_filters e (Some text) in
        if negb ok then ret None
        else
          summary_txt ← summarize title text;
          sleep;;
          ret (Some (Item title url summary_txt published))
  end.

(** The loop over the sorted candidates; [collected] is the list built so
    far.  The set [sent] is the one loaded before the loop and is never
    updated in it. *)
Fixpoint collect_loop (sent : gset string) (max_items : Z)
    (candidates : list (Z * entry)) (collected : list item) : M (list item) :=
  match candidates with
  | [] => ret collected
  | (published, e) :: rest =>
      if (max_items <=? Z.of_nat (length collected))%Z then ret collected
      else
        let url := or_empty (link e) in
        let title := title_of e url in
        if negb (Py.truthy url) then collect_loop sent max_items rest collected
        else if bool_decide (url ∈ sent)
        then collect_loop sent max_items rest collected
        else
          r ← attempt published e url title;
          match r with
          | Some it => collect_loop sent max_items rest (collected ++ [it])%list
          | None => collect_loop sent max_items rest collected
          end
  end.

Definition collect_and_summarize (max_items : Z) : M (list item) :=
  sent ← load_sent_set;
  candidates ← gather (FEED_URLS cfg);
  collect_loop sent max_items (sort_newest candidates) [].

(** *** Email *)

Fixpoint item_lines (i : nat) (items : list item) : list string :=
  match items with
  | [] => []
  | it :: items' =>
      (Py.str_of_nat i ++ ". " ++ item_title it)
      :: ("Link: " ++ item_url it)
      :: "Summary:"
      :: item_summary it
      :: EmptyString
      :: item_lines (S i) items'
  end.

(** The dash of the header is the bytes of U+2014; these lines are never
    measured. *)
Definition compose_email_body (items : list item) : string :=
  Py.join LF
    (("India Daily Digest — " ++ today_long w)
     :: "----------------------------------------"
     :: EmptyString
     :: item_lines 1 items).

Definition send_email (subject body : string) : M unit :=
  if DRY_RUN cfg then emit (EvPrintBody body)
  else if negb (Py.truthy (SENDER_EMAIL cfg) && Py.truthy (RECEIVER_EMAIL cfg)
                && Py.truthy (APP_PASSWORD cfg))
  then raise (OtherException "SENDER_EMAIL, RECEIVER_EMAIL and APP_PASSWORD environment variables required to send email.")
  else
    emit (EvSmtp subject body);;
    lift (smtp_deliver w subject body).

(** *** Runner *)

Definition main : M unit :=
  sent_before ← load_sent_set;
  items ← collect_and_summarize (MAX_ITEMS cfg);
  match items with
  | [] => ret tt
  | _ =>
      let body := compose_email_body items in
      let subject :=
        "India Daily Top " ++ Py.str_of_nat (length items) ++ " — "
        ++ today_iso w in
      send_email subject body;;
      if PERSIST_SENT cfg && negb (DRY_RUN cfg) then
        sent ← load_sent_set;
        save_sent_set (foldl (fun s it => {[item_url it]} ∪ s) sent items)
      else ret tt
  end.

End Pipeline.

(** ** Reading the runs *)

(** [m] returns [v] after the events [evs] from every state, and neither
    raises nor touches the file. *)
Definition yields {A} (m : M A) (v : A) (evs : list event) : Prop :=
  forall st, m st = (Ret v, after st evs).

Definition url_of (e : entry) : string := or_empty (link e).

(** The two tests that make the loop pass over a candidate at once. *)
Definition skipped (sent : gset string) (e : entry) : bool :=
  negb (Py.truthy (url_of e)) || bool_decide (url_of e ∈ sent).

Definition is_http_get (ev : event) : bool :=
  match ev with EvHttpGet _ => true | _ => false end.

(** What the loop body does with an entry, whatever its published time:
    it accepts it with summary [s] ([Some s]) or drops it ([None]), after a
    request for its page and the events [evs]. *)
Definition verdict (w : world) (cfg : config) (e : entry)
    (res : option string) (evs : list event) : Prop :=
  forall p,
    yields (attempt w cfg p e (url_of e) (title_of e (url_of e)))
           (option_map
              (fun s => Item (title_of e (url_of e)) (url_of e) s p) res)
           (EvHttpGet (url_of e) :: evs).

Definition rejected (w : world) (cfg : config) (e : entry) : Prop :=
  exists evs, verdict w cfg e None evs.

(** What [fetch_page] returns, read off the answers of the world. *)
Inductive fetched (w : world) (cfg : config) (url : string)
  : option string * option string -> Prop :=
| fetched_request_error msg :
    requests_get w url = Raise (RequestException msg) ->
    fetched w cfg url (None, Some ("fetch_error: " ++ msg))
| fetched_http_error resp msg :
    requests_get w url = Ret resp -> http_error resp = Some msg ->
    fetched w cfg url (None, Some ("fetch_error: " ++ msg))
| fetched_other_error msg :
    requests_get w url = Raise (OtherException msg) ->
    fetched w cfg url (None, Some ("extract_error: " ++ msg))
| fetched_parse_request_error resp msg :
    requests_get w url = Ret resp -> http_error resp = None ->
    parsed_content resp = Raise (RequestException msg) ->
    fetched w cfg url (None, Some ("fetch_error: " ++ msg))
| fetched_parse_error resp msg :
    requests_get w url = Ret resp -> http_error resp = None ->
    parsed_content resp = Raise (OtherException msg) ->
    fetched w cfg url (None, Some ("extract_error: " ++ msg))
| fetched_insufficient resp s :
    requests_get w url = Ret resp -> http_error resp = None ->
    parsed_content resp = Ret s ->
    page_text s = EmptyString
    \/ (Z.of_nat (String.length (page_text s)) < MIN_ARTICLE_LENGTH cfg)%Z ->
    fetched w cfg url (None, None)
| fetched_text resp s :
    requests_get w url = Ret resp -> http_error resp = None ->
    parsed_content resp = Ret s ->
    page_text s <> EmptyString ->
    (MIN_ARTICLE_LENGTH cfg <= Z.of_nat (String.length (page_text s)))%Z ->
    fetched w cfg url (Some (Py.take 6000 (page_text s)), None).

(** A write of the file that raises after the file was opened. *)
Definition write_truncates (w : world) : bool :=
  negb (file_writable w)
  && match write_failure w with AfterOpen => true | AtOpen => false end.

(** The set that [load_sent_set] reads from the file. *)
Definition loaded_set (cfg : config) (f : file_state) : gset string :=
  if PERSIST_SENT cfg then
    match f with
    | Json (JsonArray l) => list_to_set l
    | _ => ∅
    end
  else ∅.

(** The candidates that one feed contributes. *)
Definition feed_entries (w : world) (cfg : config) (feed : string)
  : list (Z * entry) :=
  match feedparser_parse w feed with
  | Ret entries =>
      map (fun e => (resolve_published w e, e))
          (Py.slice_to (MAX_PER_FEED cfg) entries)
  | Raise _ => []
  end.

(** The sorted candidates of a run. *)
Definition candidates_of (w : world) (cfg : config) : list (Z * entry) :=
  sort_newest (flat_map (feed_entries w cfg) (FEED_URLS cfg)).

(** The world of a later run against the same feeds: the pages, Gemini
    and the clock may be others by then. *)
Definition later (w : world) (pages : string -> outcome response)
    (gemini : string -> outcome gemini_response)
    (now : Z) (long iso : string) : world :=
  {| urlparse_netloc := urlparse_netloc w;
     feedparser_parse := feedparser_parse w;
     requests_get := pages;
     generate_content := gemini;
     smtp_deliver := smtp_deliver w;
     file_writable := file_writable w;
     write_failure := write_failure w;
     utcnow := now;
     today_long := long;
     today_iso := iso |}.

(** The lines of a text, and those of them that are bullets. *)
Fixpoint lines_from (s : string) : string * list string :=
  match s with
  | EmptyString => (EmptyString, [])
  | String c s' =>
      let '(p, ps) := lines_from s' in
      if Ascii.eqb c (ascii_of_nat 10) then (EmptyString, p :: ps)
      else (String c p, ps)
  end.

Definition lines (s : string) : list string :=
  let '(p, ps) := lines_from s in p :: ps.

Definition bullet_lines (s : string) : list string :=
  filter (fun l => Py.startswith "- " l = true) (lines s).

(** The lines that the items take in the body: for each item its numbered
    title, its link, the label, the lines of its summary and an empty
    line. *)
Fixpoint item_blocks (i : nat) (items : list item) : list string :=
  match items with
  | [] => []
  | it :: items' =>
      (Py.str_of_nat i ++ ". " ++ item_title it)
      :: ("Link: " ++ item_url it)
      :: "Summary:"
      :: (lines (item_summary it) ++ EmptyString :: item_blocks (S i) items')%list
  end.

(** The matcher in the words of the specification: the host with a leading
    [www.] taken off, lowercased, against the entries of the allow-set. *)
Definition worded_domain_verdict (allow : gset string) (host : string) : bool :=
  existsb (fun a => Py.contains a (Py.lower (Py.removeprefix "www." host)))
          (elements allow).

(** The host in the words of the specification: the network location
    without the user information, which ends at its last [@], and without
    the port, which starts at the first [:] after that. *)
Fixpoint after_last_at (s : string) : string :=
  match s with
  | EmptyString => EmptyString
  | String c s' =>
      if Py.contains "@" s' then after_last_at s'
      else if Ascii.eqb c "@" then s' else s
  end.

Fixpoint before_colon (s : string) : string :=
  match s with
  | EmptyString => EmptyString
  | String c s' =>
      if Ascii.eqb c ":" then EmptyString else String c (before_colon s')
  end.

Definition worded_host (netloc : string) : string :=
  before_colon (after_last_at netloc).

(** ** A concrete world *)

(** The netloc that [urlparse] computes for a URL that is free of control
    characters and does not begin with a blank: the text between the [//]
    that follows the scheme and the next [/], [?] or [#].  A netloc with
    one bracket only is refused; what [urlparse] checks between a pair of
    brackets is not modelled.  The definition serves the examples, whose
    URLs hold no bracket; the theorems hold for every [urlparse_netloc]. *)
Module Url.

Definition is_alpha (c : ascii) : bool :=
  let n := N_of_ascii c in
  ((65 <=? n) && (n <=? 90) || (97 <=? n) && (n <=? 122))%N.

Definition is_scheme_char (c : ascii) : bool :=
  let n := N_of_ascii c in
  (is_alpha c || (48 <=? n) && (n <=? 57)
   || (n =? 43) || (n =? 45) || (n =? 46))%N.

Fixpoint after_colon (s : string) : option string :=
  match s with
  | EmptyString => None
  | String c s' =>
      if Ascii.eqb c ":" then Some s'
      else if is_scheme_char c then after_colon s' else None
  end.

Definition drop_scheme (url : string) : string :=
  match url with
  | String c _ =>
      if is_alpha c
      then match after_colon url with Some rest => rest | None => url end
      else url
  | EmptyString => url
  end.

Fixpoint until_delimiter (s : string) : string :=
  match s with
  | EmptyString => EmptyString
  | String c s' =>
      if (Ascii.eqb c "/" || Ascii.eqb c "?" || Ascii.eqb c "#")%char
      then EmptyString else String c (until_delimiter s')
  end.

Definition netloc (url : string) : outcome string :=
  match drop_scheme url with
  | String "/" (String "/" rest) =>
      let n := until_delimiter rest in
      if xorb (Py.contains "[" n) (Py.contains "]" n)
      then Raise (OtherException "Invalid IPv6 URL")
      else Ret n
  | _ => Ret EmptyString
  end.

End Url.

Definition DEFAULT_ALLOW_DOMAINS : gset string :=
  list_to_set
    ["timesofindia.indiatimes.com"; "thehindu.com"; "hindustantimes.com";
     "indianexpress.com"; "ndtv.com"; "indiatoday.in";
     "economictimes.indiatimes.com"; "news18.com"].

(** The defaults of the script, with two feeds and no Gemini client. *)
Definition default_config : config :=
  {| FEED_URLS := ["https://www.thehindu.com/news/national/feeder/default.rss";
                   "https://www.indiatoday.in/rss/home"];
     ALLOW_DOMAINS := DEFAULT_ALLOW_DOMAINS;
     INCLUDE_KEYWORDS := [];
     EXCLUDE_KEYWORDS := [];
     MAX_ITEMS := 10;
     MAX_PER_FEED := 25;
     MIN_ARTICLE_LENGTH := 150;
     DRY_RUN := false;
     GOOGLE_API_KEY := "API_KEY";
     GEMINI_AVAILABLE := false;
     SENDER_EMAIL := "sender@gmail.com";
     RECEIVER_EMAIL := "receiver@gmail.com";
     APP_PASSWORD := "xxxx xxxx xxxx xxxx";
     PERSIST_SENT := true |}.

Definition budget_text : string :=
  "The budget was announced in parliament today. " ++
  "Spending on roads and railways rises by a tenth. " ++
  "Income tax slabs stay as they were last year. " ++
  "Markets closed slightly higher after the speech. " ++
  "The opposition called the plan a missed chance.".

Definition monsoon_text : string :=
  "The monsoon reached the southern coast two days early. " ++
  "Heavy rain is forecast for the week across three states. " ++
  "Farmers have begun sowing rice in the delta districts.".

Definition budget_entry : entry :=
  {| link := Some "https://www.thehindu.com/a";
     title := Some "Budget announced";
     summary := Some "Budget announced in parliament.";
     description := None;
     published_parsed := Some 200%Z;
     updated_parsed := None |}.

Definition monsoon_entry : entry :=
  {| link := Some "https://www.indiatoday.in/b";
     title := Some "Monsoon arrives";
     summary := Some "Monsoon arrives early.";
     description := None;
     published_parsed := Some 100%Z;
     updated_parsed := None |}.

Definition foreign_entry : entry :=
  {| link := Some "https://example.com/a";
     title := Some "Budget announced";
     summary := Some "Budget announced in parliament.";
     description := None;
     published_parsed := Some 300%Z;
     updated_parsed := None |}.

Definition page (text : string) : outcome response :=
  Ret (Response None (Ret (Soup (Some [text]) [text; "Subscribe now"]))).

(** The budget story is carried by both feeds; the second feed also has the
    monsoon story. *)
Definition sample_world : world :=
  {| urlparse_netloc := Url.netloc;
     feedparser_parse := fun feed =>
       if String.eqb feed "https://www.thehindu.com/news/national/feeder/default.rss"
       then Ret [budget_entry]
       else if String.eqb feed "https://www.indiatoday.in/rss/home"
       then Ret [budget_entry; monsoon_entry]
       else Raise (OtherException "unknown feed");
     requests_get := fun url =>
       if String.eqb url "https://www.thehindu.com/a" then page budget_text
       else if String.eqb url "https://www.indiatoday.in/b"
       then page monsoon_text
       else if String.eqb url "https://www.ndtv.com/c" then page "Brief note."
       else if String.eqb url "https://www.news18.com/d"
       then Ret (Response None (Raise (OtherException "bad markup")))
       else if String.eqb url "https://www.news18.com/e"
       then Raise (RequestException "connection refused")
       else Ret (Response (Some "404 Client Error: Not Found")
                          (Ret (Soup None [])));
     generate_content := fun _ => Raise (OtherException "no client");
     smtp_deliver := fun _ _ => Ret tt;
     file_writable := true;
     write_failure := AtOpen;
     utcnow := 1000;
     today_long := "November 03, 2026";
     today_iso := "2026-11-03" |}.

Definition initial_state : state := State Missing [].

(** The sample world on a day when the page of the monsoon story cannot be
    reached. *)
Definition offline_page_world : world :=
  {| urlparse_netloc := urlparse_netloc sample_world;
     feedparser_parse := feedparser_parse sample_world;
     requests_get := fun url =>
       if String.eqb url "https://www.indiatoday.in/b"
       then Raise (RequestException "Read timed out")
       else requests_get sample_world url;
     generate_content := generate_content sample_world;
     smtp_deliver := smtp_deliver sample_world;
     file_writable := file_writable sample_world;
     write_failure := write_failure sample_world;
     utcnow := utcnow sample_world;
     today_long := today_long sample_world;
     today_iso := today_iso sample_world |}.

(** The sample world with a Gemini that answers, but with an empty text. *)
Definition mute_gemini_world : world :=
  {| urlparse_netloc := urlparse_netloc sample_world;
     feedparser_parse := feedparser_parse sample_world;
     requests_get := requests_get sample_world;
     generate_content := fun _ =>
       Ret (GeminiResponse (Some (Ret EmptyString))
              "<GenerateContentResponse>");
     smtp_deliver := smtp_deliver sample_world;
     file_writable := file_writable sample_world;
     write_failure := write_failure sample_world;
     utcnow := utcnow sample_world;
     today_long := today_long sample_world;
     today_iso := today_iso sample_world |}.

(** The sample world with a disk that fills up: the file is opened, and
    the write into it raises. *)
Definition full_disk_world : world :=
  {| urlparse_netloc := urlparse_netloc sample_world;
     feedparser_parse := feedparser_parse sample_world;
     requests_get := requests_get sample_world;
     generate_content := generate_content sample_world;
     smtp_deliver := smtp_deliver sample_world;
     file_writable := false;
     write_failure := AfterOpen;
     utcnow := utcnow sample_world;
     today_long := today_long sample_world;
     today_iso := today_iso sample_world |}.

(** [default_config] with the two keyword lists set. *)
Definition keyword_config (include exclude : list string) : config :=
  {| FEED_URLS := FEED_URLS default_config;
     ALLOW_DOMAINS := ALLOW_DOMAINS default_config;
     INCLUDE_KEYWORDS := include;
     EXCLUDE_KEYWORDS := exclude;
     MAX_ITEMS := MAX_ITEMS default_config;
     MAX_PER_FEED := MAX_PER_FEED default_config;
     MIN_ARTICLE_LENGTH := MIN_ARTICLE_LENGTH default_config;
     DRY_RUN := DRY_RUN default_config;
     GOOGLE_API_KEY := GOOGLE_API_KEY default_config;
     GEMINI_AVAILABLE := GEMINI_AVAILABLE default_config;
     SENDER_EMAIL := SENDER_EMAIL default_config;
     RECEIVER_EMAIL := RECEIVER_EMAIL default_config;
     APP_PASSWORD := APP_PASSWORD default_config;
     PERSIST_SENT := PERSIST_SENT default_config |}.

(** The sample configuration with a Gemini client at hand; the sample world
    lets the call fail. *)
Definition gemini_config : config :=
  {| FEED_URLS := FEED_URLS default_config;
     ALLOW_DOMAINS := ALLOW_DOMAINS default_config;
     INCLUDE_KEYWORDS := [];
     EXCLUDE_KEYWORDS := [];
     MAX_ITEMS := MAX_ITEMS default_config;
     MAX_PER_FEED := MAX_PER_FEED default_config;
     MIN_ARTICLE_LENGTH := MIN_ARTICLE_LENGTH default_config;
     DRY_RUN := DRY_RUN default_config;
     GOOGLE_API_KEY := GOOGLE_API_KEY default_config;
     GEMINI_AVAILABLE := true;
     SENDER_EMAIL := SENDER_EMAIL default_config;
     RECEIVER_EMAIL := RECEIVER_EMAIL default_config;
     APP_PASSWORD := APP_PASSWORD default_config;
     PERSIST_SENT := PERSIST_SENT default_config |}.

(** The default configuration with room for one item only. *)
Definition one_item_config : config :=
  {| FEED_URLS := FEED_URLS default_config;
     ALLOW_DOMAINS := ALLOW_DOMAINS default_config;
     INCLUDE_KEYWORDS := [];
     EXCLUDE_KEYWORDS := [];
     MAX_ITEMS := 1;
     MAX_PER_FEED := MAX_PER_FEED default_config;
     MIN_ARTICLE_LENGTH := MIN_ARTICLE_LENGTH default_config;
     DRY_RUN := false;
     GOOGLE_API_KEY := GOOGLE_API_KEY default_config;
     GEMINI_AVAILABLE := false;
     SENDER_EMAIL := SENDER_EMAIL default_config;
     RECEIVER_EMAIL := RECEIVER_EMAIL default_config;
     APP_PASSWORD := APP_PASSWORD default_config;
     PERSIST_SENT := true |}.

(** ** Configuration from the environment *)

(** [s.split(sep)] for a separator of one character: the current piece and
    the later ones. *)
Fixpoint split_from_char (sep : ascii) (s : string) : string * list string :=
  match s with
  | EmptyString => (EmptyString, [])
  | String c s' =>
      let '(p, ps) := split_from_char sep s' in
      if Ascii.eqb c sep then (EmptyString, p :: ps) else (String c p, ps)
  end.

Definition split_char (sep : ascii) (s : string) : list string :=
  let '(p, ps) := split_from_char sep s in p :: ps.

(** [os.environ.get(name, default)]. *)
Definition environ_get (environ : gmap string string) (name default : string)
  : string :=
  match environ !! name with
  | Some v => v
  | None => default
  end.

(** [[f(s.strip()) for s in raw.split(",") if s.strip()]]. *)
Definition stripped_parts (f : string -> string) (raw : string) : list string :=
  map (fun s => f (Py.strip s))
      (filter (fun s => Py.truthy (Py.strip s) = true) (split_char "," raw)).

Definition get_env_list (environ : gmap string string) (name : string)
    (default : list string) : list string :=
  let raw := environ_get environ name EmptyString in
  if Py.truthy (Py.strip raw) then stripped_parts (fun s => s) raw
  else default.

Definition DEFAULT_FEEDS : list string :=
  ["https://timesofindia.indiatimes.com/rssfeedstopstories.cms";
   "https://www.thehindu.com/news/national/feeder/default.rss";
   "https://www.hindustantimes.com/rss/topnews/rssfeed.xml";
   "https://indianexpress.com/section/india/feed/";
   "https://feeds.feedburner.com/ndtvnews-top-stories";
   "https://www.indiatoday.in/rss/home"].

(** [set(d.strip().lower() for d in ... if d.strip()) or
    DEFAULT_ALLOW_DOMAINS]. *)
Definition environ_allow_domains (environ : gmap string string) : gset string :=
  let given : gset string :=
    list_to_set
      (stripped_parts Py.lower
         (environ_get environ "ALLOW_DOMAINS" EmptyString)) in
  if bool_decide (given = ∅) then DEFAULT_ALLOW_DOMAINS else given.

(** [[k.strip().lower() for k in os.environ.get(name, '').split(",")
    if k.strip()]]. *)
Definition environ_keywords (environ : gmap string string) (name : string)
  : list string :=
  stripped_parts Py.lower (environ_get environ name EmptyString).

(** [os.environ.get(name, default).lower() == "true"]. *)
Definition environ_flag (environ : gmap string string) (name default : string)
  : bool :=
  String.eqb (Py.lower (environ_get environ name default)) "true".

(** The settings of the module for an environment.  The three integers are
    the values of [int(os.environ.get(...))], and [gemini] tells whether the
    import of the Gemini client succeeded. *)
Definition config_of_environ (environ : gmap string string)
    (max_items max_per_feed min_article_length : Z) (gemini : bool) : config :=
  {| FEED_URLS := get_env_list environ "FEED_URLS" DEFAULT_FEEDS;
     ALLOW_DOMAINS := environ_allow_domains environ;
     INCLUDE_KEYWORDS := environ_keywords environ "INCLUDE_KEYWORDS";
     EXCLUDE_KEYWORDS := environ_keywords environ "EXCLUDE_KEYWORDS";
     MAX_ITEMS := max_items;
     MAX_PER_FEED := max_per_feed;
     MIN_ARTICLE_LENGTH := min_article_length;
     DRY_RUN := environ_flag environ "DRY_RUN" "false";
     GOOGLE_API_KEY := Py.strip (environ_get environ "GOOGLE_API_KEY" "API_KEY");
     GEMINI_AVAILABLE := gemini;
     SENDER_EMAIL :=
       Py.strip (environ_get environ "SENDER_EMAIL" "sender@gmail.com");
     RECEIVER_EMAIL :=
       Py.strip (environ_get environ "RECEIVER_EMAIL" "receiver@gmail.com");
     APP_PASSWORD :=
       Py.strip (environ_get environ "APP_PASSWORD" "xxxx xxxx xxxx xxxx");
     PERSIST_SENT := environ_flag environ "PERSIST_SENT" "true" |}.

(** ** The single-story script [main.py] *)

Module MainPy.

Section Script.

Context (w : world).

(** All paragraphs joined by spaces, without stripping; [None] under 200
    characters and on every exception.  The status of the response is not
    looked at. *)
Definition get_article_text (url : string) : M (option string) :=
  try_except
    (emit (EvHttpGet url);;
     response ← lift (requests_get w url);
     soup ← lift (parsed_content response);
     let article_text := Py.join " " (find_all_p soup) in
     if (String.length article_text <? 200)%nat then ret None
     else ret (Some article_text))
    (fun _ => ret None).

Definition send_email (subject body : string) : M unit :=
  try_except
    (emit (EvSmtp subject body);;
     lift (smtp_deliver w subject body))
    (fun _ => ret tt).

Definition news_feed_url : string :=
  "https://timesofindia.indiatimes.com/rssfeedstopstories.cms".

Definition prompt_of (article_title full_text : string) : string :=
  "Please summarize the following news article in 3 short, clear bullet points:"
  ++ LF ++ LF ++ "Article Title: " ++ article_title ++ LF ++ LF
  ++ "Article Text:" ++ LF ++ full_text.

Definition email_body (article_title article_url summary : string) : string :=
  "Today's Top Story:" ++ LF ++ article_title ++ LF ++ LF
  ++ "Link: " ++ article_url ++ LF ++ LF ++ "Summary:" ++ LF ++ summary.

(** [entry.attr] on a feed entry: a missing attribute raises. *)
Definition attribute (o : option string) : M string :=
  match o with
  | Some v => ret v
  | None => raise (OtherException "AttributeError")
  end.

(** [response.text]. *)
Definition response_text (resp : gemini_response) : M string :=
  match text_attr resp with
  | Some o => lift o
  | None => raise (OtherException "AttributeError")
  end.

(** The statements of the module after the two functions. *)
Definition script : M unit :=
  emit (EvFeed news_feed_url);;
  entries ← lift (feedparser_parse w news_feed_url);
  match entries with
  | [] => ret tt
  | first_article :: _ =>
      article_url ← attribute (link first_article);
      article_title ← attribute (title first_article);
      full_text ← get_article_text article_url;
      match full_text with
      | Some text =>
          if Py.truthy text then
            try_except
              (let prompt := prompt_of article_title text in
               emit (EvGenerate prompt);;
               response ← lift (generate_content w prompt);
               summary ← response_text response;
               let email_subject :=
                 "Your Daily News Digest - " ++ today_long w in
               send_email email_subject
                          (email_body article_title article_url summary))
              (fun _ => ret tt)
          else ret tt
      | None => ret tt
      end
  end.

End Script.

End MainPy.

(** ** Counting in traces *)

Definition is_sleep (ev : event) : bool :=
  match ev with EvSleep => true | _ => false end.

Definition is_delivery (ev : event) : bool :=
  match ev with EvSmtp _ _ | EvPrintBody _ => true | _ => false end.

Definition is_smtp (ev : event) : bool :=
  match ev with EvSmtp _ _ => true | _ => false end.

Definition is_generate (ev : event) : bool :=
  match ev with EvGenerate _ => true | _ => false end.

(** The events of [l] that satisfy [f]. *)
Definition count_events (f : event -> bool) (l : list event) : nat :=
  length (List.filter f l).

(** [d] is a descending list of times. *)
Definition newest_first (l : list Z) : Prop :=
  StronglySorted (fun a b => (b <= a)%Z) l.

(** The item that the loop builds from a candidate and its summary. *)
Definition chosen_item (c : (Z * entry) * string) : item :=
  let '((p, e), s) := c in Item (title_of e (url_of e)) (url_of e) s p.

(** The subject line of the digest. *)
Definition subject_of (w : world) (items : list item) : string :=
  "India Daily Top " ++ Py.str_of_nat (length items) ++ " — " ++ today_iso w.

(** [SENDER_EMAIL and RECEIVER_EMAIL and APP_PASSWORD]. *)
Definition credentials_set (cfg : config) : bool :=
  Py.truthy (SENDER_EMAIL cfg) && Py.truthy (RECEIVER_EMAIL cfg)
  && Py.truthy (APP_PASSWORD cfg).

(** The first character of [s], if any, is not whitespace. *)
Definition starts_clean (s : string) : bool :=
  match s with
  | EmptyString => true
  | String c _ => negb (Py.is_space c)
  end.

(** The only whitespace in [s] is single spaces, each followed by a
    character that is not whitespace or by the end. *)
Fixpoint single_spaced (s : string) : bool :=
  match s with
  | EmptyString => true
  | String c s' =>
      (if Py.is_space c then Ascii.eqb c " " && starts_clean s' else true)
      && single_spaced s'
  end.

(** * Properties *)

(** ** The operations at work *)

Example lower_mixed : Py.lower "WWW.TheHindu.com" = "www.thehindu.com".
Proof. reflexivity. Qed.

Example strip_both : Py.strip "  a b  " = "a b".
Proof. reflexivity. Qed.

Example replace_all : Py.replace "www." EmptyString "www.a.www.b" = "a.b".
Proof. reflexivity. Qed.

Example split_two :
  Py.sentence_split "One.  Two? three" = ["One."; "Two?"; "three"].
Proof. reflexivity. Qed.

Example split_trailing : Py.sentence_split "One. " = ["One."; EmptyString].
Proof. reflexivity. Qed.

Example slice_negative : Py.slice_to (-1) [1; 2; 3] = [1; 2].
Proof. reflexivity. Qed.

Example str_of_nat_120 : Py.str_of_nat 120 = "120".
Proof. reflexivity. Qed.

Example netloc_hindu :
  Url.netloc "http://WWW.TheHindu.com/x" = Ret "WWW.TheHindu.com".
Proof. reflexivity. Qed.

Example netloc_relative : Url.netloc "/news/a?b=http://c" = Ret EmptyString.
Proof. reflexivity. Qed.

Example sort_newest_stable :
  map fst (sort_newest [(1, budget_entry); (3, monsoon_entry);
                        (3, budget_entry); (2, foreign_entry)])%Z
  = [3; 3; 2; 1]%Z
  /\ map snd (sort_newest [(1, budget_entry); (3, monsoon_entry);
                           (3, budget_entry); (2, foreign_entry)])%Z
     = [monsoon_entry; budget_entry; foreign_entry; budget_entry].
Proof. split; reflexivity. Qed.

Example summary_of_budget :
  simple_extractive_summary budget_text 3
  = "The budget was announced in parliament today." ++ LF
    ++ "- Spending on roads and railways rises by a tenth." ++ LF
    ++ "- Income tax slabs stay as they were last year.".
Proof. reflexivity. Qed.

(** The scenario of the specification: one entry from an allowed domain,
    no keyword filters; the item is accepted and heads the body. *)
Example budget_is_delivered :
  compose_email_body sample_world
    [Item "Budget announced" "https://www.thehindu.com/a" "Headline" 200]
  = Py.join LF
      ["India Daily Digest — November 03, 2026";
       "----------------------------------------";
       EmptyString;
       "1. Budget announced";
       "Link: https://www.thehindu.com/a";
       "Summary:";
       "Headline";
       EmptyString]
  /\ String.length "----------------------------------------" = 40.
Proof. split; reflexivity. Qed.

(** The scenario with [budget] among the exclude keywords. *)
Example budget_is_excluded :
  passes_filters sample_world (keyword_config [] ["budget"]) budget_entry
    (Some budget_text)
  = (false, "exclude_keyword:budget").
Proof. reflexivity. Qed.

(** ** Facts about the string operations *)

Lemma take_length (n : nat) (s : string) : String.length (Py.take n s) <= n.
Proof.
  revert s. induction n as [|n IH]; intros [|c s]; simpl; try lia.
  specialize (IH s). lia.
Qed.

Lemma truthy_length (s : string) :
  Py.truthy s = true <-> 0 < String.length s.
Proof. destruct s; simpl; split; intros; try lia; congruence. Qed.

(** A leading [www.] is among the occurrences that [replace] removes. *)
Lemma replace_leading_www (s : string) :
  Py.replace "www." EmptyString ("www." ++ s) = Py.replace "www." EmptyString s.
Proof. reflexivity. Qed.

(** [replace] leaves a string without occurrence as it is. *)
Lemma replace_absent (old new s : string) :
  Py.contains old s = false -> Py.replace old new s = s.
Proof.
  unfold Py.replace. induction s as [|c s IH]; intros H; [reflexivity|].
  simpl in H. apply orb_false_iff in H as [Hp Hc].
  cbn [Py.replace_from]. rewrite Hp. f_equal. auto.
Qed.

Lemma slice_to_nil {A} (m : Z) : Py.slice_to m (@nil A) = [].
Proof. unfold Py.slice_to. destruct (0 <=? m)%Z; apply firstn_nil. Qed.

(** ** The deterministic summarizer *)

(** Splitting never gives an empty list, so with the default of three
    sentences the pool of a non-empty text is never empty. *)
Lemma sentence_split_cons (s : string) :
  exists p ps, Py.sentence_split s = p :: ps.
Proof.
  unfold Py.sentence_split. destruct (Py.split_from false false s). eauto.
Qed.

Lemma sentence_split_empty : Py.sentence_split EmptyString = [EmptyString].
Proof. reflexivity. Qed.

(** C2 (as amended): with the default [max_sentences = 3] the fallback
    summarizer returns the empty string when the input is empty or only
    whitespace; on a text of exactly one sentence it returns that sentence
    as the headline followed by one bullet line that repeats it; on a text
    of five sentences it returns the first as the headline and the second
    and third as two dash-prefixed bullet lines.  The pool of chosen
    sentences is never empty with the default; whenever it is empty (only
    for other values of [max_sentences]) the headline is the normalised text
    cut to 100 characters followed by three dots. *)
Theorem simple_extractive_summary_cases :
  (forall text, normalized text = EmptyString ->
     simple_extractive_summary text 3 = EmptyString)
  /\ (forall text s,
        Py.sentence_split (normalized text) = [s] -> Py.truthy s = true ->
        simple_extractive_summary text 3
        = Py.strip s ++ LF ++ "- " ++ Py.strip s)
  /\ (forall text s1 s2 s3 s4 s5,
        Py.sentence_split (normalized text) = [s1; s2; s3; s4; s5] ->
        simple_extractive_summary text 3
        = Py.strip s1 ++ LF ++ "- " ++ Py.strip s2 ++ LF ++ "- " ++ Py.strip s3)
  /\ (forall text,
        Py.slice_to 3 (Py.sentence_split (normalized text)) <> [])
  /\ (forall text m,
        Py.truthy (normalized text) = true ->
        Py.slice_to m (Py.sentence_split (normalized text)) = [] ->
        simple_extractive_summary text m
        = Py.strip (Py.take 100 (normalized text) ++ "...") ++ LF).
Proof.
  repeat split.
  - intros text H. unfold simple_extractive_summary. now rewrite H.
  - intros text s H Hs. unfold simple_extractive_summary.
    destruct (normalized text) as [|c t] eqn:E.
    + rewrite sentence_split_empty in H. injection H as <-. discriminate.
    + cbn [Py.truthy negb]. rewrite H. reflexivity.
  - intros text s1 s2 s3 s4 s5 H. unfold simple_extractive_summary.
    destruct (normalized text) as [|c t] eqn:E.
    + rewrite sentence_split_empty in H. discriminate.
    + cbn [Py.truthy negb]. rewrite H. reflexivity.
  - intros text H.
    destruct (sentence_split_cons (normalized text)) as (p & ps & E).
    rewrite E in H. discriminate.
  - intros text m Ht H. unfold simple_extractive_summary.
    rewrite Ht, H. cbn [negb]. change (1 <? length (@nil string))%nat with false.
    cbv iota. rewrite slice_to_nil. reflexivity.
Qed.

Lemma simple_extractive_summary_cases_witness :
  simple_extractive_summary "  " 3 = EmptyString
  /\ simple_extractive_summary "Budget announced." 3
     = "Budget announced." ++ LF ++ "- Budget announced."
  /\ simple_extractive_summary "A. B. C. D. E." 3
     = "A." ++ LF ++ "- B." ++ LF ++ "- C."
  /\ simple_extractive_summary "A. B. C. D. E." 0 = "A. B. C. D. E...." ++ LF.
Proof.
  destruct simple_extractive_summary_cases as (H1 & H2 & H3 & _ & H5).
  split; [apply (H1 "  "); reflexivity|].
  split; [apply (H2 "Budget announced." "Budget announced."); reflexivity|].
  split; [apply (H3 "A. B. C. D. E." "A." "B." "C." "D." "E."); reflexivity|].
  apply (H5 "A. B. C. D. E." 0%Z); reflexivity.
Defined.

(** C2, as stated, fails on a single sentence: the output carries a bullet
    line, a copy of the headline. *)
Lemma single_sentence_has_a_bullet :
  Py.sentence_split (normalized "Budget announced.") = ["Budget announced."]
  /\ bullet_lines (simple_extractive_summary "Budget announced." 3)
     = ["- Budget announced."]
  /\ bullet_lines (simple_extractive_summary "Budget announced." 3) <> [].
Proof. split; [reflexivity | split; [reflexivity | discriminate]]. Qed.

(** ** The domain matcher *)

Lemma strip_prefix_app (p s r : string) :
  Py.strip_prefix p s = Some r -> s = p ++ r.
Proof.
  revert s. induction p as [|a p IH]; intros s.
  - cbn. now intros [= ->].
  - destruct s as [|b s]; cbn [Py.strip_prefix]; [discriminate|].
    destruct (Ascii.eqb_spec a b) as [->|]; [|discriminate].
    intros H. change (String b p ++ r) with (String b (p ++ r)).
    now rewrite <- (IH _ H).
Qed.

Lemma domain_allowed_eq (w : world) (cfg : config) (url : string) :
  domain_allowed w cfg url
  = bool_decide (ALLOW_DOMAINS cfg = ∅) || any_allowed cfg (domain_of w url).
Proof.
  unfold domain_allowed.
  destruct (bool_decide _), (any_allowed _ _); reflexivity.
Qed.

Lemma app_string_assoc (a b c : string) : (a ++ b) ++ c = a ++ b ++ c.
Proof.
  induction a as [|x a IH]; [reflexivity|].
  change (String x a ++ b) with (String x (a ++ b)).
  change (String x (a ++ b) ++ c) with (String x ((a ++ b) ++ c)).
  change (String x a ++ b ++ c) with (String x (a ++ b ++ c)).
  now rewrite IH.
Qed.

Lemma lower_app (a b : string) :
  Py.lower (a ++ b) = Py.lower a ++ Py.lower b.
Proof.
  induction a as [|x a IH]; [reflexivity|].
  change (String x a ++ b) with (String x (a ++ b)).
  cbn [Py.lower]. rewrite IH. reflexivity.
Qed.

Lemma startswith_strip_prefix (p s : string) :
  Py.startswith p s
  = match Py.strip_prefix p s with Some _ => true | None => false end.
Proof.
  revert s. induction p as [|a p IH]; intros s; [reflexivity|].
  destruct s as [|b s]; [reflexivity|]. cbn.
  destruct (Ascii.eqb a b); [apply IH | reflexivity].
Qed.

(** One step of [replace] for the pattern [www.]. *)
Lemma replace_www_step (c : ascii) (s : string) :
  Py.replace "www." EmptyString (String c s)
  = match Py.strip_prefix "www." (String c s) with
    | Some r => Py.replace "www." EmptyString r
    | None => String c (Py.replace "www." EmptyString s)
    end.
Proof.
  destruct (Py.strip_prefix "www." (String c s)) as [r|] eqn:E.
  - rewrite (strip_prefix_app _ _ _ E). apply replace_leading_www.
  - unfold Py.replace. cbn [Py.replace_from].
    now rewrite startswith_strip_prefix, E.
Qed.

Lemma strip_prefix_at (p u s : string) :
  Py.contains "@" p = false ->
  Py.strip_prefix p (u ++ String "@" s)
  = match Py.strip_prefix p u with
    | Some r => Some (r ++ String "@" s)
    | None => None
    end.
Proof.
  revert u. induction p as [|a p IH]; intros u Hp; [reflexivity|].
  cbn [Py.contains Py.startswith] in Hp.
  apply orb_false_iff in Hp as [Ha Hp]. rewrite andb_true_r in Ha.
  destruct u as [|b u].
  - change (EmptyString ++ ?x) with x. cbn [Py.strip_prefix].
    rewrite Ascii.eqb_sym. now rewrite Ha.
  - change (String b u ++ ?x) with (String b (u ++ x)).
    cbn [Py.strip_prefix]. destruct (Ascii.eqb a b); [now apply IH|].
    reflexivity.
Qed.

(** No occurrence of [www.] reaches over an [@]: [replace] works on the two
    sides of it apart. *)
Lemma replace_www_at (u s : string) :
  Py.replace "www." EmptyString (u ++ String "@" s)
  = Py.replace "www." EmptyString u
    ++ String "@" (Py.replace "www." EmptyString s).
Proof.
  remember (String.length u) as n eqn:Hn. revert u Hn.
  induction n as [n IH] using lt_wf_ind. intros u Hn.
  destruct u as [|c u].
  { change (EmptyString ++ ?x) with x. now rewrite replace_www_step. }
  change (String c u ++ ?x) with (String c (u ++ x)).
  rewrite !replace_www_step.
  change (String c (u ++ String "@" s)) with (String c u ++ String "@" s).
  rewrite strip_prefix_at by reflexivity.
  destruct (Py.strip_prefix "www." (String c u)) as [r|] eqn:E.
  - apply (IH (String.length r)); [|reflexivity].
    rewrite Hn, (strip_prefix_app _ _ _ E).
    change ("www." ++ r) with (String "w" (String "w" (String "w" (String "." r)))).
    cbn [String.length]. lia.
  - change (String c ?x ++ ?y) with (String c (x ++ y)). f_equal.
    apply (IH (String.length u)); [|reflexivity]. rewrite Hn.
    cbn [String.length]. lia.
Qed.

Lemma default_allow_domains_nonempty : DEFAULT_ALLOW_DOMAINS <> ∅.
Proof.
  intros H. assert ("thehindu.com" ∈ DEFAULT_ALLOW_DOMAINS) as Hin
    by (unfold DEFAULT_ALLOW_DOMAINS; rewrite elem_of_list_to_set;
        apply list_elem_of_In; cbn; auto).
  rewrite H in Hin. now apply elem_of_empty in Hin.
Qed.

(** [ALLOW_DOMAINS] falls back to the default list, so it is never empty. *)
Lemma environ_allow_domains_nonempty (environ : gmap string string) :
  environ_allow_domains environ <> ∅.
Proof.
  unfold environ_allow_domains.
  destruct (bool_decide _) eqn:E; [apply default_allow_domains_nonempty|].
  now apply bool_decide_eq_false in E.
Qed.

(** C3 (as amended).  Take a configuration read from the environment and a
    URL whose network location is its host alone, such that the host, with
    a leading [www.] stripped and lowercased, has no [www.] left in it.
    Then the verdict is the worded one: whether some entry of the allow-set
    is a substring of that host.  And for every URL, with or without user
    information and port around its host, changing the letter case of the
    host or putting a [www.] in front of it changes neither the domain nor
    the verdict. *)
Theorem domain_matcher_verdict (w : world) (environ : gmap string string)
    (max_items max_per_feed min_article_length : Z) (gemini : bool) :
  let cfg := config_of_environ environ max_items max_per_feed
               min_article_length gemini in
  (forall url netloc,
     urlparse_netloc w url = Ret netloc ->
     worded_host netloc = netloc ->
     Py.contains "www." (Py.lower (Py.removeprefix "www." netloc)) = false ->
     domain_allowed w cfg url
     = worded_domain_verdict (ALLOW_DOMAINS cfg) (worded_host netloc))
  /\ (forall u1 u2 user host1 host2 port,
        urlparse_netloc w u1 = Ret (user ++ host1 ++ port) ->
        urlparse_netloc w u2 = Ret (user ++ host2 ++ port) ->
        user = EmptyString \/ (exists u, user = u ++ "@") ->
        Py.lower host2 = Py.lower host1
        \/ Py.lower host2 = "www." ++ Py.lower host1 ->
        domain_of w u1 = domain_of w u2
        /\ domain_allowed w cfg u1 = domain_allowed w cfg u2).
Proof.
  intros cfg. split.
  - intros url netloc Hn Hhost Hw. rewrite domain_allowed_eq, Hhost.
    rewrite bool_decide_eq_false_2
      by (cbn; apply environ_allow_domains_nonempty).
    cbn [orb]. unfold any_allowed, worded_domain_verdict, domain_of.
    rewrite Hn. f_equal.
    assert (Py.replace "www." EmptyString (Py.lower netloc)
            = Py.lower (Py.removeprefix "www." netloc)) as ->; [|reflexivity].
    unfold Py.removeprefix in *.
    destruct (Py.strip_prefix "www." netloc) as [r|] eqn:E.
    + rewrite (strip_prefix_app _ _ _ E), lower_app.
      change (Py.lower "www.") with "www.". rewrite replace_leading_www.
      now apply replace_absent.
    + now apply replace_absent.
  - intros u1 u2 user host1 host2 port H1 H2 Hu H.
    assert (domain_of w u1 = domain_of w u2) as E.
    { unfold domain_of. rewrite H1, H2, !lower_app.
      destruct H as [-> | ->]; [reflexivity|].
      destruct Hu as [-> | [u ->]].
      - change (Py.lower EmptyString) with EmptyString.
        change (EmptyString ++ ?s) with s.         rewrite app_string_assoc.
        now rewrite replace_leading_www.
      - rewrite lower_app. change (Py.lower "@") with "@".
        rewrite !(app_string_assoc (Py.lower u)).
        change ("@" ++ ?s) with (String "@" s).
        rewrite !replace_www_at. rewrite app_string_assoc.
        now rewrite replace_leading_www. }
    split; [exact E|]. now rewrite !domain_allowed_eq, E.
Qed.

Lemma domain_matcher_verdict_witness :
  let cfg := config_of_environ ∅ 10 25 150 false in
  domain_allowed sample_world cfg "http://www.thehindu.com/x" = true
  /\ domain_allowed sample_world cfg "http://thehindu.com/x"
     = domain_allowed sample_world cfg "http://WWW.TheHindu.com/x".
Proof.
  destruct (domain_matcher_verdict sample_world ∅ 10 25 150 false)
    as [H1 H2].
  split.
  - rewrite (H1 "http://www.thehindu.com/x" "www.thehindu.com");
      reflexivity.
  - apply (H2 "http://thehindu.com/x" "http://WWW.TheHindu.com/x"
              EmptyString "thehindu.com" "WWW.TheHindu.com" EmptyString);
      [reflexivity | reflexivity | now left | right; reflexivity].
Defined.

(** C3, as stated, fails on two kinds of URL.  In a host with a [www.]
    that is not leading, the code deletes it, and the host then matches an
    allowed domain that the worded matcher does not find in it.  And the
    code matches against the network location, so that an allowed domain
    in the user information of a URL makes the URL pass, whatever its host
    is. *)
Lemma domain_matcher_differs :
  (urlparse_netloc sample_world "http://timesofindia.www.indiatimes.com/x"
   = Ret "timesofindia.www.indiatimes.com"
   /\ worded_host "timesofindia.www.indiatimes.com"
      = "timesofindia.www.indiatimes.com"
   /\ domain_of sample_world "http://timesofindia.www.indiatimes.com/x"
      = "timesofindia.indiatimes.com"
   /\ domain_allowed sample_world default_config
        "http://timesofindia.www.indiatimes.com/x" = true
   /\ worded_domain_verdict (ALLOW_DOMAINS default_config)
        "timesofindia.www.indiatimes.com" = false)
  /\ (urlparse_netloc sample_world "http://thehindu.com@evil.example/x"
      = Ret "thehindu.com@evil.example"
      /\ worded_host "thehindu.com@evil.example" = "evil.example"
      /\ domain_allowed sample_world default_config
           "http://thehindu.com@evil.example/x" = true
      /\ worded_domain_verdict (ALLOW_DOMAINS default_config) "evil.example"
         = false).
Proof.
  split; repeat (split; [reflexivity|]); reflexivity.
Qed.

(** ** The filter chain *)

Section FilterChain.

Context (w : world) (cfg : config).

Lemma passes_filters_domain (e : entry) (x : option string) :
  domain_allowed w cfg (or_empty (link e)) = false ->
  passes_filters w cfg e x
  = (false, "domain_not_allowed:" ++ domain_of w (or_empty (link e))).
Proof. intros H. unfold passes_filters. now rewrite H. Qed.

Lemma passes_filters_exclude (e : entry) (x : option string) (kw : string) :
  domain_allowed w cfg (or_empty (link e)) = true ->
  first_excluded cfg e = Some kw ->
  passes_filters w cfg e x = (false, "exclude_keyword:" ++ kw).
Proof. intros H1 H2. unfold passes_filters. now rewrite H1, H2. Qed.

Lemma passes_filters_tail (e : entry) (x : option string) :
  domain_allowed w cfg (or_empty (link e)) = true ->
  first_excluded cfg e = None ->
  passes_filters w cfg e x
  = if include_missed cfg e then (false, "include_keywords_not_matched")
    else if (Z.of_nat (effective_len e x) <? MIN_ARTICLE_LENGTH cfg)%Z
    then (false,
          "too_short(len=" ++ Py.str_of_nat (effective_len e x) ++ ")")
    else (true, "ok").
Proof. intros H1 H2. unfold passes_filters. now rewrite H1, H2. Qed.

(** A candidate below the minimum length never passes. *)
Lemma passes_filters_short (e : entry) (x : option string) :
  (Z.of_nat (effective_len e x) < MIN_ARTICLE_LENGTH cfg)%Z ->
  fst (passes_filters w cfg e x) = false.
Proof.
  intros H. apply Z.ltb_lt in H. unfold passes_filters.
  destruct (domain_allowed _ _ _); [|reflexivity]. cbn [negb].
  destruct (first_excluded _ _); [reflexivity|].
  destruct (include_missed _ _); [reflexivity|]. now rewrite H.
Qed.

End FilterChain.

(** C4: the filter chain runs its checks in the order domain, exclude
    keywords, include keywords, length, and returns the reason of the first
    one that fails.  With a disallowed domain the result is the domain
    reason whatever the keywords, the texts and the minimum length are; with
    an allowed domain, an exclude keyword found in the text gives the
    exclude reason whatever the include keywords are. *)
Theorem passes_filters_order (w : world) (cfg : config) (e : entry)
    (x : option string) :
  let url := or_empty (link e) in
  (domain_allowed w cfg url = false ->
     passes_filters w cfg e x
     = (false, "domain_not_allowed:" ++ domain_of w url)
     /\ forall cfg' e' x',
          ALLOW_DOMAINS cfg' = ALLOW_DOMAINS cfg -> link e' = link e ->
          passes_filters w cfg' e' x' = passes_filters w cfg e x)
  /\ (domain_allowed w cfg url = true ->
      (forall kw, first_excluded cfg e = Some kw ->
         passes_filters w cfg e x = (false, "exclude_keyword:" ++ kw))
      /\ (forall kw, In kw (EXCLUDE_KEYWORDS cfg) -> Py.truthy kw = true ->
            Py.contains kw (combined_text e) = true ->
            exists kw', first_excluded cfg e = Some kw'
              /\ Py.contains kw' (combined_text e) = true
              /\ passes_filters w cfg e x = (false, "exclude_keyword:" ++ kw'))
      /\ (first_excluded cfg e = None -> include_missed cfg e = true ->
            passes_filters w cfg e x = (false, "include_keywords_not_matched"))
      /\ (first_excluded cfg e = None -> include_missed cfg e = false ->
            (Z.of_nat (effective_len e x) < MIN_ARTICLE_LENGTH cfg)%Z ->
            passes_filters w cfg e x
            = (false,
               "too_short(len=" ++ Py.str_of_nat (effective_len e x) ++ ")"))
      /\ (first_excluded cfg e = None -> include_missed cfg e = false ->
            (MIN_ARTICLE_LENGTH cfg <= Z.of_nat (effective_len e x))%Z ->
            passes_filters w cfg e x = (true, "ok"))).
Proof.
  intros url. split.
  - intros Hd. split; [now apply passes_filters_domain|].
    intros cfg' e' x' Ha Hl.
    rewrite (passes_filters_domain w cfg e x Hd).
    assert (domain_allowed w cfg' (or_empty (link e')) = false) as Hd'.
    { unfold domain_allowed, any_allowed in *. now rewrite Ha, Hl. }
    rewrite (passes_filters_domain w cfg' e' x' Hd'). now rewrite Hl.
  - intros Hd. repeat apply conj.
    + intros kw. now apply passes_filters_exclude.
    + intros kw Hin Ht Hc.
      destruct (first_excluded cfg e) as [kw'|] eqn:E.
      * exists kw'. split; [reflexivity|]. split.
        -- pose proof E as F. unfold first_excluded in F.
           apply find_some in F as [_ F].
           now apply andb_true_iff in F as [_ F].
        -- now apply passes_filters_exclude.
      * exfalso. unfold first_excluded in E.
        apply (find_none _ _ E) in Hin. now rewrite Ht, Hc in Hin.
    + intros He Hi. rewrite passes_filters_tail by assumption. now rewrite Hi.
    + intros He Hi Hl. rewrite passes_filters_tail by assumption.
      rewrite Hi. apply Z.ltb_lt in Hl. now rewrite Hl.
    + intros He Hi Hl. rewrite passes_filters_tail by assumption.
      rewrite Hi. apply Z.ltb_ge in Hl. now rewrite Hl.
Qed.

Lemma passes_filters_order_witness :
  passes_filters sample_world default_config foreign_entry (Some "short")
  = (false, "domain_not_allowed:example.com")
  /\ passes_filters sample_world (keyword_config ["budget"] ["budget"])
       budget_entry (Some budget_text)
     = (false, "exclude_keyword:budget")
  /\ passes_filters sample_world (keyword_config ["cricket"] [])
       budget_entry (Some budget_text)
     = (false, "include_keywords_not_matched")
  /\ passes_filters sample_world (keyword_config ["budget"] ["cricket"])
       budget_entry (Some "short")
     = (false, "too_short(len=5)")
  /\ passes_filters sample_world (keyword_config ["budget"] ["cricket"])
       budget_entry (Some budget_text)
     = (true, "ok").
Proof.
  split.
  { destruct (passes_filters_order sample_world default_config foreign_entry
                (Some "short")) as [H _].
    destruct (H eq_refl) as [H1 _]. exact H1. }
  split.
  { destruct (passes_filters_order sample_world
                (keyword_config ["budget"] ["budget"]) budget_entry
                (Some budget_text)) as [_ H].
    destruct (H eq_refl) as (_ & H2 & _).
    destruct (H2 "budget") as (kw & E & _ & ->);
      [now left | reflexivity | reflexivity |].
    injection E as <-. reflexivity. }
  split.
  { destruct (passes_filters_order sample_world
                (keyword_config ["cricket"] []) budget_entry
                (Some budget_text)) as [_ H].
    destruct (H eq_refl) as (_ & _ & H3 & _). apply H3; reflexivity. }
  split.
  { destruct (passes_filters_order sample_world
                (keyword_config ["budget"] ["cricket"]) budget_entry
                (Some "short")) as [_ H].
    destruct (H eq_refl) as (_ & _ & _ & H4 & _). apply H4; reflexivity. }
  destruct (passes_filters_order sample_world
              (keyword_config ["budget"] ["cricket"]) budget_entry
              (Some budget_text)) as [_ H].
  destruct (H eq_refl) as (_ & _ & _ & _ & H5).
  apply H5; [reflexivity..|]. vm_compute. discriminate.
Defined.

(** C5 (as amended): a candidate whose effective length is under the minimum
    is always rejected; the reason is [too_short] with the measured length
    whenever the domain and keyword checks pass, and the reason of the first
    failing one of these otherwise.  The measured length is that of the
    extracted text when it is present and non-empty, and else that of the
    feed summary as the filter holds it: lowercased. *)
Theorem too_short_is_rejected (w : world) (cfg : config) (e : entry)
    (x : option string) :
  ((Z.of_nat (effective_len e x) < MIN_ARTICLE_LENGTH cfg)%Z ->
     fst (passes_filters w cfg e x) = false
     /\ (domain_allowed w cfg (or_empty (link e)) = true ->
         first_excluded cfg e = None -> include_missed cfg e = false ->
         passes_filters w cfg e x
         = (false,
            "too_short(len=" ++ Py.str_of_nat (effective_len e x) ++ ")")))
  /\ (forall t, x = Some t -> Py.truthy t = true ->
        effective_len e x = String.length t)
  /\ (x = None \/ x = Some EmptyString ->
        effective_len e x = String.length (lowered_summary e)).
Proof.
  split; [|split].
  - intros H. split; [now apply passes_filters_short|].
    intros Hd He Hi. rewrite passes_filters_tail by assumption.
    rewrite Hi. apply Z.ltb_lt in H. now rewrite H.
  - intros t -> Ht. unfold effective_len. now rewrite Ht.
  - intros [-> | ->]; reflexivity.
Qed.

Lemma too_short_is_rejected_witness :
  passes_filters sample_world default_config budget_entry (Some "short")
  = (false, "too_short(len=5)")
  /\ effective_len budget_entry (Some "short") = 5
  /\ effective_len budget_entry None = 31.
Proof.
  destruct (too_short_is_rejected sample_world default_config budget_entry
              (Some "short")) as (H1 & H2 & _).
  destruct (too_short_is_rejected sample_world default_config budget_entry
              None) as (_ & _ & H3).
  split; [apply H1; [vm_compute|..]; reflexivity|].
  split; [apply (H2 "short"); reflexivity|].
  rewrite H3; [reflexivity | now left].
Defined.

(** C5, as stated, fails when an earlier check fails: a short text from a
    domain that is not allowed is rejected for its domain. *)
Lemma short_text_rejected_for_domain :
  (Z.of_nat (effective_len foreign_entry (Some "short"))
   < MIN_ARTICLE_LENGTH default_config)%Z
  /\ passes_filters sample_world default_config foreign_entry (Some "short")
     = (false, "domain_not_allowed:example.com")
  /\ Py.startswith "too_short"
       (snd (passes_filters sample_world default_config foreign_entry
               (Some "short"))) = false.
Proof. split; [reflexivity|]. split; reflexivity. Qed.

(** ** Computations that only report events *)

Lemma after_nil (st : state) : after st [] = st.
Proof. destruct st. unfold after. cbn. now rewrite app_nil_r. Qed.

Lemma after_after (st : state) (e1 e2 : list event) :
  after (after st e1) e2 = after st (e1 ++ e2).
Proof. unfold after. cbn. now rewrite app_assoc. Qed.

Lemma yields_ret {A} (v : A) : yields (ret v) v [].
Proof. intros st. unfold ret. now rewrite after_nil. Qed.

Lemma yields_bind {A B} (m : M A) (f : A -> M B) v e1 r e2 :
  yields m v e1 -> yields (f v) r e2 -> yields (bind m f) r (e1 ++ e2).
Proof.
  intros Hm Hf st. unfold bind. now rewrite Hm, Hf, after_after.
Qed.

Lemma yields_emit (ev : event) : yields (emit ev) tt [ev].
Proof. intros st. reflexivity. Qed.

Lemma yields_try {A} (m : M A) (h : exn -> M A) v evs :
  yields m v evs -> yields (try_except m h) v evs.
Proof. intros Hm st. unfold try_except. now rewrite Hm. Qed.

Lemma yields_fun {A} (m : M A) v v' e e' :
  yields m v e -> yields m v' e' -> v = v' /\ e = e'.
Proof.
  intros H H'. specialize (H initial_state). rewrite H' in H.
  injection H as Hv He. cbn in He. split; congruence.
Qed.

(** ** The content extractor *)

(** Running a computation of the pipeline on the answers at hand. *)
Ltac rewrite_answers :=
  repeat match goal with
         | H : ?x = _ |- context [?x] => rewrite H; cbn
         end.

Ltac run_M :=
  intros ?st;
  unfold try_except, bind, emit, lift, raise, ret, after; cbn;
  rewrite_answers; try reflexivity.

Lemma fetch_page_fetched (w : world) (cfg : config) (url : string) :
  exists r, yields (fetch_page w cfg url) r [EvHttpGet url]
            /\ fetched w cfg url r.
Proof.
  destruct (requests_get w url) as [resp|[msg|msg]] eqn:Hget.
  - destruct (http_error resp) as [msg|] eqn:Herr.
    { eexists. split; [|eapply fetched_http_error; eauto].
      unfold fetch_page, http_get, raise_for_status. run_M. }
    destruct (parsed_content resp) as [s|[msg|msg]] eqn:Hparse.
    + destruct (Py.truthy (page_text s)) eqn:Ht.
      * destruct (Z.ltb_spec (Z.of_nat (String.length (page_text s)))
                    (MIN_ARTICLE_LENGTH cfg)) as [Hlt|Hge].
        -- exists (None, None). split.
           ++ apply Z.ltb_lt in Hlt.
              unfold fetch_page, http_get, raise_for_status. run_M.
           ++ apply (fetched_insufficient w cfg url resp s); auto.
        -- exists (Some (Py.take 6000 (page_text s)), None). split.
           ++ apply Z.ltb_ge in Hge.
              unfold fetch_page, http_get, raise_for_status. run_M.
           ++ apply (fetched_text w cfg url resp s); auto.
              intros E. rewrite E in Ht. cbn in Ht. discriminate.
      * exists (None, None). split.
        -- unfold fetch_page, http_get, raise_for_status. run_M.
        -- apply (fetched_insufficient w cfg url resp s); auto.
           left. now destruct (page_text s).
    + eexists. split; [|eapply fetched_parse_request_error; eauto].
      unfold fetch_page, http_get, raise_for_status. run_M.
    + eexists. split; [|eapply fetched_parse_error; eauto].
      unfold fetch_page, http_get, raise_for_status. run_M.
  - eexists. split; [|eapply fetched_request_error; eassumption].
    unfold fetch_page, http_get, raise_for_status. run_M.
  - eexists. split; [|eapply fetched_other_error; eassumption].
    unfold fetch_page, http_get, raise_for_status. run_M.
Qed.

(** C7: [fetch_page] never raises.  It returns [(None, None)], the outcome
    without error, when the page text is empty or shorter than the minimum
    article length; [(None, reason)] with a [fetch_error:] or
    [extract_error:] reason when the request or the parsing raises; and
    otherwise the page text cut to 6000 characters. *)
Theorem fetch_page_never_raises (w : world) (cfg : config) (url : string)
    (st : state) :
  exists r,
    fetch_page w cfg url st = (Ret r, after st [EvHttpGet url])
    /\ (r = (None, None)
        \/ (exists reason, r = (None, Some reason))
        \/ (exists t, r = (Some t, None) /\ String.length t <= 6000))
    /\ (forall resp s,
          requests_get w url = Ret resp -> http_error resp = None ->
          parsed_content resp = Ret s ->
          (page_text s = EmptyString
           \/ (Z.of_nat (String.length (page_text s))
               < MIN_ARTICLE_LENGTH cfg)%Z ->
           r = (None, None))
          /\ (page_text s <> EmptyString ->
              (MIN_ARTICLE_LENGTH cfg
               <= Z.of_nat (String.length (page_text s)))%Z ->
              r = (Some (Py.take 6000 (page_text s)), None)))
    /\ (forall e,
          requests_get w url = Raise e
          \/ (exists resp, requests_get w url = Ret resp
                /\ http_error resp = None /\ parsed_content resp = Raise e) ->
          r = (None,
               Some ((match e with
                      | RequestException _ => "fetch_error: "
                      | OtherException _ => "extract_error: "
                      end) ++ exn_str e)))
    /\ (forall resp msg,
          requests_get w url = Ret resp -> http_error resp = Some msg ->
          r = (None, Some ("fetch_error: " ++ msg))).
Proof.
  destruct (fetch_page_fetched w cfg url) as (r & Hrun & Hf).
  exists r. split; [apply Hrun|].
  split.
  { inversion Hf; subst; eauto.
    right. right. eexists. split; [reflexivity|apply take_length]. }
  split; [|split].
  - intros resp s Hget Herr Hparse. split.
    + intros Hshort. inversion Hf; subst; try congruence.
      replace s0 with s in * by congruence.
      destruct Hshort as [E|Hlt]; [congruence|lia].
    + intros Hne Hge. inversion Hf; subst; try congruence.
      replace s0 with s in * by congruence.
      match goal with H : _ \/ _ |- _ => destruct H as [E|Hlt] end;
        [congruence|lia].
  - intros e [Hget | (resp & Hget & Herr & Hparse)];
      inversion Hf; subst; try congruence.
    + replace e with (RequestException msg) by congruence. reflexivity.
    + replace e with (OtherException msg) by congruence. reflexivity.
    + replace e with (RequestException msg) by congruence. reflexivity.
    + replace e with (OtherException msg) by congruence. reflexivity.
  - intros resp msg Hget Herr. inversion Hf; subst; congruence.
Qed.

Lemma fetch_page_never_raises_witness :
  fst (fetch_page sample_world default_config "https://www.ndtv.com/c"
         initial_state) = Ret (None, None)
  /\ fst (fetch_page sample_world default_config "https://www.thehindu.com/a"
            initial_state) = Ret (Some budget_text, None)
  /\ fst (fetch_page sample_world default_config "https://www.news18.com/d"
            initial_state) = Ret (None, Some "extract_error: bad markup")
  /\ fst (fetch_page sample_world default_config "https://www.news18.com/e"
            initial_state)
     = Ret (None, Some "fetch_error: connection refused")
  /\ fst (fetch_page sample_world default_config "https://www.news18.com/f"
            initial_state)
     = Ret (None, Some "fetch_error: 404 Client Error: Not Found").
Proof.
  split.
  { destruct (fetch_page_never_raises sample_world default_config
                "https://www.ndtv.com/c" initial_state)
      as (r & Hrun & _ & H & _).
    rewrite Hrun. cbn [fst]. f_equal.
    destruct (H _ _ eq_refl eq_refl eq_refl) as [H1 _].
    apply H1. right. reflexivity. }
  split.
  { destruct (fetch_page_never_raises sample_world default_config
                "https://www.thehindu.com/a" initial_state)
      as (r & Hrun & _ & H & _).
    rewrite Hrun. cbn [fst]. f_equal.
    destruct (H _ _ eq_refl eq_refl eq_refl) as [_ H2].
    apply H2; [discriminate | vm_compute; discriminate]. }
  split.
  { destruct (fetch_page_never_raises sample_world default_config
                "https://www.news18.com/d" initial_state)
      as (r & Hrun & _ & _ & H & _).
    rewrite Hrun. cbn [fst]. f_equal.
    apply (H (OtherException "bad markup")).
    right. eexists. split; [reflexivity|]. split; reflexivity. }
  split.
  { destruct (fetch_page_never_raises sample_world default_config
                "https://www.news18.com/e" initial_state)
      as (r & Hrun & _ & _ & H & _).
    rewrite Hrun. cbn [fst]. f_equal.
    apply (H (RequestException "connection refused")).
    left. reflexivity. }
  destruct (fetch_page_never_raises sample_world default_config
              "https://www.news18.com/f" initial_state)
    as (r & Hrun & _ & _ & _ & H).
  rewrite Hrun. cbn [fst]. f_equal.
  apply (H _ _ eq_refl eq_refl).
Defined.

(** ** The summarizer *)

Lemma summarize_yields (w : world) (cfg : config) (title text : string) :
  exists s evs,
    yields (summarize w cfg title text) s evs
    /\ (evs = [] \/ evs = [EvGenerate (prompt_of title text)])
    /\ (Py.truthy (GOOGLE_API_KEY cfg) && GEMINI_AVAILABLE cfg = false ->
        s = simple_extractive_summary text 3 /\ evs = [])
    /\ (forall e, generate_content w (prompt_of title text) = Raise e ->
        s = simple_extractive_summary text 3)
    /\ (forall resp e,
          generate_content w (prompt_of title text) = Ret resp ->
          text_attr resp = Some (Raise e) ->
          s = simple_extractive_summary text 3)
    /\ (forall resp,
          Py.truthy (GOOGLE_API_KEY cfg) && GEMINI_AVAILABLE cfg = true ->
          generate_content w (prompt_of title text) = Ret resp ->
          match text_attr resp with
          | Some (Ret t) =>
              s = if Py.truthy t then Py.strip t else resp_str resp
          | Some (Raise _) => s = simple_extractive_summary text 3
          | None => s = resp_str resp
          end).
Proof.
  destruct (Py.truthy (GOOGLE_API_KEY cfg) && GEMINI_AVAILABLE cfg) eqn:Hk.
  2:{ exists (simple_extractive_summary text 3), [].
      split; [unfold summarize; rewrite Hk; apply yields_ret|].
      repeat apply conj; auto; congruence. }
  destruct (generate_content w (prompt_of title text)) as [resp|e] eqn:Hg.
  2:{ exists (simple_extractive_summary text 3),
        [EvGenerate (prompt_of title text)].
      split; [unfold summarize; rewrite Hk; run_M|].
      repeat apply conj; auto; congruence. }
  destruct (text_attr resp) as [[t|e]|] eqn:Ht.
  - exists (if Py.truthy t then Py.strip t else resp_str resp),
      [EvGenerate (prompt_of title text)].
    split.
    { unfold summarize, response_text. rewrite Hk. run_M.
      now destruct (Py.truthy t). }
    repeat apply conj; auto; try congruence.
    intros resp' _ [= <-]. now rewrite Ht.
  - exists (simple_extractive_summary text 3),
      [EvGenerate (prompt_of title text)].
    split; [unfold summarize, response_text; rewrite Hk; run_M|].
    repeat apply conj; auto; try congruence.
    intros resp' _ [= <-]. now rewrite Ht.
  - exists (resp_str resp), [EvGenerate (prompt_of title text)].
    split; [unfold summarize, response_text; rewrite Hk; run_M|].
    repeat apply conj; auto; try congruence.
    intros resp' _ [= <-]. now rewrite Ht.
Qed.

(** C8 (as amended): [summarize] never raises and always returns a string.
    When the generative path is not configured, or when it fails by
    raising (the call raises, or reading the text of the response raises),
    the result is the extractive summary of the same text.  A response
    that has no text, or an empty one, raises nothing: the result is then
    [str(response)], and a response with a text gives that text, stripped.
    The extractive summary of the empty text is the empty string. *)
Theorem summarize_never_raises (w : world) (cfg : config)
    (title text : string) (st : state) :
  exists s st',
    summarize w cfg title text st = (Ret s, st')
    /\ sent_file st' = sent_file st
    /\ (Py.truthy (GOOGLE_API_KEY cfg) && GEMINI_AVAILABLE cfg = false ->
        s = simple_extractive_summary text 3 /\ st' = st)
    /\ (forall e, generate_content w (prompt_of title text) = Raise e ->
        s = simple_extractive_summary text 3)
    /\ (forall resp e,
          generate_content w (prompt_of title text) = Ret resp ->
          text_attr resp = Some (Raise e) ->
          s = simple_extractive_summary text 3)
    /\ (forall resp,
          Py.truthy (GOOGLE_API_KEY cfg) && GEMINI_AVAILABLE cfg = true ->
          generate_content w (prompt_of title text) = Ret resp ->
          (text_attr resp = None \/ text_attr resp = Some (Ret EmptyString) ->
           s = resp_str resp)
          /\ (forall t, text_attr resp = Some (Ret t) -> t <> EmptyString ->
                s = Py.strip t))
    /\ simple_extractive_summary EmptyString 3 = EmptyString.
Proof.
  destruct (summarize_yields w cfg title text)
    as (s & evs & Hrun & _ & Hoff & Hraise & Htext & Hresp).
  exists s, (after st evs). split; [apply Hrun|].
  split; [reflexivity|]. split.
  { intros Hk. destruct (Hoff Hk) as [-> ->]. now rewrite after_nil. }
  split; [exact Hraise|]. split; [exact Htext|]. split; [|reflexivity].
  intros resp Hk Hg. specialize (Hresp resp Hk Hg). split.
  - intros [Hn | Hn]; rewrite Hn in Hresp; exact Hresp.
  - intros t Ht Hne. rewrite Ht in Hresp.
    destruct t; [now destruct Hne | exact Hresp].
Qed.

Lemma summarize_never_raises_witness :
  fst (summarize sample_world default_config "Budget announced"
         "A. B. C. D. E." initial_state)
  = Ret ("A." ++ LF ++ "- B." ++ LF ++ "- C.")
  /\ fst (summarize sample_world gemini_config "Budget announced"
            "A. B. C. D. E." initial_state)
     = Ret ("A." ++ LF ++ "- B." ++ LF ++ "- C.")
  /\ fst (summarize mute_gemini_world gemini_config "Budget announced"
            "A. B. C. D. E." initial_state)
     = Ret "<GenerateContentResponse>".
Proof.
  split; [|split].
  - destruct (summarize_never_raises sample_world default_config
                "Budget announced" "A. B. C. D. E." initial_state)
      as (s & st' & Hrun & _ & H & _).
    rewrite Hrun. cbn [fst]. f_equal. now destruct (H eq_refl) as [-> _].
  - destruct (summarize_never_raises sample_world gemini_config
                "Budget announced" "A. B. C. D. E." initial_state)
      as (s & st' & Hrun & _ & _ & H & _).
    rewrite Hrun. cbn [fst]. f_equal.
    now rewrite (H (OtherException "no client") eq_refl).
  - destruct (summarize_never_raises mute_gemini_world gemini_config
                "Budget announced" "A. B. C. D. E." initial_state)
      as (s & st' & Hrun & _ & _ & _ & _ & H & _).
    rewrite Hrun. cbn [fst]. f_equal.
    destruct (H (GeminiResponse (Some (Ret EmptyString))
                   "<GenerateContentResponse>") eq_refl eq_refl) as [H1 _].
    apply H1. now right.
Defined.

(** C8, as stated, fails on a response that carries no text: nothing is
    raised, so nothing is caught, and the result is [str(response)] and not
    the extractive summary of the text. *)
Lemma empty_response_is_not_summarized :
  generate_content mute_gemini_world
    (prompt_of "Budget announced" "A. B. C. D. E.")
  = Ret (GeminiResponse (Some (Ret EmptyString)) "<GenerateContentResponse>")
  /\ fst (summarize mute_gemini_world gemini_config "Budget announced"
            "A. B. C. D. E." initial_state)
     = Ret "<GenerateContentResponse>"
  /\ simple_extractive_summary "A. B. C. D. E." 3
     = "A." ++ LF ++ "- B." ++ LF ++ "- C."
  /\ fst (summarize mute_gemini_world gemini_config "Budget announced"
            "A. B. C. D. E." initial_state)
     <> Ret (simple_extractive_summary "A. B. C. D. E." 3).
Proof.
  split; [reflexivity|]. split; [reflexivity|]. split; [reflexivity|].
  vm_compute. discriminate.
Qed.

(** ** The store of sent URLs *)

Lemma insert_sorted_perm (x : string) (l : list string) :
  Permutation (insert_sorted x l) (x :: l).
Proof.
  induction l as [|y l IH]; cbn; [reflexivity|].
  destruct (String.leb x y); [reflexivity|].
  rewrite IH. apply perm_swap.
Qed.

Lemma sorted_perm (l : list string) : Permutation (sorted l) l.
Proof.
  induction l as [|x l IH]; cbn; [reflexivity|].
  fold (sorted l). rewrite insert_sorted_perm. now constructor.
Qed.

Lemma load_sent_set_run (cfg : config) (st : state) :
  load_sent_set cfg st
  = (Ret (if PERSIST_SENT cfg then
            match sent_file st with
            | Json (JsonArray l) => list_to_set l
            | _ => ∅
            end
          else ∅), st).
Proof.
  unfold load_sent_set, exists_file, json_load, get_file, try_except, bind,
    raise, ret.
  destruct (PERSIST_SENT cfg); cbn; [|reflexivity].
  destruct (sent_file st) as [| |[l|]] eqn:E; cbn; rewrite ?E; reflexivity.
Qed.

Lemma save_sent_set_run (w : world) (cfg : config) (sent : gset string)
    (st : state) :
  save_sent_set w cfg sent st
  = (Ret tt,
     if PERSIST_SENT cfg && file_writable w
     then State (Json (JsonArray (sorted (elements sent)))) (trace st)
     else if PERSIST_SENT cfg && write_truncates w
     then State Corrupt (trace st)
     else st).
Proof.
  unfold save_sent_set, json_dump, write_truncates, put_file, try_except,
    bind, raise, ret.
  destruct (PERSIST_SENT cfg), (file_writable w), (write_failure w);
    reflexivity.
Qed.

(** C9: with persistence enabled and a file that can be written, a set of
    URLs saved by [save_sent_set] is the set that [load_sent_set] returns
    afterwards; and a load returns the empty set, without raising, when the
    file is absent, is not valid JSON, or is JSON but not a list. *)
Theorem sent_set_roundtrip (w : world) (cfg : config) :
  (forall sent st,
     PERSIST_SENT cfg = true -> file_writable w = true ->
     exists st1,
       save_sent_set w cfg sent st = (Ret tt, st1)
       /\ load_sent_set cfg st1 = (Ret sent, st1))
  /\ (forall st,
        sent_file st = Missing \/ sent_file st = Corrupt
        \/ sent_file st = Json JsonOther ->
        load_sent_set cfg st = (Ret ∅, st))
  /\ (forall st, exists s, load_sent_set cfg st = (Ret s, st)).
Proof.
  split; [|split].
  - intros sent st Hp Hw.
    exists (State (Json (JsonArray (sorted (elements sent)))) (trace st)).
    split.
    + rewrite save_sent_set_run, Hp, Hw. reflexivity.
    + rewrite load_sent_set_run, Hp. cbn [sent_file]. f_equal. f_equal.
      rewrite (list_to_set_perm_L _ _ (sorted_perm (elements sent))).
      apply list_to_set_elements_L.
  - intros st H. rewrite load_sent_set_run.
    destruct (PERSIST_SENT cfg); [|reflexivity].
    destruct H as [-> | [-> | ->]]; reflexivity.
  - intros st. eexists. apply load_sent_set_run.
Qed.

Lemma sent_set_roundtrip_witness :
  (let st1 := snd (save_sent_set sample_world default_config
                     {["https://www.thehindu.com/a"; "https://www.indiatoday.in/b"]}
                     initial_state) in
   load_sent_set default_config st1
   = (Ret {["https://www.thehindu.com/a"; "https://www.indiatoday.in/b"]},
      st1))
  /\ load_sent_set default_config (State Corrupt [])
     = (Ret ∅, State Corrupt []).
Proof.
  destruct (sent_set_roundtrip sample_world default_config) as (H1 & H2 & _).
  split.
  - destruct (H1 {["https://www.thehindu.com/a"; "https://www.indiatoday.in/b"]}
                initial_state eq_refl eq_refl) as (st1 & Hs & Hl).
    rewrite Hs. exact Hl.
  - apply H2. right. left. reflexivity.
Defined.

(** ** The collector *)

Lemma attempt_verdict (w : world) (cfg : config) (e : entry) :
  exists res evs,
    verdict w cfg e res evs /\ Forall (fun ev => is_http_get ev = false) evs.
Proof.
  unfold verdict, attempt.
  destruct (fetch_page_fetched w cfg (url_of e)) as ([extracted err] & Hf & _).
  destruct (or_else extracted (or_else (summary e) (description e)))
    as [text|] eqn:Ho.
  2:{ exists None, []. split; [|constructor]. intros p.
      change [EvHttpGet (url_of e)] with ([EvHttpGet (url_of e)] ++ [])%list.
      eapply yields_bind; [apply Hf|]. cbv beta iota. rewrite Ho.
      apply yields_ret. }
  destruct (Py.truthy text) eqn:Ht.
  2:{ exists None, []. split; [|constructor]. intros p.
      change [EvHttpGet (url_of e)] with ([EvHttpGet (url_of e)] ++ [])%list.
      eapply yields_bind; [apply Hf|]. cbv beta iota. rewrite Ho, Ht.
      apply yields_ret. }
  destruct (passes_filters w cfg e (Some text)) as [ok reason] eqn:Hp.
  destruct ok.
  2:{ exists None, []. split; [|constructor]. intros p.
      change [EvHttpGet (url_of e)] with ([EvHttpGet (url_of e)] ++ [])%list.
      eapply yields_bind; [apply Hf|]. cbv beta iota. rewrite Ho, Ht, Hp.
      apply yields_ret. }
  destruct (summarize_yields w cfg (title_of e (url_of e)) text)
    as (s & evs & Hs & Hshape & _).
  exists (Some s), (evs ++ [EvSleep])%list. split.
  - intros p.
    change (EvHttpGet (url_of e) :: evs ++ [EvSleep])%list
      with ([EvHttpGet (url_of e)] ++ (evs ++ [EvSleep] ++ []))%list.
    eapply yields_bind; [apply Hf|]. cbv beta iota. rewrite Ho, Ht, Hp.
    cbn [negb]. eapply yields_bind; [apply Hs|].
    eapply yields_bind; [apply yields_emit | apply yields_ret].
  - destruct Hshape as [-> | ->]; repeat constructor.
Qed.

(** The loop body on an entry, case by case: the page is requested once;
    the entry is dropped unless there is a text, from the page or else from
    the feed, that passes the filters; an accepted entry is summarized, with
    at most one Gemini call, and followed by one pause. *)
Lemma attempt_cases (w : world) (cfg : config) (e : entry) :
  exists r,
    yields (fetch_page w cfg (url_of e)) r [EvHttpGet (url_of e)]
    /\ fetched w cfg (url_of e) r
    /\ match or_else (fst r) (or_else (summary e) (description e)) with
       | Some text =>
           if Py.truthy text && fst (passes_filters w cfg e (Some text)) then
             exists s g,
               yields (summarize w cfg (title_of e (url_of e)) text) s g
               /\ (g = []
                   \/ g = [EvGenerate
                             (prompt_of (title_of e (url_of e)) text)])
               /\ verdict w cfg e (Some s) (g ++ [EvSleep])
           else verdict w cfg e None []
       | None => verdict w cfg e None []
       end.
Proof.
  destruct (fetch_page_fetched w cfg (url_of e)) as ([extracted err] & Hf & Hr).
  exists (extracted, err). split; [exact Hf|]. split; [exact Hr|].
  cbn [fst]. unfold verdict, attempt.
  destruct (or_else extracted (or_else (summary e) (description e)))
    as [text|] eqn:Ho.
  2:{ intros p.
      change [EvHttpGet (url_of e)] with ([EvHttpGet (url_of e)] ++ [])%list.
      eapply yields_bind; [apply Hf|]. cbv beta iota. rewrite Ho.
      apply yields_ret. }
  destruct (Py.truthy text) eqn:Ht; cbn [andb].
  2:{ intros p.
      change [EvHttpGet (url_of e)] with ([EvHttpGet (url_of e)] ++ [])%list.
      eapply yields_bind; [apply Hf|]. cbv beta iota. rewrite Ho, Ht.
      apply yields_ret. }
  destruct (passes_filters w cfg e (Some text)) as [ok reason] eqn:Hp.
  cbn [fst]. destruct ok.
  2:{ intros p.
      change [EvHttpGet (url_of e)] with ([EvHttpGet (url_of e)] ++ [])%list.
      eapply yields_bind; [apply Hf|]. cbv beta iota. rewrite Ho, Ht, Hp.
      apply yields_ret. }
  destruct (summarize_yields w cfg (title_of e (url_of e)) text)
    as (s & g & Hs & Hshape & _).
  exists s, g. split; [exact Hs|]. split; [exact Hshape|].
  intros p.
  change (EvHttpGet (url_of e) :: g ++ [EvSleep])%list
    with ([EvHttpGet (url_of e)] ++ (g ++ [EvSleep] ++ []))%list.
  eapply yields_bind; [apply Hf|]. cbv beta iota. rewrite Ho, Ht, Hp.
  cbn [negb]. eapply yields_bind; [apply Hs|].
  eapply yields_bind; [apply yields_emit | apply yields_ret].
Qed.

Section Loop.

Context (w : world) (cfg : config) (sent : gset string) (max_items : Z).

Lemma collect_loop_full cands acc st :
  (max_items <=? Z.of_nat (length acc))%Z = true ->
  collect_loop w cfg sent max_items cands acc st = (Ret acc, st).
Proof.
  intros H. destruct cands as [|[p e] rest]; cbn [collect_loop];
    [|rewrite H]; reflexivity.
Qed.

Lemma collect_loop_skip p e rest acc st :
  skipped sent e = true ->
  collect_loop w cfg sent max_items ((p, e) :: rest) acc st
  = collect_loop w cfg sent max_items rest acc st.
Proof.
  intros Hs. cbn [collect_loop].
  destruct (max_items <=? Z.of_nat (length acc))%Z eqn:Hf.
  { now rewrite collect_loop_full. }
  unfold skipped, url_of in Hs.
  destruct (Py.truthy (or_empty (link e))); cbn in Hs |- *; [|reflexivity].
  now rewrite Hs.
Qed.

Lemma collect_loop_step p e rest acc st res evs :
  verdict w cfg e res evs ->
  skipped sent e = false ->
  (max_items <=? Z.of_nat (length acc))%Z = false ->
  collect_loop w cfg sent max_items ((p, e) :: rest) acc st
  = collect_loop w cfg sent max_items rest
      (match res with
       | Some s =>
           acc ++ [Item (title_of e (url_of e)) (url_of e) s p]
       | None => acc
       end)%list
      (after st (EvHttpGet (url_of e) :: evs)).
Proof.
  intros Hv Hs Hf. cbn [collect_loop]. rewrite Hf.
  unfold skipped in Hs. apply orb_false_iff in Hs as [Ht Hin].
  fold (url_of e). rewrite Ht, Hin. unfold bind. rewrite (Hv p st).
  destruct res; reflexivity.
Qed.

(** The loop, from every state: it never raises, it appends to the list
    built so far, and
    - every appended item has a non-empty URL outside [sent], the URL of
      one of the candidates;
    - every page request is for such a URL;
    - when the result stays under [max_items], every candidate was skipped,
      dropped, or has its URL among the appended items;
    - when every candidate is skipped or dropped, nothing is appended. *)
Lemma collect_loop_spec cands :
  forall acc, exists items evs,
    yields (collect_loop w cfg sent max_items cands acc) (acc ++ items)%list evs
    /\ Forall (fun it => Py.truthy (item_url it) = true
                         /\ (item_url it ∉ sent)
                         /\ exists c, In c cands
                                      /\ item_url it = url_of (snd c)) items
    /\ (forall u, In (EvHttpGet u) evs -> Py.truthy u = true /\ u ∉ sent)
    /\ ((Z.of_nat (length (acc ++ items)%list) < max_items)%Z ->
        forall c, In c cands ->
          skipped sent (snd c) = true \/ rejected w cfg (snd c)
          \/ In (url_of (snd c)) (map item_url items))
    /\ ((forall c, In c cands ->
           skipped sent (snd c) = true \/ rejected w cfg (snd c)) ->
        items = []).
Proof.
  induction cands as [|[p e] rest IH]; intros acc.
  { exists [], []. rewrite app_nil_r.
    split; [apply yields_ret|]. split; [constructor|].
    split; [intros u []|]. split; [intros _ c []|reflexivity]. }
  destruct (max_items <=? Z.of_nat (length acc))%Z eqn:Hfull.
  { exists [], []. rewrite app_nil_r.
    split; [intros st; rewrite after_nil; now apply collect_loop_full|].
    split; [constructor|]. split; [intros u []|].
    split; [|reflexivity].
    apply Z.leb_le in Hfull. lia. }
  destruct (skipped sent e) eqn:Hskip.
  { destruct (IH acc) as (items & evs & Hrun & H1 & H2 & H3 & H4).
    exists items, evs.
    split; [intros st; rewrite collect_loop_skip by exact Hskip; apply Hrun|].
    split.
    { eapply Forall_impl; [exact H1|]. cbv beta.
      intros it (? & ? & c & ? & ?). repeat split; auto.
      exists c. split; [now right|assumption]. }
    split; [exact H2|]. split.
    - intros Hlen c [<- | Hc]; [now left|]. now apply H3.
    - intros Hall. apply H4. intros c Hc. apply Hall. now right. }
  destruct (attempt_verdict w cfg e) as (res & evs0 & Hv & Hev).
  pose proof Hskip as Hskip'. unfold skipped in Hskip'.
  apply orb_false_iff in Hskip' as [Ht Hin].
  apply negb_false_iff in Ht. apply bool_decide_eq_false in Hin.
  destruct res as [s|].
  - destruct (IH (acc ++ [Item (title_of e (url_of e)) (url_of e) s p])%list)
      as (items & evs & Hrun & H1 & H2 & H3 & H4).
    exists (Item (title_of e (url_of e)) (url_of e) s p :: items),
      ((EvHttpGet (url_of e) :: evs0) ++ evs)%list.
    split.
    { intros st. rewrite (collect_loop_step _ _ _ _ _ _ _ Hv Hskip Hfull).
      rewrite Hrun, after_after, <- app_assoc. reflexivity. }
    split.
    { constructor.
      - cbn. repeat split; auto. exists (p, e). split; [now left|reflexivity].
      - eapply Forall_impl; [exact H1|]. cbv beta.
        intros it (? & ? & c & ? & ?). repeat split; auto.
        exists c. split; [now right|assumption]. }
    split.
    { intros u [Hu | Hu]%in_app_or; [|now apply H2].
      destruct Hu as [[= <-] | Hu]; [now split|].
      rewrite List.Forall_forall in Hev. now apply Hev in Hu. }
    split.
    + intros Hlen c [<- | Hc]; [right; right; now left|].
      rewrite <- app_assoc in H3. cbn in H3.
      destruct (H3 Hlen c Hc) as [?|[?|?]]; auto. right. right. now right.
    + intros Hall. exfalso.
      destruct (Hall (p, e) (or_introl eq_refl)) as [Hs | [evs' Hr]].
      * cbn in Hs. congruence.
      * destruct (yields_fun _ _ _ _ _ (Hv 0%Z) (Hr 0%Z)) as [Hne _].
        discriminate.
  - destruct (IH acc) as (items & evs & Hrun & H1 & H2 & H3 & H4).
    exists items, ((EvHttpGet (url_of e) :: evs0) ++ evs)%list.
    split.
    { intros st. rewrite (collect_loop_step _ _ _ _ _ _ _ Hv Hskip Hfull).
      rewrite Hrun, after_after. reflexivity. }
    split.
    { eapply Forall_impl; [exact H1|]. cbv beta.
      intros it (? & ? & c & ? & ?). repeat split; auto.
      exists c. split; [now right|assumption]. }
    split.
    { intros u [Hu | Hu]%in_app_or; [|now apply H2].
      destruct Hu as [[= <-] | Hu]; [now split|].
      rewrite List.Forall_forall in Hev. now apply Hev in Hu. }
    split.
    + intros Hlen c [<- | Hc]; [right; left; now exists evs0|].
      now apply H3.
    + intros Hall. apply H4. intros c Hc. apply Hall. now right.
Qed.

End Loop.

Lemma feed_candidates_yields (w : world) (cfg : config) (feed : string) :
  yields (feed_candidates w cfg feed) (feed_entries w cfg feed) [EvFeed feed].
Proof.
  unfold feed_candidates, feed_entries.
  destruct (feedparser_parse w feed) as [entries|e] eqn:E; run_M.
Qed.

Lemma gather_yields (w : world) (cfg : config) (feeds : list string) :
  yields (gather w cfg feeds) (flat_map (feed_entries w cfg) feeds)
         (map EvFeed feeds).
Proof.
  induction feeds as [|feed feeds IH]; cbn [gather flat_map map].
  - apply yields_ret.
  - replace (EvFeed feed :: map EvFeed feeds)
      with ([EvFeed feed] ++ (map EvFeed feeds ++ []))%list
      by (cbn; now rewrite app_nil_r).
    eapply yields_bind; [apply feed_candidates_yields|].
    eapply yields_bind; [apply IH | apply yields_ret].
Qed.

Lemma insert_newest_perm c l : Permutation (insert_newest c l) (c :: l).
Proof.
  induction l as [|d l IH]; cbn; [reflexivity|].
  destruct (fst c <? fst d)%Z; [|reflexivity].
  rewrite IH. apply perm_swap.
Qed.

Lemma sort_newest_perm l : Permutation (sort_newest l) l.
Proof.
  induction l as [|c l IH]; cbn; [reflexivity|].
  fold (sort_newest l). rewrite insert_newest_perm. now constructor.
Qed.

Lemma collect_and_summarize_run (w : world) (cfg : config) (max_items : Z)
    (st : state) :
  collect_and_summarize w cfg max_items st
  = collect_loop w cfg (loaded_set cfg (sent_file st)) max_items
      (candidates_of w cfg) [] (after st (map EvFeed (FEED_URLS cfg))).
Proof.
  unfold collect_and_summarize, bind.
  rewrite load_sent_set_run, gather_yields. reflexivity.
Qed.

(** Dropping the skipped candidates beforehand changes nothing: a skipped
    candidate leaves no mark on the run. *)
Lemma collect_loop_filter (w : world) (cfg : config) (sent : gset string)
    (max_items : Z) (cands : list (Z * entry)) :
  forall acc st,
    collect_loop w cfg sent max_items cands acc st
    = collect_loop w cfg sent max_items
        (filter (fun c => skipped sent (snd c) = false) cands) acc st.
Proof.
  induction cands as [|[p e] rest IH]; intros acc st; [reflexivity|].
  destruct (skipped sent e) eqn:Hs.
  - rewrite filter_cons_False by (cbn; congruence).
    rewrite collect_loop_skip by exact Hs. apply IH.
  - rewrite filter_cons_True by exact Hs. cbn [collect_loop].
    destruct (max_items <=? Z.of_nat (length acc))%Z; [reflexivity|].
    unfold skipped in Hs. apply orb_false_iff in Hs as [Ht Hin].
    fold (url_of e). rewrite Ht, Hin. unfold bind.
    destruct (attempt _ _ _ _ _ _ st) as [[[it|]|ex] st']; auto.
Qed.

(** C6: a candidate whose URL is empty or in the set loaded at the start of
    the run is passed over before any work: the run is the run without
    these candidates, event for event, and it requests no page for such a
    URL.  Hence the collector, which never raises, returns only items with a
    non-empty URL outside the loaded set. *)
Theorem skipped_before_any_work (w : world) (cfg : config) (max_items : Z)
    (st : state) :
  let sent := loaded_set cfg (sent_file st) in
  load_sent_set cfg st = (Ret sent, st)
  /\ (forall cands acc st',
        collect_loop w cfg sent max_items cands acc st'
        = collect_loop w cfg sent max_items
            (filter (fun c => skipped sent (snd c) = false) cands) acc st')
  /\ exists items evs,
       collect_and_summarize w cfg max_items st
       = (Ret items, after st (map EvFeed (FEED_URLS cfg) ++ evs))
       /\ (forall u, In (EvHttpGet u) evs -> u <> EmptyString /\ u ∉ sent)
       /\ (forall it, In it items ->
             item_url it <> EmptyString /\ item_url it ∉ sent).
Proof.
  intros sent. split; [apply load_sent_set_run|].
  split; [intros; apply collect_loop_filter|].
  destruct (collect_loop_spec w cfg sent max_items (candidates_of w cfg) [])
    as (items & evs & Hrun & H1 & H2 & _).
  exists items, evs. split.
  { rewrite collect_and_summarize_run. fold sent.
    rewrite Hrun, after_after. reflexivity. }
  split.
  - intros u Hu. destruct (H2 u Hu) as [Ht Hn]. split; [|exact Hn].
    intros ->. discriminate.
  - intros it Hit. rewrite List.Forall_forall in H1.
    destruct (H1 it Hit) as (Ht & Hn & _). split; [|exact Hn].
    intros E. rewrite E in Ht. discriminate.
Qed.

(** C10: the loop does not add the URLs it accepts to the set it consults.
    A candidate that is accepted when it comes alone is accepted twice when
    it comes twice (say, carried by two feeds), and the run returns two
    items with the same URL; the sample run, in which both feeds carry the
    budget story, is an instance. *)
Theorem no_dedup_within_a_run :
  (forall w cfg sent max_items p p' e st it st1,
     (2 <= max_items)%Z ->
     collect_loop w cfg sent max_items [(p, e)] [] st = (Ret [it], st1) ->
     exists it' st2,
       collect_loop w cfg sent max_items [(p, e); (p', e)] [] st
       = (Ret [it; it'], st2)
       /\ item_url it' = item_url it)
  /\ exists it1 it2 rest,
       fst (collect_and_summarize sample_world default_config 10
              initial_state) = Ret (it1 :: it2 :: rest)
       /\ item_url it1 = item_url it2.
Proof.
  split.
  - intros w cfg sent max_items p p' e st it st1 Hmax Hone.
    assert ((max_items <=? Z.of_nat (length (@nil item)))%Z = false) as Hf0
      by (apply Z.leb_gt; cbn; lia).
    destruct (skipped sent e) eqn:Hs.
    { rewrite collect_loop_skip in Hone by exact Hs. discriminate. }
    destruct (attempt_verdict w cfg e) as (res & evs & Hv & _).
    rewrite (collect_loop_step _ _ _ _ _ _ _ _ _ _ _ Hv Hs Hf0) in Hone.
    rewrite (collect_loop_step _ _ _ _ _ _ _ _ _ _ _ Hv Hs Hf0).
    destruct res as [s|]; [|discriminate].
    cbn in Hone. injection Hone as <- <-.
    assert ((max_items <=? Z.of_nat
               (length ([] ++ [Item (title_of e (url_of e)) (url_of e) s p])))%Z
            = false) as Hf1 by (apply Z.leb_gt; cbn; lia).
    rewrite (collect_loop_step _ _ _ _ _ _ _ _ _ _ _ Hv Hs Hf1).
    eexists. eexists. split; reflexivity.
  - eexists. eexists. eexists. split; reflexivity.
Qed.

Lemma no_dedup_within_a_run_witness :
  exists it' st2,
    collect_loop sample_world default_config ∅ 10
      [(200%Z, budget_entry); (200%Z, budget_entry)] [] initial_state
    = (Ret [Item "Budget announced" "https://www.thehindu.com/a"
              (simple_extractive_summary budget_text 3) 200; it'], st2)
    /\ item_url it' = "https://www.thehindu.com/a".
Proof.
  destruct no_dedup_within_a_run as [H _].
  apply (H sample_world default_config ∅ 10%Z 200%Z 200%Z budget_entry
           initial_state
           (Item "Budget announced" "https://www.thehindu.com/a"
              (simple_extractive_summary budget_text 3) 200)
           (State Missing [EvHttpGet "https://www.thehindu.com/a"; EvSleep]));
    [lia|]. vm_compute. reflexivity.
Defined.

(** ** Two runs *)

Lemma fetch_page_later w pages gemini now long iso cfg url :
  pages url = requests_get w url ->
  fetch_page (later w pages gemini now long iso) cfg url
  = fetch_page w cfg url.
Proof.
  intros H. unfold fetch_page, http_get. cbn [requests_get later].
  now rewrite H.
Qed.

(** A candidate that is dropped is dropped again when its page answers as
    before. *)
Lemma rejected_later w pages gemini now long iso cfg e :
  pages (url_of e) = requests_get w (url_of e) ->
  rejected w cfg e -> rejected (later w pages gemini now long iso) cfg e.
Proof.
  intros Hpage [evs Hrej].
  set (w' := later w pages gemini now long iso).
  destruct (attempt_cases w cfg e) as (r & Hf & _ & Hcase).
  destruct (attempt_cases w' cfg e) as (r' & Hf' & _ & Hcase').
  unfold w' in Hf'. rewrite fetch_page_later in Hf' by exact Hpage.
  destruct (yields_fun _ _ _ _ _ Hf Hf') as [<- _].
  change (passes_filters w' cfg e) with (passes_filters w cfg e) in Hcase'.
  destruct (or_else (fst r) (or_else (summary e) (description e)))
    as [text|]; [|now exists []].
  destruct (Py.truthy text && fst (passes_filters w cfg e (Some text)));
    [|now exists []].
  destruct Hcase as (s & g & _ & _ & Hyes).
  destruct (yields_fun _ _ _ _ _ (Hyes 0%Z) (Hrej 0%Z)) as [Hne _].
  discriminate.
Qed.

(** The later run sees the same entries, possibly with other times and in
    another order. *)
Lemma candidates_later w pages gemini now long iso cfg c :
  In c (candidates_of (later w pages gemini now long iso) cfg) ->
  exists c', In c' (candidates_of w cfg) /\ snd c' = snd c.
Proof.
  unfold candidates_of. intros Hc.
  apply (Permutation_in _ (sort_newest_perm _)) in Hc.
  apply in_flat_map in Hc as (feed & Hfeed & Hc).
  unfold feed_entries in Hc. cbn [feedparser_parse later] in Hc.
  destruct (feedparser_parse w feed) as [entries|ex] eqn:E; [|destruct Hc].
  apply in_map_iff in Hc as (e & <- & He).
  exists (resolve_published w e, e). split; [|reflexivity].
  apply (Permutation_in _ (Permutation_sym (sort_newest_perm _))).
  apply in_flat_map. exists feed. split; [exact Hfeed|].
  unfold feed_entries. rewrite E. apply in_map_iff. now exists e.
Qed.

Lemma add_urls (sent : gset string) (items : list item) :
  foldl (fun s it => {[item_url it]} ∪ s) sent items
  = sent ∪ list_to_set (map item_url items).
Proof.
  revert sent. induction items as [|it items IH]; intros sent; cbn.
  - set_solver.
  - rewrite IH. set_solver.
Qed.

Lemma loaded_after_save (cfg : config) (sent : gset string) tr :
  PERSIST_SENT cfg = true ->
  loaded_set cfg (sent_file (State (Json (JsonArray (sorted (elements sent)))) tr))
  = sent.
Proof.
  intros Hp. unfold loaded_set. rewrite Hp. cbn.
  rewrite (list_to_set_perm_L _ _ (sorted_perm (elements sent))).
  apply list_to_set_elements_L.
Qed.

(** After a run of [main] that delivers and persists, the file holds the
    set loaded at the start and the URLs of the items of the run. *)
Lemma main_persists (w : world) (cfg : config) (st0 st1 : state) items evs :
  PERSIST_SENT cfg = true -> DRY_RUN cfg = false -> file_writable w = true ->
  collect_and_summarize w cfg (MAX_ITEMS cfg) st0 = (Ret items, after st0 evs) ->
  main w cfg st0 = (Ret tt, st1) ->
  loaded_set cfg (sent_file st1)
  = loaded_set cfg (sent_file st0) ∪ list_to_set (map item_url items).
Proof.
  intros Hp Hd Hw Hc Hmain. unfold main in Hmain. unfold bind at 1 in Hmain.
  rewrite load_sent_set_run in Hmain. unfold bind at 1 in Hmain.
  rewrite Hc in Hmain. destruct items as [|it items].
  - injection Hmain as <-. cbn. set_solver.
  - unfold bind at 1 in Hmain. unfold send_email in Hmain.
    destruct (DRY_RUN cfg); [discriminate Hd|].
    destruct (negb _) in Hmain; [discriminate|].
    unfold bind at 1, emit, lift in Hmain.
    destruct (smtp_deliver w _ _) as [[]|ex]; [|discriminate].
    rewrite Hp in Hmain. cbn [andb negb] in Hmain. unfold bind in Hmain.
    rewrite load_sent_set_run, save_sent_set_run, Hp, Hw in Hmain.
    cbn [andb sent_file] in Hmain. injection Hmain as <-.
    rewrite loaded_after_save by exact Hp.
    unfold loaded_set. rewrite Hp, add_urls. cbn [map]. set_solver.
Qed.

Lemma skipped_mono (s s' : gset string) (e : entry) :
  s ⊆ s' -> skipped s e = true -> skipped s' e = true.
Proof.
  unfold skipped. intros Hsub [Ht | Hin]%orb_true_iff.
  - now rewrite Ht.
  - apply orb_true_iff. right. apply bool_decide_eq_true.
    apply bool_decide_eq_true in Hin. now apply Hsub.
Qed.

Lemma skipped_member (s : gset string) (e : entry) :
  url_of e ∈ s -> skipped s e = true.
Proof.
  intros H. unfold skipped. apply orb_true_iff. right.
  now apply bool_decide_eq_true.
Qed.

(** C1 (as amended): after a run of [main] that delivered and persisted
    (persistence on, no dry run, the file written), a second run against
    the same feeds, whatever the pages, Gemini and the clock are by then,
    returns no item whose URL the first run returned; and when the first
    run returned fewer than [MAX_ITEMS] items, so that it went through all
    its candidates, and the pages of the candidates answer as they did, the
    second run returns no item at all. *)
Theorem second_run_after_persist (w : world) (cfg : config) (st0 st1 : state)
    (pages : string -> outcome response)
    (gemini : string -> outcome gemini_response)
    (now : Z) (long iso : string) :
  PERSIST_SENT cfg = true -> DRY_RUN cfg = false -> file_writable w = true ->
  main w cfg st0 = (Ret tt, st1) ->
  exists items1 sta items2 st2,
    collect_and_summarize w cfg (MAX_ITEMS cfg) st0 = (Ret items1, sta)
    /\ collect_and_summarize (later w pages gemini now long iso) cfg
         (MAX_ITEMS cfg) st1
       = (Ret items2, st2)
    /\ (forall it1 it2, In it1 items1 -> In it2 items2 ->
          item_url it2 <> item_url it1)
    /\ ((forall c, In c (candidates_of w cfg) ->
           pages (url_of (snd c)) = requests_get w (url_of (snd c))) ->
        (Z.of_nat (length items1) < MAX_ITEMS cfg)%Z -> items2 = []).
Proof.
  intros Hp Hd Hw Hmain.
  set (sent0 := loaded_set cfg (sent_file st0)).
  destruct (collect_loop_spec w cfg sent0 (MAX_ITEMS cfg) (candidates_of w cfg) [])
    as (items1 & evs1 & Hrun1 & _ & _ & Hall & _).
  assert (collect_and_summarize w cfg (MAX_ITEMS cfg) st0
          = (Ret items1, after st0 (map EvFeed (FEED_URLS cfg) ++ evs1)))
    as Hc1.
  { rewrite collect_and_summarize_run. fold sent0.
    rewrite Hrun1, after_after. reflexivity. }
  pose proof (main_persists w cfg st0 st1 items1 _ Hp Hd Hw Hc1 Hmain) as Hs.
  fold sent0 in Hs.
  set (sent1 := loaded_set cfg (sent_file st1)) in *.
  set (w' := later w pages gemini now long iso).
  destruct (collect_loop_spec w' cfg sent1 (MAX_ITEMS cfg)
              (candidates_of w' cfg) [])
    as (items2 & evs2 & Hrun2 & Hnew & _ & _ & Hnone).
  exists items1, (after st0 (map EvFeed (FEED_URLS cfg) ++ evs1)),
    items2, (after st1 (map EvFeed (FEED_URLS cfg) ++ evs2)).
  split; [exact Hc1|]. split.
  { rewrite collect_and_summarize_run. fold sent1.
    rewrite Hrun2, after_after. reflexivity. }
  split.
  - intros it1 it2 H1 H2 E. rewrite List.Forall_forall in Hnew.
    destruct (Hnew it2 H2) as (_ & Hout & _). apply Hout.
    rewrite Hs, E. apply elem_of_union_r, elem_of_list_to_set.
    apply list_elem_of_In. now apply in_map.
  - intros Hpages Hlen. apply Hnone. intros c Hc.
    destruct (candidates_later w pages gemini now long iso cfg c Hc)
      as (c' & Hc' & <-).
    destruct (Hall Hlen c' Hc') as [Hk | [Hr | Hu]].
    + left. apply (skipped_mono sent0); [|exact Hk].
      rewrite Hs. apply union_subseteq_l.
    + right. apply rejected_later; [now apply Hpages | exact Hr].
    + left. apply skipped_member. rewrite Hs.
      apply elem_of_union_r, elem_of_list_to_set. now apply list_elem_of_In.
Qed.

Lemma second_run_after_persist_witness :
  exists items1 sta items2 st2,
    collect_and_summarize sample_world default_config 10 initial_state
    = (Ret items1, sta)
    /\ collect_and_summarize
         (later sample_world (requests_get sample_world)
            (generate_content sample_world) 2000 "November 04, 2026"
            "2026-11-04") default_config 10
         (snd (main sample_world default_config initial_state))
       = (Ret items2, st2)
    /\ (forall it1 it2, In it1 items1 -> In it2 items2 ->
          item_url it2 <> item_url it1)
    /\ ((forall c, In c (candidates_of sample_world default_config) ->
           requests_get sample_world (url_of (snd c))
           = requests_get sample_world (url_of (snd c))) ->
        (Z.of_nat (length items1) < 10)%Z -> items2 = []).
Proof.
  apply (second_run_after_persist sample_world default_config initial_state
           (snd (main sample_world default_config initial_state))
           (requests_get sample_world) (generate_content sample_world)
           2000%Z "November 04, 2026" "2026-11-04");
    reflexivity.
Defined.

(** C1, as stated, fails in two ways.  When the first run stops at
    [MAX_ITEMS], the candidates it did not reach are collected by the
    second run.  And a candidate that the first run dropped, because its
    page could not be reached and its feed summary is too short, is
    collected by the second run when the page answers then: the feeds are
    the same, the first run returned two items out of ten, and the second
    returns the monsoon story. *)
Lemma second_run_collects_the_rest :
  (PERSIST_SENT one_item_config = true
   /\ DRY_RUN one_item_config = false
   /\ file_writable sample_world = true
   /\ fst (main sample_world one_item_config initial_state) = Ret tt
   /\ sent_file (snd (main sample_world one_item_config initial_state))
      = Json (JsonArray ["https://www.thehindu.com/a"])
   /\ fst (collect_and_summarize sample_world one_item_config 1
             (snd (main sample_world one_item_config initial_state)))
      = Ret [Item "Monsoon arrives" "https://www.indiatoday.in/b"
               (simple_extractive_summary monsoon_text 3) 100]
   /\ fst (collect_and_summarize sample_world one_item_config 1
             (snd (main sample_world one_item_config initial_state)))
      <> Ret [])
  /\ (PERSIST_SENT default_config = true
      /\ DRY_RUN default_config = false
      /\ file_writable offline_page_world = true
      /\ feedparser_parse sample_world = feedparser_parse offline_page_world
      /\ requests_get offline_page_world "https://www.indiatoday.in/b"
         = Raise (RequestException "Read timed out")
      /\ fst (main offline_page_world default_config initial_state) = Ret tt
      /\ sent_file (snd (main offline_page_world default_config
                           initial_state))
         = Json (JsonArray ["https://www.thehindu.com/a"])
      /\ (exists it1 it2,
            fst (collect_and_summarize offline_page_world default_config 10
                   initial_state) = Ret [it1; it2])
      /\ fst (collect_and_summarize sample_world default_config 10
                (snd (main offline_page_world default_config initial_state)))
         = Ret [Item "Monsoon arrives" "https://www.indiatoday.in/b"
                  (simple_extractive_summary monsoon_text 3) 100]
      /\ fst (collect_and_summarize sample_world default_config 10
                (snd (main offline_page_world default_config initial_state)))
         <> Ret []).
Proof.
  split.
  - do 3 (split; [reflexivity|]).
    do 3 (split; [vm_compute; reflexivity|]).
    vm_compute. discriminate.
  - do 5 (split; [reflexivity|]).
    do 2 (split; [vm_compute; reflexivity|]).
    split; [eexists; eexists; vm_compute; reflexivity|].
    split; [vm_compute; reflexivity|].
    vm_compute. discriminate.
Qed.

(** * Further properties *)

(** ** The candidates *)

Lemma insert_newest_sorted c l :
  StronglySorted (fun a b => (fst b <= fst a)%Z) l ->
  StronglySorted (fun a b => (fst b <= fst a)%Z) (insert_newest c l).
Proof.
  induction 1 as [|d l Hl IH Hd]; cbn; [repeat constructor|].
  destruct (Z.ltb_spec (fst c) (fst d)) as [Hlt|Hge].
  - constructor; [exact IH|].
    apply (Permutation_Forall (Permutation_sym (insert_newest_perm c l))).
    constructor; [lia|exact Hd].
  - constructor; [now constructor|].
    constructor; [exact Hge|].
    eapply List.Forall_impl; [|exact Hd]. cbv beta. intros; lia.
Qed.

Lemma insert_newest_filter k c l :
  List.filter (fun d => (fst d =? k)%Z) (insert_newest c l)
  = List.filter (fun d => (fst d =? k)%Z) (c :: l).
Proof.
  induction l as [|d l IH]; [reflexivity|].
  cbn [insert_newest]. destruct (Z.ltb_spec (fst c) (fst d)) as [Hlt|Hge];
    [|reflexivity].
  cbn [List.filter] in *. rewrite IH.
  destruct (Z.eqb_spec (fst c) k), (Z.eqb_spec (fst d) k);
    try reflexivity. lia.
Qed.

(** X1: the sort of the candidates is a stable descending sort: it keeps
    the candidates, puts later times first, and leaves candidates of the
    same time in the order they came in. *)
Theorem sort_newest_stable_descending (l : list (Z * entry)) :
  Permutation (sort_newest l) l
  /\ StronglySorted (fun a b => (fst b <= fst a)%Z) (sort_newest l)
  /\ forall k,
       List.filter (fun d => (fst d =? k)%Z) (sort_newest l)
       = List.filter (fun d => (fst d =? k)%Z) l.
Proof.
  split; [apply sort_newest_perm|]. split.
  - induction l as [|c l IH]; cbn; [constructor|].
    now apply insert_newest_sorted.
  - intros k. induction l as [|c l IH]; [reflexivity|].
    cbn [sort_newest foldr]. fold (sort_newest l).
    rewrite insert_newest_filter. cbn [List.filter]. now rewrite IH.
Qed.

Lemma slice_to_incl {A} (m : Z) (l : list A) (x : A) :
  In x (Py.slice_to m l) -> In x l.
Proof.
  assert (forall n, In x (firstn n l) -> In x l) as H.
  { intros n Hx. rewrite <- (firstn_skipn n l). apply in_or_app. now left. }
  unfold Py.slice_to. destruct (0 <=? m)%Z; apply H.
Qed.

Lemma slice_to_length {A} (m : Z) (l : list A) :
  (0 <= m)%Z -> length (Py.slice_to m l) <= Z.to_nat m.
Proof.
  intros H. unfold Py.slice_to. apply Z.leb_le in H. rewrite H.
  rewrite length_firstn. lia.
Qed.

Lemma feed_entries_source (w : world) (cfg : config) feed c :
  In c (feed_entries w cfg feed) ->
  exists entries,
    feedparser_parse w feed = Ret entries
    /\ In (snd c) entries /\ fst c = resolve_published w (snd c).
Proof.
  unfold feed_entries.
  destruct (feedparser_parse w feed) as [entries|ex]; [|intros []].
  intros (e & <- & He)%in_map_iff. exists entries.
  split; [reflexivity|]. split; [|reflexivity].
  now apply slice_to_incl in He.
Qed.

Lemma feed_entries_length (w : world) (cfg : config) feed :
  (0 <= MAX_PER_FEED cfg)%Z ->
  length (feed_entries w cfg feed) <= Z.to_nat (MAX_PER_FEED cfg).
Proof.
  intros H. unfold feed_entries.
  destruct (feedparser_parse w feed) as [entries|ex]; cbn; [|lia].
  rewrite length_map. now apply slice_to_length.
Qed.

Lemma gathered_length (w : world) (cfg : config) feeds :
  (0 <= MAX_PER_FEED cfg)%Z ->
  length (flat_map (feed_entries w cfg) feeds)
  <= Z.to_nat (MAX_PER_FEED cfg) * length feeds.
Proof.
  intros H. induction feeds as [|feed feeds IH]; cbn; [lia|].
  rewrite length_app. pose proof (feed_entries_length w cfg feed H). lia.
Qed.

(** X2: gathering the candidates never raises and parses every feed once,
    in order.  Every candidate is an entry of a feed that parsed, with its
    resolved time; a feed that fails to parse contributes nothing and leaves
    the candidates of the other feeds as they are; and with a cap
    [MAX_PER_FEED >= 0] no more than that many entries per feed are taken. *)
Theorem failing_feed_is_isolated (w : world) (cfg : config)
    (feeds : list string) (st : state) :
  exists cands,
    gather w cfg feeds st = (Ret cands, after st (map EvFeed feeds))
    /\ (forall c, In c cands ->
          exists feed entries,
            In feed feeds /\ feedparser_parse w feed = Ret entries
            /\ In (snd c) entries /\ fst c = resolve_published w (snd c))
    /\ ((0 <= MAX_PER_FEED cfg)%Z ->
        length cands <= Z.to_nat (MAX_PER_FEED cfg) * length feeds)
    /\ (forall l1 feed l2 ex,
          feeds = (l1 ++ feed :: l2)%list ->
          feedparser_parse w feed = Raise ex ->
          fst (gather w cfg (l1 ++ l2) st) = Ret cands).
Proof.
  exists (flat_map (feed_entries w cfg) feeds).
  split; [apply gather_yields|]. split; [|split].
  - intros c (feed & Hfeed & Hc)%in_flat_map.
    destruct (feed_entries_source w cfg feed c Hc) as (entries & ? & ? & ?).
    now exists feed, entries.
  - apply gathered_length.
  - intros l1 feed l2 ex -> Hex. rewrite gather_yields. cbn [fst]. f_equal.
    assert (feed_entries w cfg feed = []) as Hnone
      by (unfold feed_entries; now rewrite Hex).
    rewrite !flat_map_app. cbn [flat_map]. now rewrite Hnone.
Qed.

Lemma failing_feed_is_isolated_witness :
  fst (gather sample_world default_config
         ["https://www.thehindu.com/news/national/feeder/default.rss";
          "https://example.org/broken.rss";
          "https://www.indiatoday.in/rss/home"] initial_state)
  = fst (gather sample_world default_config (FEED_URLS default_config)
           initial_state)
  /\ length [(200%Z, budget_entry); (200%Z, budget_entry);
             (100%Z, monsoon_entry)] <= 25 * 3.
Proof.
  destruct (failing_feed_is_isolated sample_world default_config
              ["https://www.thehindu.com/news/national/feeder/default.rss";
               "https://example.org/broken.rss";
               "https://www.indiatoday.in/rss/home"] initial_state)
    as (cands & Hrun & _ & Hlen & Hiso).
  split.
  - rewrite Hrun. cbn [fst]. symmetry.
    apply (Hiso ["https://www.thehindu.com/news/national/feeder/default.rss"]
                "https://example.org/broken.rss"
                ["https://www.indiatoday.in/rss/home"]
                (OtherException "unknown feed")); reflexivity.
  - assert (cands = [(200%Z, budget_entry); (200%Z, budget_entry);
                     (100%Z, monsoon_entry)]) as <-
      by (injection Hrun as <-; reflexivity).
    apply Hlen. cbn. lia.
Defined.

(** ** The loop, item by item *)

Lemma count_events_app f a b :
  count_events f (a ++ b) = count_events f a + count_events f b.
Proof. unfold count_events. now rewrite List.filter_app, length_app. Qed.

(** The loop as a whole: the items appended are built, in order, from a
    sublist of the candidates; the list never grows beyond [max_items]; there
    is one pause per appended item, at most one page request per candidate
    and at most one Gemini call per appended item. *)
Lemma collect_loop_shape (w : world) (cfg : config) (sent : gset string)
    (max_items : Z) (cands : list (Z * entry)) :
  forall acc, exists chosen evs,
    yields (collect_loop w cfg sent max_items cands acc)
           (acc ++ map chosen_item chosen)%list evs
    /\ map fst chosen `sublist_of` cands
    /\ (Z.of_nat (length acc + length chosen)
        <= Z.max (Z.of_nat (length acc)) max_items)%Z
    /\ count_events is_sleep evs = length chosen
    /\ count_events is_http_get evs <= length cands
    /\ count_events is_generate evs <= length chosen
    /\ Forall (fun ev => is_http_get ev || is_generate ev || is_sleep ev = true)
              evs.
Proof.
  induction cands as [|[p e] rest IH]; intros acc.
  { exists [], []. cbn [map]. rewrite app_nil_r.
    split; [apply yields_ret|]. split; [constructor|].
    cbn. repeat split; try lia. constructor. }
  destruct (max_items <=? Z.of_nat (length acc))%Z eqn:Hfull.
  { exists [], []. cbn [map]. rewrite app_nil_r.
    split; [intros st; rewrite after_nil; now apply collect_loop_full|].
    split; [apply sublist_nil_l|].
    cbn. repeat split; try lia. constructor. }
  apply Z.leb_gt in Hfull as Hroom.
  destruct (skipped sent e) eqn:Hskip.
  { destruct (IH acc) as (chosen & evs & Hrun & Hsub & Hb & Hs & Hg & Hc & Hk).
    exists chosen, evs.
    split; [intros st; rewrite collect_loop_skip by exact Hskip; apply Hrun|].
    split; [now apply sublist_cons|].
    cbn [length]. repeat split; auto; lia. }
  destruct (attempt_cases w cfg e) as ([extracted err] & _ & _ & Hcase).
  cbn [fst] in Hcase.
  assert (exists evs0, verdict w cfg e None evs0 /\ evs0 = []
          \/ exists s g, verdict w cfg e (Some s) (g ++ [EvSleep])
                         /\ (g = [] \/ exists pr, g = [EvGenerate pr]))
    as Hv.
  { destruct (or_else extracted _) as [text|]; [|exists []; now left].
    destruct (Py.truthy text && _); [|exists []; now left].
    destruct Hcase as (s & g & _ & Hshape & Hv). exists [].
    right. exists s, g. split; [exact Hv|].
    destruct Hshape as [-> | ->]; [now left|right; eauto]. }
  destruct Hv as (evs0 & [[Hv ->] | (s & g & Hv & Hshape)]).
  - destruct (IH acc) as (chosen & evs & Hrun & Hsub & Hb & Hs & Hg & Hc & Hk).
    exists chosen, ([EvHttpGet (url_of e)] ++ evs)%list.
    split.
    { intros st. rewrite (collect_loop_step _ _ _ _ _ _ _ _ _ _ _ Hv Hskip Hfull).
      rewrite Hrun, after_after. reflexivity. }
    split; [now apply sublist_cons|].
    rewrite !count_events_app. cbn [length count_events List.filter is_sleep
      is_http_get is_generate Nat.add].
    repeat split; auto; try lia.
    constructor; [reflexivity|exact Hk].
  - destruct (IH (acc ++ [chosen_item ((p, e), s)])%list)
      as (chosen & evs & Hrun & Hsub & Hb & Hs & Hg & Hc & Hk).
    exists (((p, e), s) :: chosen),
      ((EvHttpGet (url_of e) :: g ++ [EvSleep]) ++ evs)%list.
    split.
    { intros st. rewrite (collect_loop_step _ _ _ _ _ _ _ _ _ _ _ Hv Hskip Hfull).
      cbn [map]. change (Item _ _ s p) with (chosen_item ((p, e), s)).
      rewrite Hrun, after_after, <- app_assoc. reflexivity. }
    split; [cbn [map fst]; now apply sublist_skip|].
    rewrite length_app in Hb. cbn [length] in Hb |- *.
    split; [lia|].
    change (EvHttpGet (url_of e) :: g ++ [EvSleep])%list
      with ([EvHttpGet (url_of e)] ++ g ++ [EvSleep])%list.
    rewrite !count_events_app.
    assert (count_events is_sleep g = 0 /\ count_events is_http_get g = 0
            /\ count_events is_generate g <= 1
            /\ Forall (fun ev => is_http_get ev || is_generate ev
                                 || is_sleep ev = true) g) as (G1 & G2 & G3 & G4).
    { destruct Hshape as [-> | [pr ->]]; cbn; repeat split; try lia;
        repeat constructor. }
    rewrite G1, G2. cbn [length count_events List.filter is_sleep
      is_http_get is_generate Nat.add].
    repeat split; try lia.
    constructor; [reflexivity|].
    apply Forall_app. split; [|exact Hk].
    apply Forall_app. split; [exact G4|]. repeat constructor.
Qed.

Lemma sublist_strongly_sorted {A} (R : A -> A -> Prop) (l1 l2 : list A) :
  l1 `sublist_of` l2 -> StronglySorted R l2 -> StronglySorted R l1.
Proof.
  induction 1 as [|x l1 l2 Hsub IH|x l1 l2 Hsub IH]; intros Hs.
  - constructor.
  - inversion Hs as [|? ? Hl Hx]; subst. constructor; [auto|].
    rewrite Forall_forall in Hx |- *. intros y Hy.
    apply Hx. eapply elem_of_sublist; eauto.
  - inversion Hs; subst. auto.
Qed.

Lemma newest_first_map {A} (f : A -> Z) (l : list A) :
  StronglySorted (fun a b => (f b <= f a)%Z) l -> newest_first (map f l).
Proof.
  unfold newest_first. induction 1 as [|x l Hl IH Hx]; cbn; constructor; auto.
  apply List.Forall_map. exact Hx.
Qed.

Lemma candidates_source (w : world) (cfg : config) c :
  In c (candidates_of w cfg) ->
  exists feed entries,
    In feed (FEED_URLS cfg) /\ feedparser_parse w feed = Ret entries
    /\ In (snd c) entries /\ fst c = resolve_published w (snd c).
Proof.
  unfold candidates_of. intros Hc.
  apply (Permutation_in _ (sort_newest_perm _)) in Hc.
  apply in_flat_map in Hc as (feed & Hfeed & Hc).
  destruct (feed_entries_source w cfg feed c Hc) as (entries & ? & ? & ?).
  now exists feed, entries.
Qed.

Lemma candidates_sorted (w : world) (cfg : config) :
  StronglySorted (fun a b => (fst b <= fst a)%Z) (candidates_of w cfg).
Proof.
  unfold candidates_of. generalize (flat_map (feed_entries w cfg) (FEED_URLS cfg)).
  intros l. induction l as [|c l IH]; cbn; [constructor|].
  now apply insert_newest_sorted.
Qed.

Lemma no_delivery_in_feeds (feeds : list string) :
  count_events is_delivery (map EvFeed feeds) = 0.
Proof. induction feeds as [|f l IH]; [reflexivity|exact IH]. Qed.

Lemma no_delivery_in_loop (evs : list event) :
  Forall (fun ev => is_http_get ev || is_generate ev || is_sleep ev = true)
         evs ->
  count_events is_delivery evs = 0.
Proof.
  induction 1 as [|ev evs Hev _ IH]; [reflexivity|].
  unfold count_events in *. cbn [List.filter].
  destruct ev; cbn in Hev |- *; try discriminate; exact IH.
Qed.

(** ** The result of a collection *)

(** X3: the collector never raises, never touches the file of sent URLs,
    and returns at most [max_items] items: none when [max_items] is zero or
    negative. *)
Theorem collector_respects_the_cap (w : world) (cfg : config) (max_items : Z)
    (st : state) :
  exists items st',
    collect_and_summarize w cfg max_items st = (Ret items, st')
    /\ sent_file st' = sent_file st
    /\ (Z.of_nat (length items) <= Z.max 0 max_items)%Z.
Proof.
  destruct (collect_loop_shape w cfg (loaded_set cfg (sent_file st)) max_items
              (candidates_of w cfg) [])
    as (chosen & evs & Hrun & _ & Hb & _).
  exists (map chosen_item chosen),
    (after (after st (map EvFeed (FEED_URLS cfg))) evs).
  split; [rewrite collect_and_summarize_run; apply Hrun|].
  split; [reflexivity|]. rewrite length_map. cbn in Hb. exact Hb.
Qed.

(** X4: the items come newest first, and each of them is made from an entry
    of a configured feed that parsed: its URL is the link of the entry, its
    title the title of the entry (or the URL when the entry has none), and
    its time the published time of the entry, else its updated time, else
    the time of the run. *)
Theorem collected_items_newest_first (w : world) (cfg : config)
    (max_items : Z) (st : state) :
  exists items st',
    collect_and_summarize w cfg max_items st = (Ret items, st')
    /\ newest_first (map item_published items)
    /\ forall it, In it items ->
         exists feed entries e,
           In feed (FEED_URLS cfg) /\ feedparser_parse w feed = Ret entries
           /\ In e entries
           /\ link e = Some (item_url it)
           /\ item_title it
              = match title e with Some t => t | None => item_url it end
           /\ item_published it
              = match published_parsed e, updated_parsed e with
                | Some t, _ => t
                | None, Some t => t
                | None, None => utcnow w
                end.
Proof.
  destruct (collect_loop_spec w cfg (loaded_set cfg (sent_file st)) max_items
              (candidates_of w cfg) [])
    as (items0 & evs0 & Hrun0 & Hurl & _).
  destruct (collect_loop_shape w cfg (loaded_set cfg (sent_file st)) max_items
              (candidates_of w cfg) [])
    as (chosen & evs & Hrun & Hsub & _).
  destruct (yields_fun _ _ _ _ _ Hrun0 Hrun) as [Hitems _]. cbn in Hitems.
  subst items0.
  exists (map chosen_item chosen),
    (after (after st (map EvFeed (FEED_URLS cfg))) evs).
  split; [rewrite collect_and_summarize_run; apply Hrun|]. split.
  - replace (map item_published (map chosen_item chosen))
      with (map fst (map fst chosen)).
    + apply newest_first_map.
      exact (sublist_strongly_sorted _ _ _ Hsub (candidates_sorted w cfg)).
    + rewrite !map_map. apply map_ext. now intros [[p e] s].
  - intros it Hit. rewrite List.Forall_forall in Hurl.
    destruct (Hurl it Hit) as (Htruthy & _ & _).
    apply in_map_iff in Hit as ([[p e] s] & <- & Hc).
    assert (In (p, e) (candidates_of w cfg)) as Hcand.
    { apply list_elem_of_In. eapply elem_of_sublist; [|exact Hsub].
      apply list_elem_of_In. apply in_map_iff. now exists ((p, e), s). }
    destruct (candidates_source w cfg (p, e) Hcand)
      as (feed & entries & Hfeed & Hparse & He & Hp).
    exists feed, entries, e. cbn in He, Hp, Htruthy |- *.
    split; [exact Hfeed|]. split; [exact Hparse|]. split; [exact He|].
    split; [|split].
    + unfold url_of, or_empty in *. now destruct (link e).
    + unfold title_of. destruct (title e); [reflexivity|]. now rewrite Htruthy.
    + rewrite Hp. unfold resolve_published.
      now destruct (published_parsed e), (updated_parsed e).
Qed.

(** X5: in a run of the collector there is exactly one pause per returned
    item (a candidate that is dropped is not followed by a pause), at most
    one Gemini call per returned item, nothing is delivered, and with
    [MAX_PER_FEED >= 0] at most [MAX_PER_FEED] pages per feed are
    requested. *)
Theorem collector_pauses_once_per_item (w : world) (cfg : config)
    (max_items : Z) (st : state) :
  exists items evs,
    collect_and_summarize w cfg max_items st
    = (Ret items, after st (map EvFeed (FEED_URLS cfg) ++ evs))
    /\ count_events is_sleep evs = length items
    /\ count_events is_generate evs <= length items
    /\ count_events is_delivery evs = 0
    /\ ((0 <= MAX_PER_FEED cfg)%Z ->
        count_events is_http_get evs
        <= Z.to_nat (MAX_PER_FEED cfg) * length (FEED_URLS cfg)).
Proof.
  destruct (collect_loop_shape w cfg (loaded_set cfg (sent_file st)) max_items
              (candidates_of w cfg) [])
    as (chosen & evs & Hrun & _ & _ & Hs & Hg & Hc & Hk).
  exists (map chosen_item chosen), evs.
  split; [rewrite collect_and_summarize_run, Hrun, after_after; reflexivity|].
  rewrite length_map. split; [exact Hs|]. split; [exact Hc|]. split.
  - now apply no_delivery_in_loop.
  - intros Hcap. etransitivity; [exact Hg|].
    unfold candidates_of.
    rewrite (Permutation_length (sort_newest_perm _)).
    now apply gathered_length.
Qed.

(** X6: what makes the loop accept a candidate.  The text is the page text
    when the page gave one, else the feed summary, else the feed
    description.  With such a text that is non-empty and passes the filters,
    the candidate becomes an item with its URL, title and time, summarized
    from that same text (by the extractive summarizer when Gemini is not
    configured); without one, it is dropped after the page request and
    nothing else happens. *)
Theorem candidate_acceptance (w : world) (cfg : config) (p : Z) (e : entry)
    (st : state) :
  exists r res evs,
    fetch_page w cfg (url_of e) st = (Ret r, after st [EvHttpGet (url_of e)])
    /\ attempt w cfg p e (url_of e) (title_of e (url_of e)) st
       = (Ret res, after st evs)
    /\ (forall text,
          or_else (fst r) (or_else (summary e) (description e)) = Some text ->
          Py.truthy text = true ->
          fst (passes_filters w cfg e (Some text)) = true ->
          exists s,
            res = Some (Item (title_of e (url_of e)) (url_of e) s p)
            /\ (Py.truthy (GOOGLE_API_KEY cfg) && GEMINI_AVAILABLE cfg = false ->
                s = simple_extractive_summary text 3
                /\ evs = [EvHttpGet (url_of e); EvSleep]))
    /\ (or_else (fst r) (or_else (summary e) (description e)) = None
        \/ (exists text,
              or_else (fst r) (or_else (summary e) (description e)) = Some text
              /\ (Py.truthy text = false
                  \/ fst (passes_filters w cfg e (Some text)) = false)) ->
        res = None /\ evs = [EvHttpGet (url_of e)]).
Proof.
  destruct (attempt_cases w cfg e) as (r & Hf & _ & Hcase).
  destruct (or_else (fst r) (or_else (summary e) (description e)))
    as [text|] eqn:Ho.
  2:{ exists r, None, [EvHttpGet (url_of e)].
      split; [apply Hf|]. split; [apply (Hcase p)|].
      split; [intros text' H; rewrite Ho in H; discriminate H|].
      intros _. split; reflexivity. }
  destruct (Py.truthy text && fst (passes_filters w cfg e (Some text))) eqn:Hok.
  - destruct Hcase as (s & g & Hs & _ & Hv).
    exists r, (Some (Item (title_of e (url_of e)) (url_of e) s p)),
      (EvHttpGet (url_of e) :: g ++ [EvSleep])%list.
    split; [apply Hf|]. split; [apply (Hv p)|]. split.
    + intros text' Htext _ _. rewrite Ho in Htext. injection Htext as <-.
      exists s. split; [reflexivity|]. intros Hoff.
      destruct (summarize_yields w cfg (title_of e (url_of e)) text)
        as (s' & g' & Hs' & _ & Hoff' & _).
      destruct (Hoff' Hoff) as [-> ->].
      destruct (yields_fun _ _ _ _ _ Hs Hs') as [-> ->]. now split.
    + apply andb_true_iff in Hok as [Ht Hp].
      intros [? | (text' & Htext & [? | ?])]; rewrite Ho in *; congruence.
  - exists r, None, [EvHttpGet (url_of e)].
    split; [apply Hf|]. split; [apply (Hcase p)|].
    split; [|intros _; split; reflexivity].
    intros text' Htext Ht Hp. rewrite Ho in Htext. injection Htext as <-.
    rewrite Ht, Hp in Hok. discriminate.
Qed.

Lemma candidate_acceptance_witness :
  attempt sample_world default_config 100 monsoon_entry
    "https://www.indiatoday.in/b" "Monsoon arrives" initial_state
  = (Ret (Some (Item "Monsoon arrives" "https://www.indiatoday.in/b"
                  (simple_extractive_summary monsoon_text 3) 100)),
     State Missing [EvHttpGet "https://www.indiatoday.in/b"; EvSleep])
  /\ fst (attempt sample_world default_config 300 foreign_entry
            "https://example.com/a" "Budget announced" initial_state)
     = Ret None.
Proof.
  split.
  - destruct (candidate_acceptance sample_world default_config 100%Z
                monsoon_entry initial_state)
      as (r & res & evs & Hf & Hrun & Hyes & _).
    injection Hf as <-.
    destruct (Hyes monsoon_text eq_refl eq_refl eq_refl) as (s & -> & Hs).
    destruct (Hs eq_refl) as [-> ->]. exact Hrun.
  - destruct (candidate_acceptance sample_world default_config 300%Z
                foreign_entry initial_state)
      as (r & res & evs & Hf & Hrun & _ & Hno).
    injection Hf as <-.
    change (attempt sample_world default_config 300 foreign_entry
              "https://example.com/a" "Budget announced" initial_state)
      with (attempt sample_world default_config 300 foreign_entry
              (url_of foreign_entry)
              (title_of foreign_entry (url_of foreign_entry)) initial_state).
    rewrite Hrun. cbn [fst]. f_equal. apply Hno. right.
    exists "Budget announced in parliament.". split; [reflexivity|].
    right. reflexivity.
Defined.

(** ** Delivery and persistence *)

Lemma send_email_run (w : world) (cfg : config) (subject body : string)
    (st : state) :
  send_email w cfg subject body st
  = if DRY_RUN cfg then (Ret tt, after st [EvPrintBody body])
    else if credentials_set cfg
    then (smtp_deliver w subject body, after st [EvSmtp subject body])
    else (Raise (OtherException "SENDER_EMAIL, RECEIVER_EMAIL and APP_PASSWORD environment variables required to send email."),
          st).
Proof.
  unfold send_email, credentials_set.
  destruct (DRY_RUN cfg); [reflexivity|].
  destruct (_ && _ && _); reflexivity.
Qed.

Lemma main_cases (w : world) (cfg : config) (st0 : state) items evs :
  collect_and_summarize w cfg (MAX_ITEMS cfg) st0 = (Ret items, after st0 evs) ->
  main w cfg st0
  = match items with
    | [] => (Ret tt, after st0 evs)
    | _ =>
        match send_email w cfg (subject_of w items)
                (compose_email_body w items) (after st0 evs) with
        | (Ret _, st') =>
            if PERSIST_SENT cfg && negb (DRY_RUN cfg)
            then save_sent_set w cfg
                   (loaded_set cfg (sent_file st')
                    ∪ list_to_set (map item_url items)) st'
            else (Ret tt, st')
        | (Raise ex, st') => (Raise ex, st')
        end
    end.
Proof.
  intros Hc. unfold main. unfold bind at 1. rewrite load_sent_set_run.
  unfold bind at 1. rewrite Hc. destruct items as [|it items]; [reflexivity|].
  unfold bind at 1. fold (subject_of w (it :: items)).
  destruct (send_email _ _ _ _ _) as [[[]|ex] st']; [|reflexivity].
  destruct (PERSIST_SENT cfg && negb (DRY_RUN cfg)); [|reflexivity].
  unfold bind. rewrite load_sent_set_run. now rewrite add_urls.
Qed.

(** X7: what a run of [main] does to the stored set of sent URLs, the file
    being absent, no JSON, no list or a list of strings.  The run removes
    no URL from the set, unless the write of the file raises after the file
    was opened: the file is then left emptied and the stored set is lost.
    The file is left as it is in a dry run, with persistence off, when
    nothing was collected, when the delivery raises and when the file
    cannot be opened for writing; after a delivery that succeeded, with
    persistence on, no dry run and a write that goes through, the stored
    set is the old one with the URLs of all delivered items. *)
Theorem main_keeps_sent_urls (w : world) (cfg : config) (st0 : state) :
  exists items sta,
    collect_and_summarize w cfg (MAX_ITEMS cfg) st0 = (Ret items, sta)
    /\ (write_truncates w = false ->
        loaded_set cfg (sent_file st0)
        ⊆ loaded_set cfg (sent_file (snd (main w cfg st0))))
    /\ (DRY_RUN cfg = true \/ PERSIST_SENT cfg = false
        \/ (file_writable w = false /\ write_failure w = AtOpen)
        \/ items = [] \/ fst (main w cfg st0) <> Ret tt ->
        sent_file (snd (main w cfg st0)) = sent_file st0)
    /\ (DRY_RUN cfg = false -> PERSIST_SENT cfg = true ->
        file_writable w = true -> items <> [] ->
        fst (main w cfg st0) = Ret tt ->
        loaded_set cfg (sent_file (snd (main w cfg st0)))
        = loaded_set cfg (sent_file st0) ∪ list_to_set (map item_url items))
    /\ (DRY_RUN cfg = false -> PERSIST_SENT cfg = true ->
        write_truncates w = true -> items <> [] ->
        fst (main w cfg st0) = Ret tt ->
        sent_file (snd (main w cfg st0)) = Corrupt
        /\ loaded_set cfg (sent_file (snd (main w cfg st0))) = ∅).
Proof.
  destruct (collect_loop_shape w cfg (loaded_set cfg (sent_file st0))
              (MAX_ITEMS cfg) (candidates_of w cfg) [])
    as (chosen & evs & Hrun & _).
  set (items := map chosen_item chosen) in *.
  assert (collect_and_summarize w cfg (MAX_ITEMS cfg) st0
          = (Ret items, after st0 (map EvFeed (FEED_URLS cfg) ++ evs))) as Hc
    by (rewrite collect_and_summarize_run, Hrun, after_after; reflexivity).
  exists items, (after st0 (map EvFeed (FEED_URLS cfg) ++ evs)).
  split; [exact Hc|]. rewrite (main_cases w cfg st0 items _ Hc).
  destruct items as [|it items'] eqn:Hitems.
  { cbn. split; [reflexivity|]. split; [reflexivity|].
    split; now intros. }
  rewrite send_email_run.
  destruct (DRY_RUN cfg) eqn:Hd.
  { rewrite andb_false_r. cbn.
    split; [reflexivity|]. split; [reflexivity|]. split; discriminate. }
  destruct (credentials_set cfg).
  2:{ cbn. split; [reflexivity|]. split; [reflexivity|]. split; now intros. }
  destruct (smtp_deliver w _ _) as [[]|ex].
  2:{ cbn. split; [reflexivity|]. split; [reflexivity|]. split; now intros. }
  destruct (PERSIST_SENT cfg) eqn:Hp; cbn [andb negb]; cbv iota.
  2:{ cbn. split; [reflexivity|]. split; [reflexivity|]. split; discriminate. }
  rewrite save_sent_set_run, Hp. unfold write_truncates.
  destruct (file_writable w) eqn:Hw; cbn [andb negb snd fst].
  - rewrite loaded_after_save by exact Hp.
    change (sent_file (after _ _)) with (sent_file st0).
    split; [intros _; apply union_subseteq_l|]. split.
    { intros [? | [? | [[? _] | [? | ?]]]]; congruence. }
    split; [reflexivity|discriminate].
  - destruct (write_failure w) eqn:Hf; cbn [sent_file after].
    + split; [reflexivity|]. split; [reflexivity|]. split; discriminate.
    + split; [discriminate|]. split.
      { intros [? | [? | [[_ ?] | [? | ?]]]]; congruence. }
      split; [discriminate|]. intros _ _ _ _ _. split; [reflexivity|].
      unfold loaded_set. now rewrite Hp.
Qed.

Lemma main_keeps_sent_urls_witness :
  (exists items,
     fst (collect_and_summarize sample_world default_config
            (MAX_ITEMS default_config) initial_state)
     = Ret items
     /\ loaded_set default_config
          (sent_file (snd (main sample_world default_config initial_state)))
        = loaded_set default_config (sent_file initial_state)
          ∪ list_to_set (map item_url items))
  /\ sent_file
       (snd (main full_disk_world default_config
               (State (Json (JsonArray ["https://www.ndtv.com/c"])) [])))
     = Corrupt.
Proof.
  split.
  - destruct (main_keeps_sent_urls sample_world default_config initial_state)
      as (items & sta & Hc & _ & _ & H & _).
    exists items. split; [now rewrite Hc|].
    apply H; [reflexivity | reflexivity | reflexivity | |].
    + intros ->. vm_compute in Hc. discriminate Hc.
    + vm_compute. reflexivity.
  - destruct (main_keeps_sent_urls full_disk_world default_config
                (State (Json (JsonArray ["https://www.ndtv.com/c"])) []))
      as (items & sta & Hc & _ & _ & _ & H).
    apply H; [reflexivity | reflexivity | reflexivity | |].
    + intros ->. vm_compute in Hc. discriminate Hc.
    + vm_compute. reflexivity.
Defined.

(** X8: [main] delivers at most once, after the collection.  With no item
    nothing is delivered; in a dry run the body is printed and the mail
    server is never contacted, whatever the credentials are; without dry
    run and with a credential missing, [main] raises before any contact;
    otherwise there is exactly one SMTP delivery and [main] raises exactly
    when that delivery does. *)
Theorem main_delivers_at_most_once (w : world) (cfg : config) (st0 : state) :
  exists items evs_c evs_d,
    collect_and_summarize w cfg (MAX_ITEMS cfg) st0
    = (Ret items, after st0 evs_c)
    /\ trace (snd (main w cfg st0)) = (trace st0 ++ evs_c ++ evs_d)%list
    /\ count_events is_delivery evs_c = 0
    /\ (items = [] -> evs_d = [] /\ fst (main w cfg st0) = Ret tt)
    /\ (items <> [] -> DRY_RUN cfg = true ->
        evs_d = [EvPrintBody (compose_email_body w items)]
        /\ fst (main w cfg st0) = Ret tt)
    /\ (items <> [] -> DRY_RUN cfg = false -> credentials_set cfg = false ->
        evs_d = [] /\ exists ex, fst (main w cfg st0) = Raise ex)
    /\ (items <> [] -> DRY_RUN cfg = false -> credentials_set cfg = true ->
        evs_d = [EvSmtp (subject_of w items) (compose_email_body w items)]
        /\ fst (main w cfg st0)
           = smtp_deliver w (subject_of w items) (compose_email_body w items)).
Proof.
  destruct (collect_loop_shape w cfg (loaded_set cfg (sent_file st0))
              (MAX_ITEMS cfg) (candidates_of w cfg) [])
    as (chosen & evs & Hrun & _ & _ & _ & _ & _ & Hk).
  set (items := map chosen_item chosen) in *.
  assert (collect_and_summarize w cfg (MAX_ITEMS cfg) st0
          = (Ret items, after st0 (map EvFeed (FEED_URLS cfg) ++ evs))) as Hc
    by (rewrite collect_and_summarize_run, Hrun, after_after; reflexivity).
  assert (count_events is_delivery (map EvFeed (FEED_URLS cfg) ++ evs) = 0)
    as Hnone.
  { rewrite count_events_app, no_delivery_in_feeds.
    now rewrite (no_delivery_in_loop _ Hk). }
  rewrite (main_cases w cfg st0 items _ Hc).
  destruct items as [|it items'] eqn:Hitems.
  { exists [], (map EvFeed (FEED_URLS cfg) ++ evs)%list, [].
    split; [exact Hc|]. cbn [snd fst after trace]. rewrite app_nil_r.
    repeat (split; [easy|]). easy. }
  rewrite send_email_run.
  destruct (DRY_RUN cfg) eqn:Hd.
  { exists (it :: items'), (map EvFeed (FEED_URLS cfg) ++ evs)%list,
      [EvPrintBody (compose_email_body w (it :: items'))].
    split; [exact Hc|]. rewrite andb_false_r. cbn [snd fst after trace].
    rewrite <- app_assoc. repeat (split; [easy|]). easy. }
  destruct (credentials_set cfg) eqn:Hcred.
  2:{ exists (it :: items'), (map EvFeed (FEED_URLS cfg) ++ evs)%list, [].
      split; [exact Hc|]. cbn [snd fst after trace]. rewrite app_nil_r.
      repeat (split; [easy|]). split; [|easy].
      intros _ _ _. split; [reflexivity|]. eauto. }
  exists (it :: items'), (map EvFeed (FEED_URLS cfg) ++ evs)%list,
    [EvSmtp (subject_of w (it :: items')) (compose_email_body w (it :: items'))].
  split; [exact Hc|].
  destruct (smtp_deliver w _ _) as [[]|ex].
  2:{ cbn [snd fst after trace]. rewrite <- app_assoc.
      repeat (split; [easy|]). easy. }
  destruct (PERSIST_SENT cfg && negb false);
    [rewrite save_sent_set_run; destruct (_ && _); [|destruct (_ && _)]|];
    cbn [snd fst after trace]; rewrite <- app_assoc;
    repeat (split; [easy|]); easy.
Qed.

Lemma main_delivers_at_most_once_witness :
  exists evs_c,
    trace (snd (main sample_world default_config initial_state))
    = (evs_c ++ [EvSmtp "India Daily Top 3 — 2026-11-03"
                   (compose_email_body sample_world
                      (match fst (collect_and_summarize sample_world
                                    default_config 10 initial_state) with
                       | Ret items => items
                       | Raise _ => []
                       end))])%list.
Proof.
  destruct (main_delivers_at_most_once sample_world default_config
              initial_state)
    as (items & evs_c & evs_d & Hc & Ht & _ & _ & _ & _ & H).
  exists evs_c. rewrite Ht. cbn [trace initial_state app].
  change 10%Z with (MAX_ITEMS default_config). rewrite Hc. cbn [fst].
  assert (items <> []) as Hne
    by (intros ->; vm_compute in Hc; discriminate Hc).
  destruct (H Hne eq_refl eq_refl) as [-> _]. f_equal. f_equal. f_equal.
  vm_compute in Hc. injection Hc as <- _. reflexivity.
Defined.

(** ** The formatter *)

Lemma contains_char (a c : ascii) (s : string) :
  Py.contains (String a EmptyString) (String c s)
  = Ascii.eqb a c || Py.contains (String a EmptyString) s.
Proof.
  cbn [Py.contains Py.startswith]. now rewrite andb_true_r.
Qed.

Lemma contains_char_empty (a : ascii) :
  Py.contains (String a EmptyString) EmptyString = false.
Proof. reflexivity. Qed.

Lemma lines_app_LF (a b : string) :
  lines (a ++ LF ++ b) = (lines a ++ lines b)%list.
Proof.
  unfold lines. induction a as [|c a IH].
  - change (EmptyString ++ LF ++ b) with (String (ascii_of_nat 10) b).
    cbn [lines_from]. destruct (lines_from b) as [p ps].
    rewrite Ascii.eqb_refl. reflexivity.
  - change (String c a ++ LF ++ b) with (String c (a ++ LF ++ b)).
    cbn [lines_from].
    destruct (lines_from (a ++ LF ++ b)) as [p ps].
    destruct (lines_from a) as [p' ps']. destruct (lines_from b) as [q qs].
    injection IH as -> ->.
    destruct (Ascii.eqb c (ascii_of_nat 10)); reflexivity.
Qed.

Lemma lines_single (s : string) : Py.contains LF s = false -> lines s = [s].
Proof.
  unfold lines, LF. induction s as [|c s IH]; [reflexivity|].
  rewrite contains_char. intros [Hc Hs]%orb_false_iff.
  cbn [lines_from]. destruct (lines_from s) as [p ps].
  rewrite Ascii.eqb_sym, Hc. specialize (IH Hs). now injection IH as -> ->.
Qed.

Lemma lines_join (x : string) (l : list string) :
  lines (Py.join LF (x :: l)) = (lines x ++ flat_map lines l)%list.
Proof.
  revert x. induction l as [|y l IH]; intros x.
  - cbn. now rewrite app_nil_r.
  - change (Py.join LF (x :: y :: l)) with (x ++ LF ++ Py.join LF (y :: l)).
    rewrite lines_app_LF, IH. reflexivity.
Qed.

Lemma contains_char_app (a : ascii) (s t : string) :
  Py.contains (String a EmptyString) (s ++ t)
  = Py.contains (String a EmptyString) s
    || Py.contains (String a EmptyString) t.
Proof.
  induction s as [|c s IH].
  - change (EmptyString ++ t) with t. now rewrite contains_char_empty.
  - change (String c s ++ t) with (String c (s ++ t)).
    rewrite !contains_char, IH. apply orb_assoc.
Qed.

Lemma digits_single_line (d : Decimal.uint) :
  Py.contains LF (NilEmpty.string_of_uint d) = false.
Proof.
  unfold LF. induction d; cbn [NilEmpty.string_of_uint];
    [reflexivity | rewrite contains_char, IHd; reflexivity..].
Qed.

Lemma str_of_nat_single_line (n : nat) :
  Py.contains LF (Py.str_of_nat n) = false.
Proof.
  unfold Py.str_of_nat, NilZero.string_of_uint.
  destruct (Nat.to_uint n); try apply digits_single_line. reflexivity.
Qed.

Lemma item_lines_blocks (items : list item) :
  (forall it, In it items ->
     Py.contains LF (item_title it) = false
     /\ Py.contains LF (item_url it) = false) ->
  forall i, flat_map lines (item_lines i items) = item_blocks i items.
Proof.
  induction items as [|it items IH]; intros H i; [reflexivity|].
  destruct (H it (or_introl eq_refl)) as [Ht Hu].
  cbn [item_lines item_blocks flat_map].
  rewrite IH by (intros it' Hin; apply H; now right).
  rewrite (lines_single (Py.str_of_nat i ++ ". " ++ item_title it)).
  2:{ unfold LF. rewrite !contains_char_app.
      fold LF. now rewrite str_of_nat_single_line, Ht. }
  rewrite (lines_single ("Link: " ++ item_url it)).
  2:{ unfold LF. rewrite contains_char_app. fold LF. now rewrite Hu. }
  reflexivity.
Qed.

Lemma item_blocks_length (items : list item) :
  forall i,
    length (item_blocks i items)
    = list_sum (map (fun it => 4 + length (lines (item_summary it))) items).
Proof.
  induction items as [|it items IH]; intros i; [reflexivity|].
  cbn [item_blocks map length]. rewrite length_app.
  cbn [length]. rewrite IH. unfold list_sum. cbn [fold_right]. lia.
Qed.

(** X9: with a date, titles and links that hold no line feed, the lines of
    the body are the dated header, a rule of forty dashes and an empty
    line, and then for every item, numbered from 1, its numbered title, its
    link, the label [Summary:], the lines of its summary and an empty
    line.  An item thus takes four lines and those of its summary, which
    gives the number of lines of the body. *)
Theorem email_body_layout (w : world) (items : list item) :
  Py.contains LF (today_long w) = false ->
  (forall it, In it items ->
     Py.contains LF (item_title it) = false
     /\ Py.contains LF (item_url it) = false) ->
  lines (compose_email_body w items)
  = ("India Daily Digest — " ++ today_long w)
    :: "----------------------------------------"
    :: EmptyString
    :: item_blocks 1 items
  /\ length (lines (compose_email_body w items))
     = 3 + list_sum (map (fun it => 4 + length (lines (item_summary it)))
                         items).
Proof.
  intros Hd Hitems.
  assert (lines (compose_email_body w items)
          = ("India Daily Digest — " ++ today_long w)
            :: "----------------------------------------"
            :: EmptyString
            :: item_blocks 1 items) as E.
  { unfold compose_email_body. rewrite lines_join.
    rewrite lines_single.
    2:{ unfold LF. rewrite contains_char_app. fold LF. now rewrite Hd. }
    cbn [flat_map app]. rewrite item_lines_blocks by exact Hitems.
    reflexivity. }
  split; [exact E|]. rewrite E. cbn [length].
  now rewrite item_blocks_length.
Qed.

Lemma email_body_layout_witness :
  lines (compose_email_body sample_world
           [Item "A" "u" ("Headline." ++ LF ++ "- Bullet.") 2;
            Item "B" "v" "t" 1])
  = ["India Daily Digest — November 03, 2026";
     "----------------------------------------";
     EmptyString;
     "1. A"; "Link: u"; "Summary:"; "Headline."; "- Bullet."; EmptyString;
     "2. B"; "Link: v"; "Summary:"; "t"; EmptyString].
Proof.
  apply (email_body_layout sample_world
           [Item "A" "u" ("Headline." ++ LF ++ "- Bullet.") 2;
            Item "B" "v" "t" 1]); [reflexivity|].
  intros it [<- | [<- | []]]; split; reflexivity.
Defined.

(** ** Whitespace and sentences *)

Lemma rstrip_idem (s : string) : Py.rstrip (Py.rstrip s) = Py.rstrip s.
Proof.
  induction s as [|c s IH]; [reflexivity|]. cbn [Py.rstrip].
  destruct (Py.is_space c && negb (Py.truthy (Py.rstrip s))) eqn:E;
    [reflexivity|].
  cbn [Py.rstrip]. now rewrite IH, E.
Qed.

Lemma lstrip_clean (s : string) : starts_clean (Py.lstrip s) = true.
Proof.
  induction s as [|c s IH]; [reflexivity|]. cbn [Py.lstrip].
  destruct (Py.is_space c) eqn:E; [exact IH|]. cbn. now rewrite E.
Qed.

Lemma lstrip_id (s : string) : starts_clean s = true -> Py.lstrip s = s.
Proof.
  destruct s as [|c s]; [reflexivity|]. cbn.
  now intros ->%negb_true_iff.
Qed.

Lemma rstrip_clean (s : string) :
  starts_clean s = true -> starts_clean (Py.rstrip s) = true.
Proof.
  destruct s as [|c s]; [reflexivity|]. cbn [starts_clean Py.rstrip].
  intros H. apply negb_true_iff in H as E. rewrite E. cbn. now rewrite E.
Qed.

(** [strip] gives a text without whitespace at either end, and leaves such a
    text as it is. *)
Lemma strip_idem (s : string) : Py.strip (Py.strip s) = Py.strip s.
Proof.
  unfold Py.strip.
  rewrite (lstrip_id (Py.rstrip (Py.lstrip s)))
    by apply rstrip_clean, lstrip_clean.
  apply rstrip_idem.
Qed.

Lemma single_spaced_tail c s :
  single_spaced (String c s) = true -> single_spaced s = true.
Proof. cbn. now intros [_ H]%andb_true_iff. Qed.

Lemma squeeze_spaced (s : string) :
  forall b,
    single_spaced (Py.squeeze b s) = true
    /\ (b = true -> starts_clean (Py.squeeze b s) = true).
Proof.
  induction s as [|c s IH]; intros b; [now split|].
  cbn [Py.squeeze]. destruct (Py.is_space c) eqn:E.
  - destruct b.
    + apply IH.
    + destruct (IH true) as [H1 H2]. split; [|discriminate].
      cbn. now rewrite H1, (H2 eq_refl).
  - destruct (IH false) as [H1 _]. cbn. rewrite E, H1. now split.
Qed.

Lemma lstrip_spaced (s : string) :
  single_spaced s = true -> single_spaced (Py.lstrip s) = true.
Proof.
  induction s as [|c s IH]; [reflexivity|]. intros H. cbn [Py.lstrip].
  destruct (Py.is_space c); [|exact H].
  apply IH. now apply single_spaced_tail in H.
Qed.

Lemma rstrip_head c s r :
  Py.rstrip s = String c r -> exists s', s = String c s'.
Proof.
  destruct s as [|d s]; [discriminate|]. cbn [Py.rstrip].
  destruct (_ && _); [discriminate|]. intros [= -> _]. eauto.
Qed.

Lemma rstrip_spaced (s : string) :
  single_spaced s = true -> single_spaced (Py.rstrip s) = true.
Proof.
  induction s as [|c s IH]; [reflexivity|]. intros H.
  pose proof (single_spaced_tail _ _ H) as Hs. specialize (IH Hs).
  cbn [Py.rstrip]. destruct (Py.is_space c && _) eqn:E; [reflexivity|].
  cbn [single_spaced] in H |- *. rewrite IH, andb_true_r.
  apply andb_true_iff in H as [H _].
  destruct (Py.is_space c) eqn:Ec; [|reflexivity].
  apply andb_true_iff in H as [Hc Hn]. rewrite Hc. cbn [andb].
  destruct (Py.rstrip s) as [|d r] eqn:Er; [reflexivity|].
  destruct (rstrip_head _ _ _ Er) as [s' ->]. exact Hn.
Qed.

Lemma squeeze_id (s : string) :
  forall b,
    single_spaced s = true -> (b = true -> starts_clean s = true) ->
    Py.squeeze b s = s.
Proof.
  induction s as [|c s IH]; intros b H Hb; [reflexivity|].
  pose proof (single_spaced_tail _ _ H) as Hs.
  cbn [single_spaced] in H. apply andb_true_iff in H as [H _].
  cbn [Py.squeeze]. destruct (Py.is_space c) eqn:E.
  - apply andb_true_iff in H as [Hc Hn]. apply Ascii.eqb_eq in Hc. subst c.
    destruct b.
    + specialize (Hb eq_refl). cbn in Hb. now rewrite E in Hb.
    + f_equal. now apply IH.
  - f_equal. apply IH; [exact Hs|discriminate].
Qed.

Lemma normalized_spaced (text : string) :
  single_spaced (normalized text) = true
  /\ starts_clean (normalized text) = true
  /\ Py.rstrip (normalized text) = normalized text.
Proof.
  unfold normalized, Py.strip. split; [|split].
  - apply rstrip_spaced, lstrip_spaced, squeeze_spaced.
  - apply rstrip_clean, lstrip_clean.
  - apply rstrip_idem.
Qed.

(** X10: whitespace normalisation is idempotent, so the summary depends on
    the text only up to its layout: it is the summary of the normalised
    text, which has single spaces only and none at its ends. *)
Theorem summary_ignores_layout (text : string) (max_sentences : Z) :
  normalized (normalized text) = normalized text
  /\ single_spaced (normalized text) = true
  /\ Py.strip (normalized text) = normalized text
  /\ simple_extractive_summary (normalized text) max_sentences
     = simple_extractive_summary text max_sentences.
Proof.
  destruct (normalized_spaced text) as (Hs & Hc & Hr).
  assert (Py.strip (normalized text) = normalized text) as Hstrip.
  { unfold Py.strip. now rewrite (lstrip_id _ Hc). }
  assert (normalized (normalized text) = normalized text) as Hn.
  { unfold normalized at 1. unfold Py.sub_whitespace.
    rewrite squeeze_id; [exact Hstrip | exact Hs | discriminate]. }
  repeat split; auto.
  unfold simple_extractive_summary. now rewrite Hn.
Qed.

Lemma join_push c p ps :
  Py.join " " (String c p :: ps) = String c (Py.join " " (p :: ps)).
Proof. destruct ps; reflexivity. Qed.

Lemma split_from_rejoin (s : string) :
  forall a,
    single_spaced s = true ->
    Py.join " " (fst (Py.split_from a false s) :: snd (Py.split_from a false s))
    = s.
Proof.
  induction s as [|c s IH]; intros a H; [reflexivity|].
  pose proof (single_spaced_tail _ _ H) as Hs.
  cbn [single_spaced] in H. apply andb_true_iff in H as [H _].
  cbn [Py.split_from]. destruct (Py.is_space c) eqn:E.
  - apply andb_true_iff in H as [Hc Hn]. apply Ascii.eqb_eq in Hc. subst c.
    destruct a.
    + cbn [fst snd].
      assert (Py.split_from false true s = Py.split_from false false s) as ->.
      { destruct s as [|d s']; [reflexivity|]. cbn in Hn.
        apply negb_true_iff in Hn. cbn [Py.split_from]. now rewrite Hn. }
      specialize (IH false Hs).
      destruct (Py.split_from false false s) as [p ps]. cbn [fst snd] in *.
      change (Py.join " " (EmptyString :: p :: ps))
        with (EmptyString ++ " " ++ Py.join " " (p :: ps)).
      now rewrite IH.
    + specialize (IH false Hs).
      destruct (Py.split_from false false s) as [p ps]. cbn [fst snd] in *.
      now rewrite join_push, IH.
  - specialize (IH (Py.is_terminator c) Hs).
    destruct (Py.split_from (Py.is_terminator c) false s) as [p ps].
    cbn [fst snd] in *. now rewrite join_push, IH.
Qed.

(** X11: on the normalised text the sentence splitter loses nothing: its
    pieces joined by single spaces are the text again. *)
Theorem sentences_rejoin (text : string) :
  Py.join " " (Py.sentence_split (normalized text)) = normalized text.
Proof.
  destruct (normalized_spaced text) as (Hs & _).
  pose proof (split_from_rejoin (normalized text) false Hs) as H.
  unfold Py.sentence_split.
  now destruct (Py.split_from false false (normalized text)).
Qed.

Lemma rstrip_tail c s :
  Py.rstrip (String c s) = String c s -> Py.rstrip s = s.
Proof.
  cbn [Py.rstrip]. destruct (_ && _); [discriminate|]. now intros [= ->].
Qed.

Lemma rstrip_push c p :
  Py.rstrip p = p -> (Py.is_space c = true -> Py.truthy p = true) ->
  Py.rstrip (String c p) = String c p.
Proof.
  intros Hp Hc. cbn [Py.rstrip]. rewrite Hp.
  destruct (Py.is_space c); [|reflexivity]. now rewrite Hc.
Qed.

(** The pieces of a normalised text have no whitespace at their ends. *)
Lemma split_from_clean (s : string) :
  forall a,
    single_spaced s = true -> Py.rstrip s = s ->
    Py.rstrip (fst (Py.split_from a false s)) = fst (Py.split_from a false s)
    /\ (starts_clean s = true ->
        starts_clean (fst (Py.split_from a false s)) = true)
    /\ (Py.truthy s = true -> starts_clean s = true ->
        Py.truthy (fst (Py.split_from a false s)) = true)
    /\ Forall (fun q => Py.rstrip q = q /\ starts_clean q = true)
              (snd (Py.split_from a false s)).
Proof.
  induction s as [|c s IH]; intros a H Hr; [now repeat split|].
  pose proof (single_spaced_tail _ _ H) as Hs.
  pose proof (rstrip_tail _ _ Hr) as Hr'.
  cbn [single_spaced] in H. apply andb_true_iff in H as [H _].
  cbn [Py.split_from]. destruct (Py.is_space c) eqn:E.
  - apply andb_true_iff in H as [Hc Hn].
    assert (Py.truthy s = true) as Hne.
    { cbn [Py.rstrip] in Hr. rewrite E, Hr' in Hr. cbn [andb] in Hr.
      destruct (Py.truthy s); [reflexivity|discriminate]. }
    assert (Py.split_from false true s = Py.split_from false false s) as Hsame.
    { destruct s as [|d s']; [reflexivity|]. cbn in Hn.
      apply negb_true_iff in Hn. cbn [Py.split_from]. now rewrite Hn. }
    destruct a.
    + rewrite Hsame. destruct (IH false Hs Hr') as (I1 & I2 & I3 & I4).
      destruct (Py.split_from false false s) as [p ps]. cbn [fst snd] in *.
      split; [reflexivity|]. split; [reflexivity|].
      split; [cbn; now rewrite E|].
      constructor; [|exact I4]. split; [exact I1|now apply I2].
    + destruct (IH false Hs Hr') as (I1 & I2 & I3 & I4).
      destruct (Py.split_from false false s) as [p ps]. cbn [fst snd] in *.
      split; [apply rstrip_push; auto|].
      split; [cbn; now rewrite E|]. split; [reflexivity|exact I4].
  - destruct (IH (Py.is_terminator c) Hs Hr') as (I1 & I2 & I3 & I4).
    destruct (Py.split_from (Py.is_terminator c) false s) as [p ps].
    cbn [fst snd] in *.
    split; [apply rstrip_push; [exact I1|congruence]|].
    split; [cbn; now rewrite E|]. split; [reflexivity|exact I4].
Qed.

Lemma sentences_clean (text : string) :
  Forall (fun q => Py.strip q = q) (Py.sentence_split (normalized text)).
Proof.
  destruct (normalized_spaced text) as (Hs & Hc & Hr).
  destruct (split_from_clean (normalized text) false Hs Hr)
    as (I1 & I2 & _ & I4).
  unfold Py.sentence_split.
  destruct (Py.split_from false false (normalized text)) as [p ps].
  cbn [fst snd] in *. constructor.
  - unfold Py.strip. now rewrite (lstrip_id _ (I2 Hc)).
  - eapply List.Forall_impl; [|exact I4]. cbv beta. intros q [Hq1 Hq2].
    unfold Py.strip. now rewrite (lstrip_id _ Hq2).
Qed.

(** X12: with two sentences or more and [max_sentences >= 2], the summary
    is the first sentence, a line feed, and one bullet line for each of the
    sentences that follow it among the first [max_sentences], the sentences
    being taken as they stand in the normalised text. *)
Theorem summary_headline_and_bullets (text : string) (max_sentences : Z)
    (s1 s2 : string) (rest : list string) :
  (2 <= max_sentences)%Z ->
  Py.sentence_split (normalized text) = s1 :: s2 :: rest ->
  simple_extractive_summary text max_sentences
  = s1 ++ LF
    ++ Py.join LF (map (fun b => "- " ++ b)
                       (firstn (Z.to_nat max_sentences - 1) (s2 :: rest))).
Proof.
  intros Hm Hsplit. pose proof (sentences_clean text) as Hclean.
  rewrite Hsplit in Hclean.
  inversion Hclean as [|? ? H1 Hclean']; subst.
  unfold simple_extractive_summary.
  destruct (normalized text) as [|c t] eqn:E.
  { rewrite sentence_split_empty in Hsplit. discriminate. }
  cbn [Py.truthy negb]. rewrite Hsplit. unfold Py.slice_to.
  assert ((0 <=? max_sentences)%Z = true) as -> by (apply Z.leb_le; lia).
  destruct (Z.to_nat max_sentences) as [|[|k]] eqn:Hk; try lia.
  cbn [firstn length Nat.ltb Nat.leb tail Nat.sub]. rewrite H1.
  change (1 <? S (S (length (firstn k rest))))%nat with true. cbv iota.
  cbn [firstn]. do 2 f_equal.
  f_equal. apply map_ext_in. intros b Hb.
  rewrite List.Forall_forall in Hclean'. f_equal. apply Hclean'.
  destruct Hb as [<- | Hb]; [now left|right].
  rewrite <- (firstn_skipn k rest). apply in_or_app. now left.
Qed.

Lemma summary_headline_and_bullets_witness :
  simple_extractive_summary "One.   Two?  Three! Four." 3
  = "One." ++ LF ++ "- Two?" ++ LF ++ "- Three!".
Proof.
  apply (summary_headline_and_bullets "One.   Two?  Three! Four." 3
           "One." "Two?" ["Three!"; "Four."]); [lia|reflexivity].
Defined.

(** ** More on the filters *)

(** X13: a candidate passes the filter chain exactly when its domain is
    allowed, no non-empty exclude keyword occurs in its lowercased title and
    summary, some include keyword occurs there if there are include
    keywords, and its effective length reaches the minimum; the reason is
    [ok] exactly in that case. *)
Theorem passes_filters_iff (w : world) (cfg : config) (e : entry)
    (x : option string) :
  (fst (passes_filters w cfg e x) = true <->
   domain_allowed w cfg (url_of e) = true
   /\ (forall kw, In kw (EXCLUDE_KEYWORDS cfg) -> kw <> EmptyString ->
         Py.contains kw (combined_text e) = false)
   /\ (INCLUDE_KEYWORDS cfg = []
       \/ exists kw, In kw (INCLUDE_KEYWORDS cfg)
                     /\ Py.contains kw (combined_text e) = true)
   /\ (MIN_ARTICLE_LENGTH cfg <= Z.of_nat (effective_len e x))%Z)
  /\ (fst (passes_filters w cfg e x) = true <->
      snd (passes_filters w cfg e x) = "ok").
Proof.
  unfold passes_filters, url_of.
  destruct (domain_allowed w cfg (or_empty (link e))) eqn:Hd; cbn [negb].
  2:{ split; (split; [discriminate|]); [now intros [? _]|].
      cbn. discriminate. }
  destruct (first_excluded cfg e) as [kw|] eqn:Hx.
  { split; (split; [discriminate|]); [|cbn; discriminate].
    intros (_ & Hex & _). exfalso. unfold first_excluded in Hx.
    apply find_some in Hx as [Hin Hkw].
    apply andb_true_iff in Hkw as [Ht Hc].
    rewrite Hex in Hc; [discriminate|exact Hin|].
    intros ->. discriminate. }
  assert (forall kw, In kw (EXCLUDE_KEYWORDS cfg) -> kw <> EmptyString ->
            Py.contains kw (combined_text e) = false) as Hex.
  { intros kw Hin Hne. unfold first_excluded in Hx.
    apply (find_none _ _ Hx) in Hin.
    destruct kw; [congruence|]. exact Hin. }
  destruct (include_missed cfg e) eqn:Hi.
  { split; (split; [discriminate|]); [|cbn; discriminate].
    intros (_ & _ & Hinc & _). exfalso. unfold include_missed in Hi.
    destruct Hinc as [Hnil | (kw & Hin & Hc)].
    - now rewrite Hnil in Hi.
    - apply andb_true_iff in Hi as [_ Hi]. apply negb_true_iff in Hi.
      assert (existsb (fun kw => Py.contains kw (combined_text e))
                      (INCLUDE_KEYWORDS cfg) = true) as Hy
        by (apply existsb_exists; eauto).
      congruence. }
  assert (INCLUDE_KEYWORDS cfg = []
          \/ exists kw, In kw (INCLUDE_KEYWORDS cfg)
                        /\ Py.contains kw (combined_text e) = true) as Hinc.
  { unfold include_missed in Hi.
    destruct (INCLUDE_KEYWORDS cfg) as [|k ks] eqn:Hk; [now left|right].
    cbn [andb] in Hi. apply negb_false_iff in Hi.
    apply existsb_exists in Hi as (kw & Hin & Hc). eauto. }
  destruct (Z.ltb_spec (Z.of_nat (effective_len e x)) (MIN_ARTICLE_LENGTH cfg)).
  - split; (split; [discriminate|]); [|cbn; discriminate].
    intros (_ & _ & _ & Hlen). lia.
  - split; (split; [|reflexivity]); [|reflexivity]. auto.
Qed.

(** ** More on the domain matcher *)

Lemma lower_char_idem (c : ascii) :
  Py.lower_char (Py.lower_char c) = Py.lower_char c.
Proof. destruct c as [[] [] [] [] [] [] [] []]; reflexivity. Qed.

Lemma lower_idem (s : string) : Py.lower (Py.lower s) = Py.lower s.
Proof.
  induction s as [|c s IH]; [reflexivity|]. cbn.
  now rewrite lower_char_idem, IH.
Qed.

Lemma replace_from_lower (old : string) (s : string) :
  forall k,
    Py.lower s = s ->
    Py.lower (Py.replace_from old EmptyString k s)
    = Py.replace_from old EmptyString k s.
Proof.
  induction s as [|c s IH]; intros k H; [reflexivity|].
  cbn [Py.lower] in H. injection H as Hc Hs.
  cbn [Py.replace_from]. destruct k as [|k]; [|now apply IH].
  destruct (Py.startswith old (String c s)).
  - change (EmptyString ++ ?r) with r. now apply IH.
  - cbn [Py.lower]. now rewrite Hc, IH.
Qed.

Lemma startswith_app (d s : string) : Py.startswith d (d ++ s) = true.
Proof.
  induction d as [|c d IH]; [reflexivity|].
  change (String c d ++ s) with (String c (d ++ s)). cbn [Py.startswith].
  now rewrite Ascii.eqb_refl, IH.
Qed.

Lemma contains_middle (pre d post : string) :
  Py.contains d (pre ++ d ++ post) = true.
Proof.
  induction pre as [|c pre IH].
  - change (EmptyString ++ ?r) with r.
    destruct (d ++ post) eqn:E; cbn [Py.contains];
      rewrite <- E, startswith_app; reflexivity.
  - change (String c pre ++ ?r) with (String c (pre ++ r)).
    cbn [Py.contains]. rewrite IH. apply orb_true_r.
Qed.

(** X14: the domain that is matched is always in lower case; and the match
    is by substring: a host that has an allowed domain anywhere in it (and
    no [www.] in it) is allowed, be it a subdomain of the allowed domain or
    a host that merely carries its name. *)
Theorem domain_match_is_by_substring (w : world) (cfg : config) :
  (forall url, Py.lower (domain_of w url) = domain_of w url)
  /\ forall url netloc pre d post,
       urlparse_netloc w url = Ret netloc ->
       Py.lower netloc = pre ++ d ++ post ->
       d ∈ ALLOW_DOMAINS cfg ->
       Py.contains "www." (Py.lower netloc) = false ->
       domain_of w url = pre ++ d ++ post
       /\ domain_allowed w cfg url = true.
Proof.
  split.
  - intros url. unfold domain_of.
    destruct (urlparse_netloc w url); [|reflexivity].
    apply replace_from_lower, lower_idem.
  - intros url netloc pre d post Hn Hl Hd Hw.
    assert (domain_of w url = pre ++ d ++ post) as Hdom.
    { unfold domain_of. rewrite Hn, <- Hl. now apply replace_absent. }
    split; [exact Hdom|]. rewrite domain_allowed_eq.
    apply orb_true_iff. right. unfold any_allowed.
    apply existsb_exists. exists d. split.
    + apply list_elem_of_In, elem_of_elements, Hd.
    + rewrite Hdom. apply contains_middle.
Qed.

Lemma domain_match_is_by_substring_witness :
  domain_allowed sample_world default_config
    "https://m.thehindu.com/a" = true
  /\ domain_allowed sample_world default_config
       "https://thehindu.com.mirror.example/a" = true.
Proof.
  destruct (domain_match_is_by_substring sample_world default_config)
    as [_ H].
  split.
  - apply (H "https://m.thehindu.com/a" "m.thehindu.com" "m."
             "thehindu.com" EmptyString); reflexivity.
  - apply (H "https://thehindu.com.mirror.example/a"
             "thehindu.com.mirror.example" EmptyString
             "thehindu.com" ".mirror.example"); reflexivity.
Defined.

(** ** More on the content extractor *)

Lemma take_length_min (n : nat) (s : string) :
  String.length (Py.take n s) = Nat.min n (String.length s).
Proof.
  revert s. induction n as [|n IH]; intros [|c s]; cbn; try reflexivity.
  now rewrite IH.
Qed.

Lemma take_truthy (n : nat) (s : string) :
  0 < n -> s <> EmptyString -> Py.truthy (Py.take n s) = true.
Proof. destruct n, s; cbn; intros; try lia; congruence. Qed.

Lemma fetched_some (w : world) (cfg : config) (url : string) t err :
  fetched w cfg url (Some t, err) ->
  exists s n,
    n = 6000 /\ t = Py.take n (page_text s) /\ err = None
    /\ page_text s <> EmptyString
    /\ (MIN_ARTICLE_LENGTH cfg <= Z.of_nat (String.length (page_text s)))%Z.
Proof.
  intros H.
  refine (match H in fetched _ _ _ r
                return r = (Some t, err) -> _ with
          | fetched_text _ _ _ resp s Hget Herr Hparse Hne Hmin => _
          | _ => _
          end eq_refl); try discriminate.
  intros [= <- <-]. exists s, 6000. auto.
Qed.

(** X15: a text returned by [fetch_page] comes without an error message, is
    not empty and has at most 6000 characters.  When the minimum article
    length is at most 6000 the text reaches it; when the minimum is above
    6000, no text from a page can pass the filter chain. *)
Theorem fetched_text_bounds (w : world) (cfg : config) (url : string)
    (st st' : state) (t : string) (err : option string) :
  fetch_page w cfg url st = (Ret (Some t, err), st') ->
  err = None /\ t <> EmptyString /\ String.length t <= 6000
  /\ ((MIN_ARTICLE_LENGTH cfg <= 6000)%Z ->
      (MIN_ARTICLE_LENGTH cfg <= Z.of_nat (String.length t))%Z)
  /\ ((6000 < MIN_ARTICLE_LENGTH cfg)%Z ->
      forall e, fst (passes_filters w cfg e (Some t)) = false).
Proof.
  intros Hrun.
  destruct (fetch_page_fetched w cfg url) as (r & Hy & Hf).
  rewrite Hy in Hrun. injection Hrun as -> _.
  destruct (fetched_some w cfg url t err Hf)
    as (s & n & Hn & -> & -> & Hne & Hmin).
  assert (Z.of_nat n = 6000%Z) as H6 by (rewrite Hn; reflexivity).
  assert (0 < n) as Hpos by lia.
  pose proof (take_truthy n (page_text s) Hpos Hne) as Ht.
  pose proof (take_length n (page_text s)) as Hlen.
  pose proof (take_length_min n (page_text s)) as Hlen'.
  clear Hf Hy. rewrite <- Hn. clear Hn.
  generalize dependent (Py.take n (page_text s)). intros t Ht Hlen Hlen'.
  split; [reflexivity|]. split.
  { intros ->. discriminate. }
  split; [exact Hlen|]. split.
  - intros Hcap. lia.
  - intros Hcap e. apply passes_filters_short.
    unfold effective_len. rewrite Ht. lia.
Qed.

Lemma fetched_text_bounds_witness :
  String.length budget_text <= 6000
  /\ (150 <= Z.of_nat (String.length budget_text))%Z.
Proof.
  destruct (fetched_text_bounds sample_world default_config
              "https://www.thehindu.com/a" initial_state
              (State Missing [EvHttpGet "https://www.thehindu.com/a"])
              budget_text None eq_refl) as (_ & _ & H1 & H2 & _).
  split; [exact H1|]. apply H2. discriminate.
Defined.

(** ** The configuration *)

Lemma is_space_lower_char (c : ascii) :
  Py.is_space (Py.lower_char c) = Py.is_space c.
Proof. destruct c as [[] [] [] [] [] [] [] []]; reflexivity. Qed.

Lemma truthy_lower (s : string) : Py.truthy (Py.lower s) = Py.truthy s.
Proof. now destruct s. Qed.

Lemma lstrip_lower (s : string) : Py.lstrip (Py.lower s) = Py.lower (Py.lstrip s).
Proof.
  induction s as [|c s IH]; [reflexivity|]. cbn [Py.lower Py.lstrip].
  rewrite is_space_lower_char. now destruct (Py.is_space c).
Qed.

Lemma rstrip_lower (s : string) : Py.rstrip (Py.lower s) = Py.lower (Py.rstrip s).
Proof.
  induction s as [|c s IH]; [reflexivity|]. cbn [Py.lower Py.rstrip].
  rewrite is_space_lower_char, IH, truthy_lower.
  now destruct (Py.is_space c && negb (Py.truthy (Py.rstrip s))).
Qed.

Lemma strip_lower (s : string) : Py.strip (Py.lower s) = Py.lower (Py.strip s).
Proof. unfold Py.strip. now rewrite lstrip_lower, rstrip_lower. Qed.

Lemma lstrip_free (a : ascii) (s : string) :
  Py.contains (String a EmptyString) s = false ->
  Py.contains (String a EmptyString) (Py.lstrip s) = false.
Proof.
  induction s as [|c s IH]; [easy|]. intros H. cbn [Py.lstrip].
  destruct (Py.is_space c); [|exact H].
  rewrite contains_char in H. apply orb_false_iff in H as [_ H]. auto.
Qed.

Lemma rstrip_free (a : ascii) (s : string) :
  Py.contains (String a EmptyString) s = false ->
  Py.contains (String a EmptyString) (Py.rstrip s) = false.
Proof.
  induction s as [|c s IH]; [easy|]. intros H. cbn [Py.rstrip].
  rewrite contains_char in H. apply orb_false_iff in H as [Hc H].
  destruct (_ && _); [reflexivity|].
  rewrite contains_char, Hc. now apply IH.
Qed.

Lemma split_from_char_free (sep : ascii) (s : string) :
  Forall (fun p => Py.contains (String sep EmptyString) p = false)
         (split_char sep s).
Proof.
  unfold split_char. induction s as [|c s IH]; [repeat constructor|].
  cbn [split_from_char]. destruct (split_from_char sep s) as [p ps].
  inversion IH as [|? ? Hp Hps]; subst.
  destruct (Ascii.eqb c sep) eqn:E.
  - constructor; [reflexivity|]. now constructor.
  - constructor; [|exact Hps]. rewrite contains_char, Hp.
    rewrite Ascii.eqb_sym, E. reflexivity.
Qed.

(** Every part is [f] of a stripped, non-empty, comma-free piece. *)
Lemma stripped_parts_in (f : string -> string) (raw x : string) :
  In x (stripped_parts f raw) ->
  exists s, x = f s /\ s <> EmptyString /\ Py.strip s = s
            /\ Py.contains "," s = false.
Proof.
  unfold stripped_parts. intros (piece & <- & Hin)%in_map_iff.
  apply list_elem_of_In, list_elem_of_filter in Hin as [Ht Hin].
  exists (Py.strip piece). split; [reflexivity|]. split.
  { intros E. rewrite E in Ht. discriminate. }
  split; [apply strip_idem|].
  apply list_elem_of_In in Hin.
  pose proof (split_from_char_free "," raw) as Hfree.
  rewrite List.Forall_forall in Hfree.
  unfold Py.strip. apply rstrip_free, lstrip_free, Hfree, Hin.
Qed.

Lemma join_cons_char (sep : string) (c : ascii) (p : string)
    (ps : list string) :
  Py.join sep (String c p :: ps) = String c (Py.join sep (p :: ps)).
Proof. destruct ps; reflexivity. Qed.

(** Splitting at a character loses nothing: the pieces, joined by it, are
    the text again. *)
Lemma split_char_rejoin (sep : ascii) (s : string) :
  Py.join (String sep EmptyString) (split_char sep s) = s.
Proof.
  unfold split_char. induction s as [|c s IH]; [reflexivity|].
  cbn [split_from_char]. destruct (split_from_char sep s) as [p ps].
  destruct (Ascii.eqb_spec c sep) as [->|Hne].
  - change (Py.join (String sep EmptyString) (EmptyString :: p :: ps))
      with (String sep (Py.join (String sep EmptyString) (p :: ps))).
    now rewrite IH.
  - rewrite join_cons_char. now rewrite IH.
Qed.

Lemma stripped_parts_filter (l : list string) :
  map (fun s => Py.strip s)
      (filter (fun s => Py.truthy (Py.strip s) = true) l)
  = List.filter Py.truthy (map Py.strip l).
Proof.
  induction l as [|x l IH]; [reflexivity|].
  rewrite filter_cons. cbn [map List.filter].
  destruct (decide (Py.truthy (Py.strip x) = true)) as [H|H].
  - rewrite H. cbn [map]. now rewrite IH.
  - apply not_true_is_false in H. now rewrite H.
Qed.

(** X16: [get_env_list] gives the default when the variable is unset, empty
    or blank.  Otherwise the value is cut at its commas, into pieces that
    hold no comma and that, joined by commas, are the value again; the
    result is these pieces, in their order, each one stripped, the empty
    ones left out.  So no part is empty, has whitespace at its ends or
    contains a comma, and the default plays no part, even if no part is
    left. *)
Theorem get_env_list_parts (environ : gmap string string) (name : string)
    (default : list string) :
  let raw := environ_get environ name EmptyString in
  (environ !! name = None -> get_env_list environ name default = default)
  /\ (Py.strip raw = EmptyString ->
      get_env_list environ name default = default)
  /\ (Py.strip raw <> EmptyString ->
      exists pieces,
        Py.join "," pieces = raw
        /\ (forall p, In p pieces -> Py.contains "," p = false)
        /\ get_env_list environ name default
           = List.filter Py.truthy (map Py.strip pieces)
        /\ forall x, In x (get_env_list environ name default) ->
             x <> EmptyString /\ Py.strip x = x
             /\ Py.contains "," x = false).
Proof.
  intros raw. unfold get_env_list. fold raw. split; [|split].
  - intros H. unfold raw, environ_get. now rewrite H.
  - intros H. now rewrite H.
  - intros H. destruct (Py.strip raw) eqn:E; [congruence|].
    cbn [Py.truthy]. exists (split_char "," raw).
    split; [apply split_char_rejoin|]. split.
    { apply List.Forall_forall, split_from_char_free. }
    split; [apply stripped_parts_filter|]. intros x Hx.
    destruct (stripped_parts_in _ _ _ Hx) as (part & -> & ? & ? & ?). auto.
Qed.

Lemma get_env_list_parts_witness :
  (exists pieces,
     Py.join "," pieces = " https://a.example/rss , ,https://b.example/rss "
     /\ get_env_list
          {[ "FEED_URLS" := " https://a.example/rss , ,https://b.example/rss " ]}
          "FEED_URLS" DEFAULT_FEEDS
        = List.filter Py.truthy (map Py.strip pieces))
  /\ get_env_list {[ "FEED_URLS" := "   " ]} "FEED_URLS" DEFAULT_FEEDS
     = DEFAULT_FEEDS
  /\ get_env_list ∅ "FEED_URLS" DEFAULT_FEEDS = DEFAULT_FEEDS.
Proof.
  split.
  { destruct (get_env_list_parts
                {[ "FEED_URLS" := " https://a.example/rss , ,https://b.example/rss " ]}
                "FEED_URLS" DEFAULT_FEEDS) as (_ & _ & H).
    destruct H as (pieces & Hj & _ & Hg & _); [vm_compute; discriminate|].
    exists pieces. split; [exact Hj | exact Hg]. }
  split.
  { apply (get_env_list_parts {[ "FEED_URLS" := "   " ]}
             "FEED_URLS" DEFAULT_FEEDS). reflexivity. }
  apply (get_env_list_parts ∅ "FEED_URLS" DEFAULT_FEEDS). reflexivity.
Defined.

Lemma default_allow_domains_normal (d : string) :
  d ∈ DEFAULT_ALLOW_DOMAINS ->
  d <> EmptyString /\ Py.lower d = d /\ Py.strip d = d.
Proof.
  unfold DEFAULT_ALLOW_DOMAINS. rewrite elem_of_list_to_set.
  intros H. repeat (apply elem_of_cons in H as [-> | H]);
    [split; [discriminate|split; reflexivity]..|].
  now apply elem_of_nil in H.
Qed.

(** X17: whatever the environment is, the allow-list of the configuration
    is never empty: a value that is unset, blank or without any part brings
    the default list back, so the domain check cannot be switched off.  Its
    entries are non-empty, in lower case and without whitespace at their
    ends, and a URL is allowed exactly when one of them occurs in its
    domain. *)
Theorem allow_list_is_never_empty (environ : gmap string string)
    (max_items max_per_feed min_article_length : Z) (gemini : bool) :
  let cfg := config_of_environ environ max_items max_per_feed
               min_article_length gemini in
  ALLOW_DOMAINS cfg <> ∅
  /\ (forall d, d ∈ ALLOW_DOMAINS cfg ->
        d <> EmptyString /\ Py.lower d = d /\ Py.strip d = d)
  /\ (stripped_parts Py.lower (environ_get environ "ALLOW_DOMAINS" EmptyString)
      = [] -> ALLOW_DOMAINS cfg = DEFAULT_ALLOW_DOMAINS)
  /\ (forall w url,
        domain_allowed w cfg url = true <->
        exists d, d ∈ ALLOW_DOMAINS cfg
                  /\ Py.contains d (domain_of w url) = true).
Proof.
  intros cfg.
  assert (ALLOW_DOMAINS cfg <> ∅) as Hne.
  { cbn. unfold environ_allow_domains.
    destruct (bool_decide _) eqn:E;
      [apply default_allow_domains_nonempty|].
    now apply bool_decide_eq_false in E. }
  split; [exact Hne|]. split; [|split].
  - cbn. unfold environ_allow_domains. intros d.
    destruct (bool_decide _); [apply default_allow_domains_normal|].
    rewrite elem_of_list_to_set. intros Hd%list_elem_of_In.
    destruct (stripped_parts_in _ _ _ Hd) as (part & -> & Hs & Hstrip & _).
    split; [|split].
    + intros E. apply Hs. destruct part; [reflexivity|discriminate].
    + apply lower_idem.
    + now rewrite strip_lower, Hstrip.
  - intros Hnil. cbn. unfold environ_allow_domains. rewrite Hnil.
    reflexivity.
  - intros w url. rewrite domain_allowed_eq.
    rewrite (bool_decide_eq_false_2 _ Hne). cbn [orb].
    unfold any_allowed. rewrite existsb_exists. split.
    + intros (d & Hd & Hc). exists d. split; [|exact Hc].
      now apply elem_of_elements, list_elem_of_In.
    + intros (d & Hd & Hc). exists d. split; [|exact Hc].
      now apply list_elem_of_In, elem_of_elements.
Qed.

Lemma allow_list_is_never_empty_witness :
  ALLOW_DOMAINS (config_of_environ {[ "ALLOW_DOMAINS" := " , " ]} 10 25 150 false)
  = DEFAULT_ALLOW_DOMAINS
  /\ ALLOW_DOMAINS
       (config_of_environ {[ "ALLOW_DOMAINS" := " The-Wire.IN ,NDTV.com" ]}
          10 25 150 false)
     = {[ "the-wire.in"; "ndtv.com" ]}.
Proof.
  split.
  - apply (allow_list_is_never_empty {[ "ALLOW_DOMAINS" := " , " ]}
             10 25 150 false). reflexivity.
  - vm_compute. reflexivity.
Defined.

Lemma strip_blank (s : string) :
  Py.strip s = EmptyString <-> Py.lstrip s = EmptyString.
Proof.
  unfold Py.strip. split; [|now intros ->].
  pose proof (lstrip_clean s) as Hc.
  destruct (Py.lstrip s) as [|c r]; [reflexivity|].
  cbn in Hc. apply negb_true_iff in Hc. cbn [Py.rstrip]. rewrite Hc.
  discriminate.
Qed.

Lemma split_char_blank (sep : ascii) (s : string) :
  Py.lstrip s = EmptyString ->
  Forall (fun p => Py.lstrip p = EmptyString) (split_char sep s).
Proof.
  unfold split_char. induction s as [|c s IH]; [repeat constructor|].
  cbn [Py.lstrip split_from_char]. destruct (Py.is_space c) eqn:E;
    [|discriminate].
  intros H. specialize (IH H). destruct (split_from_char sep s) as [p ps].
  inversion IH as [|? ? Hp Hps]; subst.
  destruct (Ascii.eqb c sep).
  - constructor; [reflexivity|]. now constructor.
  - constructor; [|exact Hps]. cbn [Py.lstrip]. now rewrite E.
Qed.

Lemma stripped_parts_blank (f : string -> string) (raw : string) :
  Py.strip raw = EmptyString -> stripped_parts f raw = [].
Proof.
  intros H%strip_blank. unfold stripped_parts.
  pose proof (split_char_blank "," raw H) as Hall.
  induction Hall as [|p ps Hp _ IH]; [reflexivity|].
  rewrite filter_cons_False; [exact IH|].
  apply strip_blank in Hp. rewrite Hp. discriminate.
Qed.

(** X18: the include and exclude keywords of the configuration are
    non-empty, in lower case and without whitespace at their ends, whatever
    the variable holds; an unset or blank variable gives no keyword, so
    that no keyword check is made. *)
Theorem keywords_are_normalised (environ : gmap string string) (name : string) :
  (forall k, In k (environ_keywords environ name) ->
     k <> EmptyString /\ Py.lower k = k /\ Py.strip k = k)
  /\ (environ !! name = None -> environ_keywords environ name = [])
  /\ (Py.strip (environ_get environ name EmptyString) = EmptyString ->
      environ_keywords environ name = []).
Proof.
  unfold environ_keywords. split; [|split].
  - intros k Hk.
    destruct (stripped_parts_in _ _ _ Hk) as (part & -> & Hs & Hstrip & _).
    split; [|split].
    + intros E. apply Hs. destruct part; [reflexivity|discriminate].
    + apply lower_idem.
    + now rewrite strip_lower, Hstrip.
  - intros H. unfold environ_get. now rewrite H.
  - apply stripped_parts_blank.
Qed.

Lemma keywords_are_normalised_witness :
  environ_keywords {[ "EXCLUDE_KEYWORDS" := " Cricket, ,BOLLYWOOD gossip " ]}
    "EXCLUDE_KEYWORDS"
  = ["cricket"; "bollywood gossip"]
  /\ environ_keywords {[ "EXCLUDE_KEYWORDS" := "  " ]} "EXCLUDE_KEYWORDS" = []
  /\ environ_keywords ∅ "EXCLUDE_KEYWORDS" = [].
Proof.
  split; [reflexivity|]. split.
  - apply (keywords_are_normalised {[ "EXCLUDE_KEYWORDS" := "  " ]}
             "EXCLUDE_KEYWORDS"). reflexivity.
  - apply (keywords_are_normalised ∅ "EXCLUDE_KEYWORDS"). reflexivity.
Defined.

(** ** More on the store of sent URLs *)

Lemma insert_sorted_hd (a x : string) (l : list string) :
  String.leb a x = true ->
  HdRel (fun u v => String.leb u v = true) a l ->
  HdRel (fun u v => String.leb u v = true) a (insert_sorted x l).
Proof.
  intros Hax Hl. destruct l as [|y l]; cbn; [now constructor|].
  destruct (String.leb x y); constructor; [exact Hax|].
  now inversion Hl.
Qed.

Lemma insert_sorted_sorted (x : string) (l : list string) :
  Sorted (fun u v => String.leb u v = true) l ->
  Sorted (fun u v => String.leb u v = true) (insert_sorted x l).
Proof.
  induction 1 as [|y l Hl IH Hy]; cbn; [repeat constructor|].
  destruct (String.leb x y) eqn:E.
  - constructor; [now constructor|]. now constructor.
  - constructor; [exact IH|]. apply insert_sorted_hd; [|exact Hy].
    destruct (String.leb_total x y) as [H | H]; congruence.
Qed.

Lemma sorted_sorted (l : list string) :
  Sorted (fun u v => String.leb u v = true) (sorted l).
Proof.
  induction l as [|x l IH]; cbn; [constructor|].
  now apply insert_sorted_sorted.
Qed.

(** X19: [save_sent_set] never raises.  With persistence on and a write
    that goes through, the file holds an array that is in ascending order,
    has no duplicates and holds exactly the URLs of the set.  With
    persistence off, or when the file cannot be opened for writing, the
    file is left as it was.  When the write raises after the file was
    opened, the file is left emptied: the next load gives the empty set,
    whatever was stored before. *)
Theorem saved_file_is_sorted (w : world) (cfg : config) (sent : gset string)
    (st : state) :
  fst (save_sent_set w cfg sent st) = Ret tt
  /\ trace (snd (save_sent_set w cfg sent st)) = trace st
  /\ (PERSIST_SENT cfg = false
      \/ (file_writable w = false /\ write_failure w = AtOpen) ->
      snd (save_sent_set w cfg sent st) = st)
  /\ (PERSIST_SENT cfg = true -> write_truncates w = true ->
      sent_file (snd (save_sent_set w cfg sent st)) = Corrupt
      /\ fst (load_sent_set cfg (snd (save_sent_set w cfg sent st))) = Ret ∅)
  /\ (PERSIST_SENT cfg = true -> file_writable w = true ->
      exists l,
        sent_file (snd (save_sent_set w cfg sent st)) = Json (JsonArray l)
        /\ Sorted (fun u v => String.leb u v = true) l
        /\ List.NoDup l
        /\ forall u, In u l <-> u ∈ sent).
Proof.
  rewrite save_sent_set_run. cbn [fst snd]. split; [reflexivity|].
  split; [destruct (_ && _); [|destruct (_ && _)]; reflexivity|]. split.
  { intros [-> | [Hw Hf]]; [reflexivity|].
    unfold write_truncates. rewrite Hw, Hf, !andb_false_r.
    now destruct st. }
  split.
  - intros Hp Ht. rewrite Hp. unfold write_truncates in *.
    destruct (file_writable w); [discriminate|]. rewrite Ht.
    cbn [andb sent_file]. split; [reflexivity|].
    now rewrite load_sent_set_run, Hp.
  - intros -> ->. cbn [andb sent_file]. exists (sorted (elements sent)).
    split; [reflexivity|]. split; [apply sorted_sorted|]. split.
    + apply (Permutation_NoDup (Permutation_sym (sorted_perm _))).
      apply NoDup_ListNoDup, NoDup_elements.
    + intros u. rewrite <- elem_of_elements, <- list_elem_of_In.
      now rewrite (sorted_perm (elements sent)).
Qed.

Lemma saved_file_is_sorted_witness :
  (exists l,
     sent_file (snd (save_sent_set sample_world default_config
                       {[ "https://www.thehindu.com/a";
                          "https://www.indiatoday.in/b" ]} initial_state))
     = Json (JsonArray l)
     /\ Sorted (fun u v => String.leb u v = true) l
     /\ List.NoDup l)
  /\ sent_file (snd (save_sent_set full_disk_world default_config
                       {[ "https://www.thehindu.com/a" ]}
                       (State (Json (JsonArray ["https://www.ndtv.com/c"])) [])))
     = Corrupt.
Proof.
  split.
  - destruct (saved_file_is_sorted sample_world default_config
                {[ "https://www.thehindu.com/a"; "https://www.indiatoday.in/b" ]}
                initial_state) as (_ & _ & _ & _ & H).
    destruct (H eq_refl eq_refl) as (l & Hl & Hs & Hn & _).
    exists l. auto.
  - apply (saved_file_is_sorted full_disk_world default_config
             {[ "https://www.thehindu.com/a" ]}
             (State (Json (JsonArray ["https://www.ndtv.com/c"])) []));
      reflexivity.
Defined.

(** ** The single-story script *)

Lemma get_article_text_yields (w : world) (url : string) :
  exists res,
    yields (MainPy.get_article_text w url) res [EvHttpGet url]
    /\ res = match requests_get w url with
             | Ret resp =>
                 match parsed_content resp with
                 | Ret soup =>
                     if (String.length (Py.join " " (find_all_p soup)) <? 200)%nat
                     then None
                     else Some (Py.join " " (find_all_p soup))
                 | Raise _ => None
                 end
             | Raise _ => None
             end.
Proof.
  unfold MainPy.get_article_text.
  destruct (requests_get w url) as [resp|ex] eqn:Hget.
  2:{ exists None. split; [run_M|reflexivity]. }
  destruct (parsed_content resp) as [soup|ex] eqn:Hparse.
  2:{ exists None. split; [run_M|reflexivity]. }
  destruct (String.length (Py.join " " (find_all_p soup)) <? 200)%nat eqn:Hlen.
  - exists None. split; [|reflexivity]. intros st.
    unfold try_except, bind, emit, lift, ret. cbv beta iota zeta.
    rewrite ?Hget. cbv beta iota zeta. rewrite ?Hparse. cbv beta iota zeta.
    rewrite ?Hlen. reflexivity.
  - exists (Some (Py.join " " (find_all_p soup))). split; [|reflexivity].
    intros st.
    unfold try_except, bind, emit, lift, ret. cbv beta iota zeta.
    rewrite ?Hget. cbv beta iota zeta. rewrite ?Hparse. cbv beta iota zeta.
    rewrite ?Hlen. reflexivity.
Qed.

(** X20: [get_article_text] of [main.py] never raises and requests the page
    once.  It returns the texts of all paragraphs joined by spaces when
    they make 200 characters or more, whatever the status of the response
    is, and [None] when they are shorter or when the request or the
    parsing raises. *)
Theorem get_article_text_threshold (w : world) (url : string) (st : state) :
  exists res,
    MainPy.get_article_text w url st = (Ret res, after st [EvHttpGet url])
    /\ (forall t, res = Some t -> 200 <= String.length t)
    /\ (forall resp soup,
          requests_get w url = Ret resp -> parsed_content resp = Ret soup ->
          let text := Py.join " " (find_all_p soup) in
          (200 <= String.length text -> res = Some text)
          /\ (String.length text < 200 -> res = None))
    /\ ((exists ex, requests_get w url = Raise ex)
        \/ (exists resp ex, requests_get w url = Ret resp
                            /\ parsed_content resp = Raise ex) ->
        res = None).
Proof.
  destruct (get_article_text_yields w url) as (res & Hrun & Hres).
  exists res. split; [apply Hrun|]. split; [|split].
  - intros t Ht. rewrite Ht in Hres.
    destruct (requests_get w url) as [resp|]; [|discriminate].
    destruct (parsed_content resp) as [soup|]; [|discriminate].
    destruct (Nat.ltb_spec (String.length (Py.join " " (find_all_p soup))) 200);
      [discriminate|].
    injection Hres as ->. assumption.
  - intros resp soup Hget Hparse text. rewrite Hget, Hparse in Hres.
    fold text in Hres. split; intros Hlen.
    + apply Nat.ltb_ge in Hlen. now rewrite Hlen in Hres.
    + apply Nat.ltb_lt in Hlen. now rewrite Hlen in Hres.
  - intros [[ex Hget] | (resp & ex & Hget & Hparse)].
    + now rewrite Hget in Hres.
    + now rewrite Hget, Hparse in Hres.
Qed.

Lemma get_article_text_threshold_witness :
  fst (MainPy.get_article_text sample_world "https://www.thehindu.com/a"
         initial_state)
  = Ret (Some (budget_text ++ " Subscribe now"))
  /\ fst (MainPy.get_article_text sample_world "https://www.ndtv.com/c"
            initial_state) = Ret None.
Proof.
  split.
  - destruct (get_article_text_threshold sample_world
                "https://www.thehindu.com/a" initial_state)
      as (res & Hrun & _ & H & _).
    rewrite Hrun. cbn [fst]. f_equal.
    destruct (H _ _ eq_refl eq_refl) as [H1 _]. rewrite H1; [reflexivity|].
    vm_compute. lia.
  - destruct (get_article_text_threshold sample_world
                "https://www.ndtv.com/c" initial_state)
      as (res & Hrun & _ & H & _).
    rewrite Hrun. cbn [fst]. f_equal.
    destruct (H _ _ eq_refl eq_refl) as [_ H2]. apply H2.
    vm_compute. lia.
Defined.

Ltac script_run :=
  intros ?st;
  unfold MainPy.script, MainPy.attribute, MainPy.response_text,
    MainPy.send_email, try_except, bind, emit, lift, raise, ret;
  cbv beta iota zeta;
  repeat (match goal with
          | H : ?x = _ |- context [?x] => rewrite H
          | H : yields ?m _ _ |- context [?m ?s] => rewrite (H s)
          end; cbv beta iota zeta);
  unfold after; cbn [sent_file trace]; rewrite <- ?app_assoc; reflexivity.

Ltac no_mail :=
  split; [cbn; lia|]; split; [cbn; lia|];
  split; [intros ? ? Hin; cbn [In] in Hin;
          repeat (destruct Hin as [Hin | Hin]; [discriminate Hin|]);
          destruct Hin|].

(** X21: the script of [main.py] keeps no state: what it returns and what it
    does are the same from every state, so a second run repeats the first.
    It requests at most one page and sends at most one mail; a mail is sent
    only when the feed has a first entry with link and title, its page gives
    200 characters or more, and Gemini answers with a text, which the mail
    carries; there is no other summary to fall back on, and a failing
    delivery does not raise.  The script raises only when parsing the feed
    raises or the first entry lacks its link or title. *)
Theorem script_is_one_shot (w : world) :
  exists r evs,
    (forall st, MainPy.script w st = (r, after st evs))
    /\ count_events is_smtp evs <= 1
    /\ count_events is_http_get evs <= 1
    /\ (forall subject body, In (EvSmtp subject body) evs ->
          r = Ret tt
          /\ exists first rest url ttl text resp summary,
               feedparser_parse w MainPy.news_feed_url = Ret (first :: rest)
               /\ link first = Some url /\ title first = Some ttl
               /\ fst (MainPy.get_article_text w url initial_state)
                  = Ret (Some text)
               /\ generate_content w (MainPy.prompt_of ttl text) = Ret resp
               /\ text_attr resp = Some (Ret summary)
               /\ subject = "Your Daily News Digest - " ++ today_long w
               /\ body = MainPy.email_body ttl url summary)
    /\ (forall ex, r = Raise ex ->
          feedparser_parse w MainPy.news_feed_url = Raise ex
          \/ exists first rest,
               feedparser_parse w MainPy.news_feed_url = Ret (first :: rest)
               /\ (link first = None \/ title first = None)).
Proof.
  destruct (feedparser_parse w MainPy.news_feed_url) as [[|first rest]|ex]
    eqn:Hfeed.
  3:{ exists (Raise ex), [EvFeed MainPy.news_feed_url].
      split; [script_run|]. no_mail. intros ? [= ->]. now left. }
  { exists (Ret tt), [EvFeed MainPy.news_feed_url].
    split; [script_run|]. no_mail. discriminate. }
  destruct (link first) as [url|] eqn:Hlink.
  2:{ exists (Raise (OtherException "AttributeError")),
        [EvFeed MainPy.news_feed_url].
      split; [script_run|]. no_mail. intros ? _. right. eauto. }
  destruct (title first) as [ttl|] eqn:Htitle.
  2:{ exists (Raise (OtherException "AttributeError")),
        [EvFeed MainPy.news_feed_url].
      split; [script_run|]. no_mail. intros ? _. right. eauto. }
  destruct (get_article_text_yields w url) as (res & Hart & _).
  destruct res as [text|].
  2:{ exists (Ret tt), [EvFeed MainPy.news_feed_url; EvHttpGet url].
      split; [script_run|]. no_mail. discriminate. }
  destruct (Py.truthy text) eqn:Htruthy.
  2:{ exists (Ret tt), [EvFeed MainPy.news_feed_url; EvHttpGet url].
      split; [script_run|]. no_mail. discriminate. }
  destruct (generate_content w (MainPy.prompt_of ttl text)) as [resp|ex]
    eqn:Hgen.
  2:{ exists (Ret tt), [EvFeed MainPy.news_feed_url; EvHttpGet url;
                        EvGenerate (MainPy.prompt_of ttl text)].
      split; [script_run|]. no_mail. discriminate. }
  destruct (text_attr resp) as [[summary|ex]|] eqn:Htext.
  2,3: (exists (Ret tt), [EvFeed MainPy.news_feed_url; EvHttpGet url;
                          EvGenerate (MainPy.prompt_of ttl text)];
        split; [script_run|]; no_mail; discriminate).
  exists (Ret tt),
    [EvFeed MainPy.news_feed_url; EvHttpGet url;
     EvGenerate (MainPy.prompt_of ttl text);
     EvSmtp ("Your Daily News Digest - " ++ today_long w)
            (MainPy.email_body ttl url summary)].
  split.
  { destruct (smtp_deliver w ("Your Daily News Digest - " ++ today_long w)
                (MainPy.email_body ttl url summary)) as [[]|ex] eqn:Hsmtp;
      script_run. }
  split; [cbn; lia|]. split; [cbn; lia|]. split; [|discriminate].
  intros subject body Hin. cbn [In] in Hin.
  do 3 (destruct Hin as [Hin | Hin]; [discriminate Hin|]).
  destruct Hin as [[= <- <-] | []]. split; [reflexivity|].
  exists first, rest, url, ttl, text, resp, summary.
  rewrite (Hart initial_state). auto 10.
Qed.

(** ** More on the summarizer *)

Lemma contains_app_r (d p s : string) :
  Py.contains d s = true -> Py.contains d (p ++ s) = true.
Proof.
  intros H. induction p as [|c p IH]; [exact H|].
  change (String c p ++ s) with (String c (p ++ s)).
  cbn [Py.contains]. rewrite IH. apply orb_true_r.
Qed.

Lemma contains_prefix (d s : string) : Py.contains d (d ++ s) = true.
Proof. apply (contains_middle EmptyString d s). Qed.

(** X22: [summarize] never touches the file.  When a key and the Gemini
    client are at hand it makes exactly one call, with a prompt that carries
    the title and the text, and returns the stripped text of the response;
    a response without text, or with an empty one, gives [str(response)]
    and not the extractive summary.  Without key or client no call is
    made. *)
Theorem summarize_calls_gemini_once (w : world) (cfg : config)
    (title text : string) (st : state) :
  exists s evs,
    summarize w cfg title text st = (Ret s, after st evs)
    /\ (Py.truthy (GOOGLE_API_KEY cfg) && GEMINI_AVAILABLE cfg = false ->
        evs = [])
    /\ (Py.truthy (GOOGLE_API_KEY cfg) && GEMINI_AVAILABLE cfg = true ->
        evs = [EvGenerate (prompt_of title text)]
        /\ Py.contains title (prompt_of title text) = true
        /\ Py.contains text (prompt_of title text) = true
        /\ forall resp,
             generate_content w (prompt_of title text) = Ret resp ->
             (forall t, text_attr resp = Some (Ret t) -> t <> EmptyString ->
                s = Py.strip t)
             /\ (text_attr resp = None
                 \/ text_attr resp = Some (Ret EmptyString) ->
                 s = resp_str resp)).
Proof.
  assert (Py.contains title (prompt_of title text) = true) as Htitle.
  { unfold prompt_of. do 8 apply contains_app_r. apply contains_prefix. }
  assert (Py.contains text (prompt_of title text) = true) as Htext.
  { unfold prompt_of. do 13 apply contains_app_r. apply contains_prefix. }
  destruct (Py.truthy (GOOGLE_API_KEY cfg) && GEMINI_AVAILABLE cfg) eqn:Hk.
  2:{ exists (simple_extractive_summary text 3), [].
      split; [unfold summarize; rewrite Hk; apply yields_ret|].
      split; [reflexivity|discriminate]. }
  destruct (generate_content w (prompt_of title text)) as [resp|ex] eqn:Hg.
  2:{ exists (simple_extractive_summary text 3),
        [EvGenerate (prompt_of title text)].
      split; [revert st; unfold summarize; rewrite Hk; run_M|].
      split; [discriminate|]. intros _. repeat (split; [easy|]).
      discriminate. }
  destruct (text_attr resp) as [[t|ex]|] eqn:Ht.
  - exists (if Py.truthy t then Py.strip t else resp_str resp),
      [EvGenerate (prompt_of title text)].
    split.
    { revert st. unfold summarize, response_text. rewrite Hk. run_M.
      now destruct (Py.truthy t). }
    split; [discriminate|]. intros _. repeat (split; [easy|]).
    intros resp' [= <-]. rewrite Ht. split.
    + intros t' [= <-] Hne. destruct t; [congruence|reflexivity].
    + intros [H | [= ->]]; [discriminate H|reflexivity].
  - exists (simple_extractive_summary text 3),
      [EvGenerate (prompt_of title text)].
    split; [revert st; unfold summarize, response_text; rewrite Hk; run_M|].
    split; [discriminate|]. intros _. repeat (split; [easy|]).
    intros resp' [= <-]. rewrite Ht. split; [discriminate|].
    intros [H | H]; discriminate H.
  - exists (resp_str resp), [EvGenerate (prompt_of title text)].
    split; [revert st; unfold summarize, response_text; rewrite Hk; run_M|].
    split; [discriminate|]. intros _. repeat (split; [easy|]).
    intros resp' [= <-]. rewrite Ht. split; [discriminate|reflexivity].
Qed.

Lemma summarize_calls_gemini_once_witness :
  (exists s,
     summarize sample_world gemini_config "Budget announced" budget_text
       initial_state
     = (Ret s, State Missing
                 [EvGenerate (prompt_of "Budget announced" budget_text)]))
  /\ (exists s,
        summarize sample_world default_config "Budget announced" budget_text
          initial_state
        = (Ret s, initial_state)).
Proof.
  split.
  - destruct (summarize_calls_gemini_once sample_world gemini_config
                "Budget announced" budget_text initial_state)
      as (s & evs & Hrun & _ & Hon).
    exists s. destruct (Hon eq_refl) as (-> & _). exact Hrun.
  - destruct (summarize_calls_gemini_once sample_world default_config
                "Budget announced" budget_text initial_state)
      as (s & evs & Hrun & Hoff & _).
    exists s. rewrite (Hoff eq_refl) in Hrun. exact Hrun.
Defined.
